(** * Lutron Caseta bridge module: pairing, connection and discovery

    A shallow embedding of [src/main.ts] (the [ModuleInstance] class with
    separate configuration and secrets records) and of the types of
    [src/config.ts], together with the properties of the specification that
    concern pairing, credential storage, identity resolution, device
    enumeration and the discovery registry.

    Conventions of the embedding.
    - An [async] method is a function from the instance before the call to a
      [Run]: how the promise settled, the instance afterwards, and the calls
      it made on the host and on the libraries, in program order.
    - Everything the method awaits is answered by an environment record
      ([PairingEnv], [SessionEnv]): one field per awaited call.
    - The methods are modelled one invocation at a time.  Discovery events
      are delivered by the listener [discovered], also while a method is
      suspended; [pairWithBridge] reads the registry once, in the
      straight-line code after its last [await], and nothing else in it
      reads or writes the registry, so the registry of the instance it is
      run on stands for the registry at that moment. *)

From stdpp Require Import base gmap list strings.
From Stdlib Require Import ZArith Permutation.

Local Open Scope Z_scope.

(** ** Data model ([src/config.ts] and the types [main.ts] imports) *)

Record ModuleConfig := {
  host : string;
  port : Z;
  bridgeID : option string;
}.

(** [BridgeCerts].  The interface declares three strings; [ca] and
    [certificate] are assigned from fields of the signing response that the
    code reads without a check, so each holds a string or [undefined];
    [privateKey] is the result of [privateKeyToPem]. *)
Record BridgeCerts := {
  ca : option string;
  certificate : option string;
  privateKey : string;
}.

Record ModuleSecrets := {
  bridgeCerts : option BridgeCerts;
}.

(** [BridgeNetInfo] of the discovery library, at the fields the listener
    reads. *)
Record BridgeNetInfo := {
  ipAddr : string;
  bridgeid : string;
  systype : string;
}.

(** [DeviceDefinition] of the session library, at the fields the module
    reads.  [AssociatedArea] is an optional reference (its [href]). *)
Record DeviceDefinition := {
  Name : string;
  SerialNumber : string;
  DeviceType : string;
  ModelNumber : string;
  AssociatedArea : option string;
}.

(** [Body.SigningResult] of a message, when the message has one.  The
    code reads its two fields from a value of type [any], without a check:
    each is a string or is missing. *)
Record SigningResult := {
  RootCertificate : option string;
  Certificate : option string;
}.

(** An inbound message of the pairing client, at the fields
    [pairWithBridge] reads.  [Header.StatusCode] is the status every
    message of the protocol carries in its header.
    [Body.Status.Permissions] is read by the first listener at the type it
    casts the message to, [{ Body: { Status: { Permissions: string[] } } }].
    [Body.SigningResult] is read from the untyped result of the second
    wait: a status message has none. *)
Record PairingMessage := {
  StatusCode : string;
  Permissions : list string;
  Body_SigningResult : option SigningResult;
}.

(** A key pair of the cryptography library; the key objects are opaque to
    the module and are carried as the library's own encoding. *)
Record KeyPair := {
  publicKey : string;
  keyPrivateKey : string;
}.

#[global] Instance ModuleConfig_eq_dec : EqDecision ModuleConfig.
Proof. solve_decision. Defined.
#[global] Instance BridgeCerts_eq_dec : EqDecision BridgeCerts.
Proof. solve_decision. Defined.
#[global] Instance ModuleSecrets_eq_dec : EqDecision ModuleSecrets.
Proof. solve_decision. Defined.
#[global] Instance DeviceDefinition_eq_dec : EqDecision DeviceDefinition.
Proof. solve_decision. Defined.

Definition PAIRING_PORT : Z := 8083.
Definition LEAP_PORT : Z := 8081.
Definition UNKNOWN_BRIDGE_ID : string := "unknown-bridge-id".

(** The instance fields of [class ModuleInstance]. *)
Record ModuleInstance := {
  config : ModuleConfig;
  secrets : ModuleSecrets;
  discoveredBridges : gmap string string;   (* Record<string, string>: address to id *)
  bridge : option string;      (* the id the SmartBridge object was built with *)
  devicesOnBridge : list DeviceDefinition;
}.

Definition set_config (c : ModuleConfig) (this : ModuleInstance) : ModuleInstance :=
  {| config := c; secrets := secrets this;
     discoveredBridges := discoveredBridges this; bridge := bridge this;
     devicesOnBridge := devicesOnBridge this |}.

Definition set_secrets (s : ModuleSecrets) (this : ModuleInstance) : ModuleInstance :=
  {| config := config this; secrets := s;
     discoveredBridges := discoveredBridges this; bridge := bridge this;
     devicesOnBridge := devicesOnBridge this |}.

Definition set_discoveredBridges (m : gmap string string) (this : ModuleInstance)
  : ModuleInstance :=
  {| config := config this; secrets := secrets this;
     discoveredBridges := m; bridge := bridge this;
     devicesOnBridge := devicesOnBridge this |}.

Definition set_bridge (b : option string) (this : ModuleInstance) : ModuleInstance :=
  {| config := config this; secrets := secrets this;
     discoveredBridges := discoveredBridges this; bridge := b;
     devicesOnBridge := devicesOnBridge this |}.

Definition set_devicesOnBridge (l : list DeviceDefinition) (this : ModuleInstance)
  : ModuleInstance :=
  {| config := config this; secrets := secrets this;
     discoveredBridges := discoveredBridges this; bridge := bridge this;
     devicesOnBridge := l |}.

(** [this.config.bridgeID = id] *)
Definition set_bridgeID (id : option string) (this : ModuleInstance) : ModuleInstance :=
  set_config {| host := host (config this); port := port (config this);
                bridgeID := id |} this.

(** [this.secrets.bridgeCerts = certs] *)
Definition set_bridgeCerts (certs : option BridgeCerts) (this : ModuleInstance)
  : ModuleInstance :=
  set_secrets {| bridgeCerts := certs |} this.

(** JavaScript truthiness of an optional string: [undefined] and the empty
    string are falsy. *)
Definition truthy (s : option string) : bool :=
  match s with
  | Some s => negb (String.eqb s "")
  | None => false
  end.

(** ** Calls on the host and on the libraries *)

Inductive InstanceStatus :=
  | Ok
  | Connecting
  | BadConfig
  | ConnectionFailure.

Inductive Event :=
  | EvLog (level message : string)
  | EvUpdateStatus (status : InstanceStatus) (message : option string)
  | EvSaveConfig (c : ModuleConfig) (s : ModuleSecrets)
  | EvBeginSearching
  | EvPairingConnect (address : string) (tcp_port : Z)
  | EvGenerateKeyPair (bits : Z)
  | EvRequestPair (csrText : string)
  | EvLeapConnect (address : string) (tcp_port : Z)
      (ca_pem : option string) (key_pem : string) (cert_pem : option string)
  | EvGetDeviceInfo
  | EvBridgeClose
  | EvUpdateActions
  | EvUpdateFeedbacks
  | EvUpdateVariableDefinitions.

(** Library functions the module calls and whose results it only passes
    on, and the message the engine gives the [TypeError] it raises when a
    property is read of [undefined]. *)
Class Libraries := {
  JSON_stringify : PairingMessage → string;
  (* TypeError: reading property [name] of undefined *)
  cannot_read_property : ∀ (name : string), string;
  (* forge.pki.privateKeyToPem *)
  privateKeyToPem : string → string;
  (* createCertificationRequest, publicKey, setSubject commonName, sign,
     certificationRequestToPem *)
  certificationRequestToPem :
    ∀ (csr_publicKey commonName signing_key : string), string;
}.

(** ** Asynchronous methods *)

(** How a promise settles; a rejection carries the [message] of the
    [Error]. *)
Inductive Completion (A : Type) :=
  | Resolved (a : A)
  | Rejected (message : string).
Arguments Resolved {A} a.
Arguments Rejected {A} message.

Record Run (A : Type) := MkRun {
  completion : Completion A;
  final : ModuleInstance;
  events : list Event;
}.
Arguments MkRun {A} _ _ _.
Arguments completion {A} _.
Arguments final {A} _.
Arguments events {A} _.

Definition Async (A : Type) : Type := ModuleInstance → Run A.

#[global] Instance Async_ret : MRet Async :=
  λ A a this, MkRun (Resolved a) this [].

#[global] Instance Async_bind : MBind Async :=
  λ A B k m this,
    match m this with
    | MkRun (Resolved a) this' evs =>
        match k a this' with
        | MkRun c this'' evs' => MkRun c this'' (evs ++ evs')
        end
    | MkRun (Rejected e) this' evs => MkRun (Rejected e) this' evs
    end.

(** [throw new Error(message)], or a promise that rejects. *)
Definition throw {A} (message : string) : Async A :=
  λ this, MkRun (Rejected message) this [].

(** The body of a [try]: the completion is handed to the code that
    follows, which is the [catch] block on [Rejected]. *)
Definition try {A} (body : Async A) : Async (Completion A) :=
  λ this, match body this with MkRun c this' evs => MkRun (Resolved c) this' evs end.

Definition get_this : Async ModuleInstance :=
  λ this, MkRun (Resolved this) this [].

Definition modify (f : ModuleInstance → ModuleInstance) : Async unit :=
  λ this, MkRun (Resolved ()) (f this) [].

Definition emit (e : Event) : Async unit :=
  λ this, MkRun (Resolved ()) this [e].

Definition log (level message : string) : Async unit := emit (EvLog level message).
Definition updateStatus (s : InstanceStatus) (message : option string) : Async unit :=
  emit (EvUpdateStatus s message).
(** [this.saveConfig(this.config, this.secrets)]: the host stores the two
    records as they are at the call. *)
Definition saveConfig : Async unit :=
  this ← get_this; emit (EvSaveConfig (config this) (secrets this)).

(** [array.forEach(callback)] *)
Fixpoint forEach {A} (callback : A → Async unit) (l : list A) : Async unit :=
  match l with
  | [] => mret ()
  | x :: l' => callback x;; forEach callback l'
  end.

(** ** What the awaited calls answer *)

(** [emitter.once('message', listener)] raced against
    [setTimeout(..., ms)]: the listener is removed when the first message is
    emitted, so it sees that message and no other; it sees it only when the
    message is emitted before the timer fires.  [emitted] lists the messages
    emitted after the listener is registered, in order, each with the
    milliseconds elapsed since then; a message emitted at the millisecond
    the timer is due counts as late. *)
Definition once_before (ms : Z) (emitted : list (Z * PairingMessage))
  : option PairingMessage :=
  match emitted with
  | (t, response) :: _ => if t <? ms then Some response else None
  | [] => None
  end.

Record PairingEnv := {
  (* client.connect() *)
  pairing_connect : Completion unit;
  (* 'message' events after the first listener is registered *)
  button_messages : list (Z * PairingMessage);
  (* the (err, keyPair) given to the generateKeyPair callback:
     err.message, or the key pair when err is null *)
  generateKeyPair : string + KeyPair;
  (* 'message' events after the second listener is registered *)
  csr_messages : list (Z * PairingMessage);
}.

Record SessionEnv := {
  (* leapClient.connect() *)
  leap_connect : Completion unit;
  (* this.bridge.getDeviceInfo(): each item is an Error (its message) or a
     device *)
  getDeviceInfo : Completion (list (string + DeviceDefinition));
}.

Record Env := {
  pairing : PairingEnv;
  session : SessionEnv;
}.

Definition await {A} (c : Completion A) : Async A :=
  match c with
  | Resolved a => mret a
  | Rejected e => throw e
  end.

Section Methods.
Context `{Libraries}.

(** ** [ModuleInstance] *)

(** The constructor sets [discoveredBridges] and [devicesOnBridge].
    [config] and [secrets] are declared with [!] and hold no value until
    [init] assigns them, which is the first thing [init] does; the two
    arguments here stand for those unread values. *)
Definition constructor (unset_config : ModuleConfig) (unset_secrets : ModuleSecrets)
  : ModuleInstance :=
  {| config := unset_config; secrets := unset_secrets;
     discoveredBridges := ∅; bridge := None; devicesOnBridge := [] |}.

(** The ['discovered'] listener registered by [startDiscovery]. *)
Definition discovered (bridgeInfo : BridgeNetInfo) : Async unit :=
  this ← get_this;
  modify (set_discoveredBridges
            (<[ipAddr bridgeInfo := bridgeid bridgeInfo]> (discoveredBridges this)));;
  log "info" ("Discovered Bridge " +:+ bridgeid bridgeInfo +:+ " at "
              +:+ ipAddr bridgeInfo +:+ ": " +:+ systype bridgeInfo).

Definition startDiscovery : Async unit :=
  emit EvBeginSearching.

(** The promise of the first wait: [resolve()] when the listener sees a
    message whose permissions include ['PhysicalAccess']; otherwise the
    timer rejects with ['timed out']. *)
Definition await_button_press (emitted : list (Z * PairingMessage)) : Async unit :=
  match once_before 30000 emitted with
  | Some response =>
      log "debug" ("got message " +:+ JSON_stringify response);;
      if bool_decide ("PhysicalAccess" ∈ Permissions response) then
        log "debug" "Physical access confirmed"
        (* clearTimeout(t); resolve() *)
      else
        log "debug" ("unexpected pairing result " +:+ JSON_stringify response);;
        (* neither resolve nor reject: the timer is still armed *)
        throw "timed out"
  | None => throw "timed out"
  end.

(** The promise of the second wait: the timer is set, the listener
    registered, the request sent; the first message resolves it. *)
Definition await_csr_response (csrText : string) (emitted : list (Z * PairingMessage))
  : Async PairingMessage :=
  emit (EvRequestPair csrText);;
  match once_before 5000 emitted with
  | Some response => mret response    (* clearTimeout(t); resolve(response) *)
  | None => throw "CSR response timed out"
  end.

Definition pairWithBridge (env : PairingEnv) : Async unit :=
  this ← get_this;
  (* const client = new PairingClient(this.config.host, PAIRING_PORT) *)
  connected ← try (log "debug" "Pairing client connecting";;
                   emit (EvPairingConnect (host (config this)) PAIRING_PORT);;
                   await (pairing_connect env));
  match connected with
  | Rejected e_message =>
      updateStatus ConnectionFailure
        (Some ("Failed to initialize pairing: " +:+ e_message));;
      log "error" ("Failed to initialize pairing: " +:+ e_message)
      (* return *)
  | Resolved _ =>
  (* wait for pairing button to be pressed on bridge *)
  log "info" "Waiting for button press on bridge...";;
  pressed ← try (await_button_press (button_messages env));
  match pressed with
  | Rejected e_message =>
      log "error" ("waiting for button push failed. Error: " +:+ e_message);;
      updateStatus ConnectionFailure (Some ("Pairing timed out: " +:+ e_message))
      (* return *)
  | Resolved _ =>
  (* generate keys *)
  log "debug" "Generating keys for CSR";;
  keys ← (emit (EvGenerateKeyPair 2048);;
          match generateKeyPair env with
          | inl err_message =>
              log "error" ("key generation error: " +:+ err_message);;
              throw err_message
          | inr keyPair => mret keyPair
          end);
  (* generate csr and sign with private key *)
  let csrText :=
    certificationRequestToPem (publicKey keys) "companion-module-lutron-caseta"
                              (keyPrivateKey keys) in
  (* pair with bridge using csr *)
  log "debug" "Sending CSR to bridge for signing";;
  signed ← try (certResult ← await_csr_response csrText (csr_messages env);
                if bool_decide (StatusCode certResult ≠ "200 OK") then
                  throw ("bad CSR response: " +:+ JSON_stringify certResult)
                else mret certResult);
  match signed with
  | Rejected e_message =>
      log "error" ("CSR failed: " +:+ e_message);;
      updateStatus ConnectionFailure (Some ("CSR failed: " +:+ e_message))
      (* return *)
  | Resolved certResult =>
  (* store cert/keys *)
  this ← get_this;
  (match discoveredBridges this !! host (config this) with
   | Some id => modify (set_bridgeID (Some id))
   | None => modify (set_bridgeID (Some UNKNOWN_BRIDGE_ID))
   end);;
  this ← get_this;
  log "debug" ("using bridge id: " +:+ default "undefined" (bridgeID (config this)));;
  log "debug" "Storing bridge certificates";;
  match Body_SigningResult certResult with
  | None =>
      (* certResult.Body.SigningResult is undefined: evaluating the object
         literal throws, after the bridge ID was assigned *)
      throw (cannot_read_property "RootCertificate")
  | Some signingResult =>
      modify (set_bridgeCerts (Some {|
        ca := RootCertificate signingResult;
        certificate := Certificate signingResult;
        privateKey := privateKeyToPem (keyPrivateKey keys);
      |}))
  end
  end end end.

(** When module gets deleted. *)
Definition destroy : Async unit :=
  log "debug" "destroy";;
  this ← get_this;
  (if bridge this is Some _ then emit EvBridgeClose else mret ()).

(** The callback of [devices.forEach] in [connectToBridge]. *)
Definition load_device (device : string + DeviceDefinition) : Async unit :=
  match device with
  | inl message =>
      log "error" ("Error retrieving device: " +:+ message)
  | inr device =>
      this ← get_this;
      if bool_decide (bridgeID (config this) = Some UNKNOWN_BRIDGE_ID)
         && bool_decide (DeviceType device = "SmartBridge") then
        (* We found our bridge device, update config *)
        modify (set_bridgeID (Some (SerialNumber device)));;
        saveConfig
      else
        if AssociatedArea device is Some _ then
          log "info" (DeviceType device +:+ " device found " +:+ Name device +:+ ".");;
          this ← get_this;
          modify (set_devicesOnBridge (devicesOnBridge this ++ [device]))
        else mret ()
  end.

Definition connectToBridge (env : SessionEnv) : Async unit :=
  this ← get_this;
  let not_configured :=
    log "warn" "No bridge ID or certificates found in config/secrets";;
    updateStatus BadConfig (Some "No valid configuration or pairing found")
    (* return *) in
  match bridgeID (config this), bridgeCerts (secrets this) with
  | Some id, Some certs =>
    if negb (truthy (Some id)) then not_configured else
    log "debug" ("Connecting to bridge with id: " +:+ id);;
    updateStatus Connecting (Some "Connecting to Bridge");;
    connected ← try (emit (EvLeapConnect (host (config this)) LEAP_PORT
                             (ca certs) (privateKey certs) (certificate certs));;
                     await (leap_connect env));
    match connected with
    | Rejected err_message =>
        updateStatus ConnectionFailure
          (Some ("Bridge connection failed: " +:+ err_message));;
        log "error" ("Bridge connection failed: " +:+ err_message)
        (* return *)
    | Resolved _ =>
    modify (set_bridge (Some id));;
    (* load devices *)
    devices ← (emit EvGetDeviceInfo;; await (getDeviceInfo env));
    forEach load_device devices;;
    log "debug" "Loaded";;
    updateStatus Ok None
    end
  | _, _ => not_configured
  end.

Definition updateActions : Async unit := emit EvUpdateActions.
Definition updateFeedbacks : Async unit := emit EvUpdateFeedbacks.
Definition updateVariableDefinitions : Async unit := emit EvUpdateVariableDefinitions.

(** The parameters [config] and [secrets] of the source are written
    [config_] and [secrets_], the plain names being the fields. *)
Definition init (config_ : ModuleConfig) (_isFirstInit : bool) (secrets_ : ModuleSecrets)
    (env : SessionEnv) : Async unit :=
  modify (set_config config_);;
  modify (set_secrets secrets_);;
  (* discover bridges (used for dropdown in config) *)
  log "debug" "Starting bridge discovery";;
  updateStatus Connecting (Some "Initializing");;
  startDiscovery;;
  (* if we have certs, connect to bridge *)
  this ← get_this;
  (if bridgeCerts (secrets this) is Some _ then connectToBridge env else mret ());;
  updateActions;;
  updateFeedbacks;;
  updateVariableDefinitions.

Definition configUpdated (config_ : ModuleConfig) (secrets_ : ModuleSecrets) (env : Env)
  : Async unit :=
  this ← get_this;
  let prevConfig := config this in
  modify (set_config config_);;
  modify (set_secrets secrets_);;
  log "debug" (if bool_decide (host config_ ≠ host prevConfig)
               then "host changed" else "host unchanged");;
  (if bool_decide (host config_ ≠ host prevConfig) then
     (* host changed, need to re-pair *)
     updateStatus Connecting (Some "Pairing with Bridge");;
     log "info" "pairing...";;
     pairWithBridge (pairing env)
   else mret ());;
  saveConfig;;
  log "debug" "re-initializing module";;
  this ← get_this;
  init (config this) false (secrets this) (session env).

End Methods.


(** ** Configuration fields ([GetConfigFields] and [getConfigFields]) *)

Record DropdownChoice := {
  choice_id : string;
  choice_label : string;
}.

(** [SomeCompanionConfigField], at the two kinds of field the module
    returns. *)
Inductive SomeCompanionConfigField :=
  | static_text (id : string) (width : Z) (label value : string)
  | dropdown (id label description : string) (width : Z)
      (choices : list DropdownChoice) (default regex : string) (allowCustom : bool).

(** [Object.entries(o)] of an object used as a map.  The map does not keep
    the order in which keys were added, which is the order of
    [Object.entries]; the statements about the entries do not depend on the
    order. *)
Definition Object_entries (o : gmap string string) : list (string * string) :=
  map_to_list o.

Section ConfigFields.
(** [Regex.IP] of the host library. *)
Variable Regex_IP : string.

Definition GetConfigFields (discoveredBridges : gmap string string)
  : list SomeCompanionConfigField :=
  [ static_text "info1" 8 "Pairing Instructions"
      "Select your Lutron Bridge from the dropdown below, or enter in the IP address manually. Then after you hit Save, press the black pairing button on your Lutron Bridge.";
    dropdown "host" "Host"
      "Enter the IP address of the bridge or select one from the dropdown."
      8
      ((λ '(ipAddr, bridgeID),
          {| choice_id := ipAddr;
             choice_label := ipAddr +:+ " (" +:+ bridgeID +:+ ")" |})
         <$> Object_entries discoveredBridges)
      "" Regex_IP true ].

(** Return config fields for web config. *)
Definition getConfigFields (this : ModuleInstance) : list SomeCompanionConfigField :=
  GetConfigFields (discoveredBridges this).

End ConfigFields.

(** ** The module with the certificates in the configuration

    The first [ModuleInstance] of [src/main.ts], with the [ModuleConfig] of
    [src/config.ts]: there are no secrets, [init] pairs by itself and the
    three certificate fields are optional fields of the configuration. *)

Module Legacy.

Record ModuleConfig := {
  host : string;
  port : Z;
  ca : option string;
  certificate : option string;
  privateKey : option string;
  bridgeID : option string;
}.

Record ModuleInstance := {
  config : ModuleConfig;
  discoveredBridges : gmap string string;
  bridge : option string;      (* the id the SmartBridge object was built with *)
}.

Definition set_config (c : ModuleConfig) (this : ModuleInstance) : ModuleInstance :=
  {| config := c; discoveredBridges := discoveredBridges this; bridge := bridge this |}.

Definition set_discoveredBridges (m : gmap string string) (this : ModuleInstance)
  : ModuleInstance :=
  {| config := config this; discoveredBridges := m; bridge := bridge this |}.

Definition set_bridge (b : option string) (this : ModuleInstance) : ModuleInstance :=
  {| config := config this; discoveredBridges := discoveredBridges this; bridge := b |}.

(** [this.config.ca = v], and likewise for the other fields. *)
Definition set_ca (v : option string) (this : ModuleInstance) : ModuleInstance :=
  set_config {| host := host (config this); port := port (config this); ca := v;
                certificate := certificate (config this);
                privateKey := privateKey (config this);
                bridgeID := bridgeID (config this) |} this.

Definition set_certificate (v : option string) (this : ModuleInstance) : ModuleInstance :=
  set_config {| host := host (config this); port := port (config this);
                ca := ca (config this); certificate := v;
                privateKey := privateKey (config this);
                bridgeID := bridgeID (config this) |} this.

Definition set_privateKey (v : option string) (this : ModuleInstance) : ModuleInstance :=
  set_config {| host := host (config this); port := port (config this);
                ca := ca (config this); certificate := certificate (config this);
                privateKey := v;
                bridgeID := bridgeID (config this) |} this.

Definition set_bridgeID (v : option string) (this : ModuleInstance) : ModuleInstance :=
  set_config {| host := host (config this); port := port (config this);
                ca := ca (config this); certificate := certificate (config this);
                privateKey := privateKey (config this);
                bridgeID := v |} this.

Inductive InstanceStatus :=
  | Ok
  | Connecting
  | BadConfig
  | ConnectionFailure
  | Disconnected.

Inductive Event :=
  | EvLog (level message : string)
  | EvUpdateStatus (status : InstanceStatus) (message : option string)
  | EvSaveConfig (c : ModuleConfig)
  | EvBeginSearching
  | EvPairingConnect (address : string) (tcp_port : Z)
  | EvGenerateKeyPair (bits : Z)
  | EvRequestPair (csrText : string)
  | EvLeapConnect (address : string) (tcp_port : Z) (ca_pem key_pem cert_pem : string)
  | EvGetDeviceInfo
  | EvUpdateActions
  | EvUpdateFeedbacks
  | EvUpdateVariableDefinitions.

Record Run (A : Type) := MkRun {
  completion : Completion A;
  final : ModuleInstance;
  events : list Event;
}.
Arguments MkRun {A} _ _ _.
Arguments completion {A} _.
Arguments final {A} _.
Arguments events {A} _.

Definition Async (A : Type) : Type := ModuleInstance → Run A.

#[global] Instance Async_ret : MRet Async :=
  λ A a this, MkRun (Resolved a) this [].

#[global] Instance Async_bind : MBind Async :=
  λ A B k m this,
    match m this with
    | MkRun (Resolved a) this' evs =>
        match k a this' with
        | MkRun c this'' evs' => MkRun c this'' (evs ++ evs')
        end
    | MkRun (Rejected e) this' evs => MkRun (Rejected e) this' evs
    end.

Definition throw {A} (message : string) : Async A :=
  λ this, MkRun (Rejected message) this [].

Definition try {A} (body : Async A) : Async (Completion A) :=
  λ this, match body this with MkRun c this' evs => MkRun (Resolved c) this' evs end.

Definition get_this : Async ModuleInstance :=
  λ this, MkRun (Resolved this) this [].

Definition modify (f : ModuleInstance → ModuleInstance) : Async unit :=
  λ this, MkRun (Resolved ()) (f this) [].

Definition emit (e : Event) : Async unit :=
  λ this, MkRun (Resolved ()) this [e].

Definition log (level message : string) : Async unit := emit (EvLog level message).
Definition updateStatus (s : InstanceStatus) (message : option string) : Async unit :=
  emit (EvUpdateStatus s message).
(** [this.saveConfig(this.config)] *)
Definition saveConfig : Async unit :=
  this ← get_this; emit (EvSaveConfig (config this)).

Fixpoint forEach {A} (callback : A → Async unit) (l : list A) : Async unit :=
  match l with
  | [] => mret ()
  | x :: l' => callback x;; forEach callback l'
  end.

Definition await {A} (c : Completion A) : Async A :=
  match c with
  | Resolved a => mret a
  | Rejected e => throw e
  end.

Record SessionEnv := {
  (* leapClient.connect() *)
  leap_connect : Completion unit;
  (* this.bridge.getDeviceInfo() *)
  getDeviceInfo : Completion (list DeviceDefinition);
}.

Record Env := {
  pairing : PairingEnv;
  session : SessionEnv;
}.

Section Methods.
Context `{Libraries}.

Definition constructor (unset_config : ModuleConfig) : ModuleInstance :=
  {| config := unset_config; discoveredBridges := ∅; bridge := None |}.

(** The ['discovered'] listener registered by [startDiscovery]. *)
Definition discovered (bridgeInfo : BridgeNetInfo) : Async unit :=
  this ← get_this;
  modify (set_discoveredBridges
            (<[ipAddr bridgeInfo := bridgeid bridgeInfo]> (discoveredBridges this)));;
  log "info" ("Discovered Bridge " +:+ bridgeid bridgeInfo +:+ " at "
              +:+ ipAddr bridgeInfo).

Definition startDiscovery : Async unit :=
  emit EvBeginSearching.

Definition await_button_press (emitted : list (Z * PairingMessage)) : Async unit :=
  match once_before 30000 emitted with
  | Some response =>
      log "debug" ("got message " +:+ JSON_stringify response);;
      if bool_decide ("PhysicalAccess" ∈ Permissions response) then
        log "debug" "Physical access confirmed"
        (* clearTimeout(t); resolve() *)
      else
        log "debug" ("unexpected pairing result " +:+ JSON_stringify response);;
        (* neither resolve nor reject: the timer is still armed *)
        throw "timed out"
  | None => throw "timed out"
  end.

Definition await_csr_response (csrText : string) (emitted : list (Z * PairingMessage))
  : Async PairingMessage :=
  emit (EvRequestPair csrText);;
  match once_before 5000 emitted with
  | Some response => mret response    (* clearTimeout(t); resolve(response) *)
  | None => throw "CSR response timed out"
  end.

Definition pairWithBridge (env : PairingEnv) : Async unit :=
  this ← get_this;
  (* const client = new PairingClient(this.config.host, PAIRING_PORT) *)
  connected ← try (emit (EvPairingConnect (host (config this)) PAIRING_PORT);;
                   await (pairing_connect env);;
                   log "debug" "Pairing client connected");
  match connected with
  | Rejected e_message =>
      updateStatus ConnectionFailure
        (Some ("Failed to initialize pairing: " +:+ e_message));;
      log "error" ("Failed to initialize pairing: " +:+ e_message)
      (* return *)
  | Resolved _ =>
  (* wait for pairing button to be pressed on bridge *)
  pressed ← try (await_button_press (button_messages env));
  match pressed with
  | Rejected e_message =>
      log "error" ("waiting for button push failed. Error: " +:+ e_message);;
      updateStatus ConnectionFailure (Some ("Pairing timed out: " +:+ e_message))
      (* return *)
  | Resolved _ =>
  (* generate keys *)
  keys ← (emit (EvGenerateKeyPair 2048);;
          match generateKeyPair env with
          | inl err_message =>
              log "error" ("key generation error: " +:+ err_message);;
              throw err_message
          | inr keyPair => mret keyPair
          end);
  (* generate csr and sign with private key *)
  let csrText :=
    certificationRequestToPem (publicKey keys) "companion-module-lutron-caseta"
                              (keyPrivateKey keys) in
  (* pair with bridge using csr *)
  signed ← try (certResult ← await_csr_response csrText (csr_messages env);
                if bool_decide (StatusCode certResult ≠ "200 OK") then
                  throw ("bad CSR response: " +:+ JSON_stringify certResult)
                else mret certResult);
  match signed with
  | Rejected e_message =>
      log "error" ("CSR failed: " +:+ e_message);;
      updateStatus ConnectionFailure (Some ("CSR failed: " +:+ e_message))
      (* return *)
  | Resolved certResult =>
  (* store cert/keys *)
  match Body_SigningResult certResult with
  | None =>
      (* certResult.Body.SigningResult is undefined: the right-hand side of
         the first assignment throws *)
      throw (cannot_read_property "RootCertificate")
  | Some signingResult =>
      modify (set_ca (RootCertificate signingResult));;
      modify (set_certificate (Certificate signingResult));;
      modify (set_privateKey (Some (privateKeyToPem (keyPrivateKey keys))));;
      saveConfig
  end
  end end end.

Definition updateActions : Async unit := emit EvUpdateActions.
Definition updateFeedbacks : Async unit := emit EvUpdateFeedbacks.
Definition updateVariableDefinitions : Async unit := emit EvUpdateVariableDefinitions.

(** The callback of [devices.forEach] in [init]. *)
Definition found_device (device : DeviceDefinition) : Async unit :=
  log "info" ("Found device: " +:+ Name device +:+ " (model: " +:+ ModelNumber device
              +:+ ", Type: " +:+ DeviceType device +:+ ")").

(** [host] has type [string]; the test [host === undefined || host === '']
    is the test for the empty string. *)
Definition init (config_ : ModuleConfig) (env : Env) : Async unit :=
  modify (set_config config_);;
  this ← get_this;
  if String.eqb (host (config this)) "" then
    updateStatus BadConfig (Some "No Host/IP")
    (* return *)
  else
  (if negb (truthy (bridgeID (config this))) then
     (* discover bridges (used for dropdown in config) *)
     startDiscovery
   else mret ());;
  (* pair and load certs *)
  (if negb (String.eqb (host (config this)) "") && negb (truthy (bridgeID (config this)))
   then
     updateStatus Connecting (Some "Pairing with Bridge");;
     pairWithBridge (pairing env)
   else mret ());;
  let export := updateActions;; updateFeedbacks;; updateVariableDefinitions in
  (* if we have certs, connect to bridge *)
  this ← get_this;
  if truthy (ca (config this)) && truthy (certificate (config this))
     && truthy (privateKey (config this)) then
    updateStatus Connecting (Some "Connecting to Bridge");;
    emit (EvLeapConnect (host (config this)) LEAP_PORT
            (default "" (ca (config this)))
            (default "" (privateKey (config this)))
            (default "" (certificate (config this))));;
    (* await leapClient.connect().catch(...): the [return] ends the
       callback, not [init] *)
    (match leap_connect (session env) with
     | Rejected err_message =>
         updateStatus ConnectionFailure
           (Some ("Bridge connection failed: " +:+ err_message));;
         log "error" ("Bridge connection failed: " +:+ err_message)
     | Resolved _ => mret ()
     end);;
    let bridgeID_ :=
      if truthy (bridgeID (config this)) then bridgeID (config this)
      else discoveredBridges this !! host (config this) in
    if truthy bridgeID_ then
      modify (set_bridge bridgeID_);;
      (* if this is the first time connecting, save the bridgeID *)
      (if negb (truthy (bridgeID (config this))) then
         modify (set_bridgeID bridgeID_);;
         saveConfig
       else mret ());;
      devices ← (emit EvGetDeviceInfo;; await (getDeviceInfo (session env)));
      forEach found_device devices;;
      updateStatus Ok None;;
      export
    else
      (* anything to do here? We have an unpaired host *)
      log "warn"
        "No valid bridge id found for configured host. Resetting certificates to repair";;
      modify (set_certificate None);;
      modify (set_privateKey None);;
      modify (set_ca None);;
      saveConfig;;
      updateStatus Disconnected (Some "No Bridge ID for Paired Host")
      (* return *)
  else export.

(** When module gets deleted. *)
Definition destroy : Async unit :=
  log "debug" "destroy".

Definition configUpdated (config_ : ModuleConfig) : Async unit :=
  modify (set_config config_).

End Methods.

(** The status updates, the saved configurations and the kinds of call
    among a sequence of calls. *)
Definition status_updates (evs : list Event) : list (InstanceStatus * option string) :=
  omap (λ e, match e with EvUpdateStatus s m => Some (s, m) | _ => None end) evs.

Definition saves (evs : list Event) : list ModuleConfig :=
  omap (λ e, match e with EvSaveConfig c => Some c | _ => None end) evs.

Definition starts_pairing (e : Event) : Prop :=
  match e with
  | EvPairingConnect _ _ | EvGenerateKeyPair _ | EvRequestPair _ => True
  | _ => False
  end.

Definition exports (e : Event) : Prop :=
  match e with
  | EvUpdateActions | EvUpdateFeedbacks | EvUpdateVariableDefinitions => True
  | _ => False
  end.

Definition is_log (e : Event) : Prop :=
  match e with EvLog _ _ => True | _ => False end.

(** The three certificate fields are set and not empty. *)
Definition has_certificates (c : ModuleConfig) : bool :=
  truthy (ca c) && truthy (certificate c) && truthy (privateKey c).

(** [this.config.bridgeID || this.discoveredBridges[this.config.host]] *)
Definition known_bridge (this : ModuleInstance) : option string :=
  if truthy (bridgeID (config this)) then bridgeID (config this)
  else discoveredBridges this !! host (config this).

(** What the enumeration logs. *)
Definition found_log (devices : list DeviceDefinition) : list Event :=
  (λ device,
     EvLog "info" ("Found device: " +:+ Name device +:+ " (model: "
                   +:+ ModelNumber device +:+ ", Type: " +:+ DeviceType device +:+ ")"))
  <$> devices.

End Legacy.

(** ** Vocabulary of the statements *)

(** The first wait is confirmed: the one message the listener sees arrives
    before the 30000 ms timer and carries ['PhysicalAccess']. *)
Definition button_pressed (env : PairingEnv) (response : PairingMessage) : Prop :=
  once_before 30000 (button_messages env) = Some response
  ∧ "PhysicalAccess" ∈ Permissions response.

(** The five ways in which [pairWithBridge] stops short of storing
    anything, each given by what the awaited calls answered. *)
Inductive pairing_failure (env : PairingEnv) : Prop :=
  | transport_connect_failure e :
      pairing_connect env = Rejected e →
      pairing_failure env
  | confirmation_timeout :
      pairing_connect env = Resolved () →
      (∀ response, ¬ button_pressed env response) →
      pairing_failure env
  | key_generation_failure response err_message :
      pairing_connect env = Resolved () →
      button_pressed env response →
      generateKeyPair env = inl err_message →
      pairing_failure env
  | csr_timeout response keys :
      pairing_connect env = Resolved () →
      button_pressed env response →
      generateKeyPair env = inr keys →
      once_before 5000 (csr_messages env) = None →
      pairing_failure env
  | csr_rejection response keys certResult :
      pairing_connect env = Resolved () →
      button_pressed env response →
      generateKeyPair env = inr keys →
      once_before 5000 (csr_messages env) = Some certResult →
      StatusCode certResult ≠ "200 OK" →
      pairing_failure env.

(** The path on which [pairWithBridge] goes on to store the identity and
    the certificates: the button was pressed, the key pair generated, and
    the one message the second listener sees came in time with status
    ['200 OK'], which is all the code checks of it. *)
Definition pairing_success (env : PairingEnv) (keys : KeyPair)
    (certResult : PairingMessage) : Prop :=
  pairing_connect env = Resolved ()
  ∧ (∃ response, button_pressed env response)
  ∧ generateKeyPair env = inr keys
  ∧ once_before 5000 (csr_messages env) = Some certResult
  ∧ StatusCode certResult = "200 OK".

(** The session was opened and the enumeration answered. *)
Definition connection_succeeds (env : SessionEnv)
    (items : list (string + DeviceDefinition)) : Prop :=
  leap_connect env = Resolved () ∧ getDeviceInfo env = Resolved items.

(** The three fields of a bundle hold a value; [privateKey] always
    does. *)
Definition complete (certs : BridgeCerts) : Prop :=
  is_Some (ca certs) ∧ is_Some (certificate certs).

(** Secrets hold no bundle or a complete one: never one or two of the
    three fields. *)
Definition all_or_nothing (s : ModuleSecrets) : Prop :=
  match bridgeCerts s with
  | Some certs => complete certs
  | None => True
  end.

Definition opens_session (e : Event) : Prop :=
  match e with
  | EvLeapConnect _ _ _ _ _ => True
  | _ => False
  end.

(** The devices of an enumeration that have an area assigned, in order. *)
Fixpoint with_area (items : list (string + DeviceDefinition)) : list DeviceDefinition :=
  match items with
  | [] => []
  | inr device :: items' =>
      if AssociatedArea device is Some _ then device :: with_area items'
      else with_area items'
  | inl _ :: items' => with_area items'
  end.

(** The calls a pairing attempt may make: it saves nothing and opens no
    session. *)
Definition pairing_call (e : Event) : Prop :=
  match e with
  | EvSaveConfig _ _ | EvLeapConnect _ _ _ _ _ => False
  | _ => True
  end.

Definition is_log (e : Event) : Prop :=
  match e with EvLog _ _ => True | _ => False end.


(** What one connection may do with the stored secrets: save them as they
    are, and offer them to the session endpoint of [address]; it starts no
    pairing. *)
Definition uses_only (address : string) (s : ModuleSecrets) (e : Event) : Prop :=
  match e with
  | EvSaveConfig _ s' => s' = s
  | EvLeapConnect a p c k ce =>
      a = address ∧ p = LEAP_PORT
      ∧ bridgeCerts s = Some {| ca := c; certificate := ce; privateKey := k |}
  | EvPairingConnect _ _ | EvGenerateKeyPair _ | EvRequestPair _ => False
  | _ => True
  end.

(** What the enumeration callback logs for items that do not resolve the
    identity. *)
Fixpoint device_log (items : list (string + DeviceDefinition)) : list Event :=
  match items with
  | [] => []
  | inl message :: items' =>
      EvLog "error" ("Error retrieving device: " +:+ message) :: device_log items'
  | inr device :: items' =>
      if AssociatedArea device is Some _ then
        EvLog "info" (DeviceType device +:+ " device found " +:+ Name device +:+ ".")
        :: device_log items'
      else device_log items'
  end.

(** [this.config.host in this.discoveredBridges ? ... : UNKNOWN_BRIDGE_ID] *)
Definition resolved_at_pairing (this : ModuleInstance) : string :=
  default UNKNOWN_BRIDGE_ID (discoveredBridges this !! host (config this)).

Section Vocabulary.
Context `{Libraries}.

(** The bundle built from one signing result and one key pair. *)
Definition bundle_of (keys : KeyPair) (signingResult : SigningResult) : BridgeCerts :=
  {| ca := RootCertificate signingResult;
     certificate := Certificate signingResult;
     privateKey := privateKeyToPem (keyPrivateKey keys) |}.

(** The registry after a sequence of discovery events. *)
Definition registry_after (found : list BridgeNetInfo) (this : ModuleInstance)
  : gmap string string :=
  discoveredBridges (final (forEach discovered found this)).

Definition confirmed_log (this : ModuleInstance) (response : PairingMessage)
  : list Event :=
  [EvLog "debug" "Pairing client connecting";
   EvPairingConnect (host (config this)) PAIRING_PORT;
   EvLog "info" "Waiting for button press on bridge...";
   EvLog "debug" ("got message " +:+ JSON_stringify response);
   EvLog "debug" "Physical access confirmed";
   EvLog "debug" "Generating keys for CSR";
   EvGenerateKeyPair 2048].

Definition csr_of (keys : KeyPair) : string :=
  certificationRequestToPem (publicKey keys) "companion-module-lutron-caseta"
                            (keyPrivateKey keys).

End Vocabulary.

(** What [init] calls before and after the connection, and what
    [configUpdated] calls before a forced pairing attempt. *)
Definition init_opening : list Event :=
  [EvLog "debug" "Starting bridge discovery";
   EvUpdateStatus Connecting (Some "Initializing");
   EvBeginSearching].

Definition init_closing : list Event :=
  [EvUpdateActions; EvUpdateFeedbacks; EvUpdateVariableDefinitions].

Definition repairing_opening : list Event :=
  [EvLog "debug" "host changed";
   EvUpdateStatus Connecting (Some "Pairing with Bridge");
   EvLog "info" "pairing..."].

Definition about (address : string) (found : list BridgeNetInfo) : list BridgeNetInfo :=
  filter (λ info, ipAddr info = address) found.

(** ** Sample inputs *)

Definition sample_libraries : Libraries := {|
  JSON_stringify m := "{" +:+ StatusCode m +:+ "}";
  cannot_read_property name :=
    "Cannot read properties of undefined (reading '" +:+ name +:+ "')";
  privateKeyToPem k := "PEM " +:+ k;
  certificationRequestToPem pk cn sk := "CSR " +:+ pk +:+ " " +:+ cn;
|}.

(** A status message: it has no signing result. *)
Definition status_message (permissions : list string) : PairingMessage :=
  {| StatusCode := "200 OK"; Permissions := permissions;
     Body_SigningResult := None |}.

Definition signed : SigningResult :=
  {| RootCertificate := Some "root certificate";
     Certificate := Some "client certificate" |}.

Definition signing_result (code : string) : PairingMessage :=
  {| StatusCode := code; Permissions := []; Body_SigningResult := Some signed |}.

(** A signing result without the root certificate, and a ['200 OK'] answer
    that carries it. *)
Definition rootless : SigningResult :=
  {| RootCertificate := None; Certificate := Some "client certificate" |}.

Definition rootless_result : PairingMessage :=
  {| StatusCode := "200 OK"; Permissions := []; Body_SigningResult := Some rootless |}.

Definition sample_keys : KeyPair :=
  {| publicKey := "public key"; keyPrivateKey := "private key" |}.

Definition sample_certs : BridgeCerts :=
  {| ca := Some "old root"; certificate := Some "old certificate";
     privateKey := "old key" |}.

Definition paired_config : ModuleConfig :=
  {| host := "10.0.0.5"; port := 0; bridgeID := Some "0455a1b2" |}.

Definition unresolved_config : ModuleConfig :=
  {| host := "10.0.0.5"; port := 0; bridgeID := Some UNKNOWN_BRIDGE_ID |}.

Definition moved_config : ModuleConfig :=
  {| host := "10.0.0.9"; port := 0; bridgeID := Some "0455a1b2" |}.

Definition paired_secrets : ModuleSecrets := {| bridgeCerts := Some sample_certs |}.

Definition lamp : DeviceDefinition :=
  {| Name := "Lamp"; SerialNumber := "1001"; DeviceType := "WallDimmer";
     ModelNumber := "PD-6WCL"; AssociatedArea := Some "/area/2" |}.

Definition hub : DeviceDefinition :=
  {| Name := "Smart Bridge"; SerialNumber := "0455a1b2"; DeviceType := "SmartBridge";
     ModelNumber := "L-BDG2-WH"; AssociatedArea := None |}.

Definition one_lamp : SessionEnv :=
  {| leap_connect := Resolved (); getDeviceInfo := Resolved [inr lamp] |}.

Definition hub_and_lamp : SessionEnv :=
  {| leap_connect := Resolved (); getDeviceInfo := Resolved [inr hub; inr lamp] |}.

(** The bridge accepts the pairing connection; its button is never
    pressed. *)
Definition silent_bridge : PairingEnv :=
  {| pairing_connect := Resolved (); button_messages := [];
     generateKeyPair := inr sample_keys; csr_messages := [] |}.

(** A message without the permission after one second, the confirmation
    after two. *)
Definition irrelevant_then_pressed : PairingEnv :=
  {| pairing_connect := Resolved ();
     button_messages := [(1000, status_message ["Public"]);
                         (2000, status_message ["Public"; "PhysicalAccess"])];
     generateKeyPair := inr sample_keys;
     csr_messages := [(200, signing_result "200 OK")] |}.

(** The confirmation comes one second after the window closed. *)
Definition pressed_too_late : PairingEnv :=
  {| pairing_connect := Resolved ();
     button_messages := [(31000, status_message ["PhysicalAccess"])];
     generateKeyPair := inr sample_keys;
     csr_messages := [(200, signing_result "200 OK")] |}.

(** The button is pressed after two seconds; [answers] is what follows the
    signing request. *)
Definition pressed_then (answers : list (Z * PairingMessage)) : PairingEnv :=
  {| pairing_connect := Resolved ();
     button_messages := [(2000, status_message ["PhysicalAccess"])];
     generateKeyPair := inr sample_keys;
     csr_messages := answers |}.

Definition fresh_instance : ModuleInstance :=
  constructor {| host := "10.0.0.5"; port := 0; bridgeID := None |}
              {| bridgeCerts := None |}.

(** ** Further vocabulary *)

(** The calls that belong to a pairing attempt. *)
Definition starts_pairing (e : Event) : Prop :=
  match e with
  | EvPairingConnect _ _ | EvGenerateKeyPair _ | EvRequestPair _ => True
  | _ => False
  end.

(** The calls that reach the session endpoint. *)
Definition reaches_session (e : Event) : Prop :=
  match e with
  | EvLeapConnect _ _ _ _ _ | EvGetDeviceInfo => True
  | _ => False
  end.

(** The status updates among a sequence of calls, in order. *)
Definition status_updates (evs : list Event) : list (InstanceStatus * option string) :=
  omap (λ e, match e with EvUpdateStatus s m => Some (s, m) | _ => None end) evs.

(** The configurations and secrets handed to [saveConfig], in order. *)
Definition saves (evs : list Event) : list (ModuleConfig * ModuleSecrets) :=
  omap (λ e, match e with EvSaveConfig c s => Some (c, s) | _ => None end) evs.

(** [this.config.bridgeID && this.secrets.bridgeCerts] *)
Definition configured (this : ModuleInstance) : Prop :=
  truthy (bridgeID (config this)) = true ∧ is_Some (bridgeCerts (secrets this)).

(** ** Further sample inputs *)

(** An instance that holds a resolved configuration and a bundle. *)
Definition paired_instance : ModuleInstance :=
  set_config paired_config (set_secrets paired_secrets fresh_instance).

(** The same instance after a connection that listed the lamp. *)
Definition listing_instance : ModuleInstance :=
  set_devicesOnBridge [lamp] paired_instance.

Definition unplaced : DeviceDefinition :=
  {| Name := "Remote"; SerialNumber := "2002"; DeviceType := "Pico3ButtonRaiseLower";
     ModelNumber := "PJ2-3BRL"; AssociatedArea := None |}.

(** A second item of type 'SmartBridge', with an area. *)
Definition spare_hub : DeviceDefinition :=
  {| Name := "Spare Bridge"; SerialNumber := "0455ffff"; DeviceType := "SmartBridge";
     ModelNumber := "L-BDG2-WH"; AssociatedArea := Some "/area/1" |}.

Definition refusing_session : SessionEnv :=
  {| leap_connect := Rejected "ECONNREFUSED"; getDeviceInfo := Resolved [inr lamp] |}.

Definition mixed_enumeration : SessionEnv :=
  {| leap_connect := Resolved ();
     getDeviceInfo := Resolved [inl "bad response"; inr lamp; inr unplaced] |}.

Definition rejected_enumeration : SessionEnv :=
  {| leap_connect := Resolved (); getDeviceInfo := Rejected "got bad response" |}.

Definition two_hubs : SessionEnv :=
  {| leap_connect := Resolved ();
     getDeviceInfo := Resolved [inr lamp; inr hub; inr spare_hub] |}.

Definition unreachable_bridge : PairingEnv :=
  {| pairing_connect := Rejected "EHOSTUNREACH"; button_messages := [];
     generateKeyPair := inr sample_keys; csr_messages := [] |}.

Definition no_entropy : PairingEnv :=
  {| pairing_connect := Resolved ();
     button_messages := [(2000, status_message ["PhysicalAccess"])];
     generateKeyPair := inl "no entropy";
     csr_messages := [] |}.

Definition legacy_unpaired : Legacy.ModuleConfig :=
  {| Legacy.host := "10.0.0.5"; Legacy.port := 0; Legacy.ca := None;
     Legacy.certificate := None; Legacy.privateKey := None; Legacy.bridgeID := None |}.

Definition legacy_paired : Legacy.ModuleConfig :=
  {| Legacy.host := "10.0.0.5"; Legacy.port := 0; Legacy.ca := Some "old root";
     Legacy.certificate := Some "old certificate"; Legacy.privateKey := Some "old key";
     Legacy.bridgeID := Some "0455a1b2" |}.

Definition legacy_fresh : Legacy.ModuleInstance := Legacy.constructor legacy_unpaired.

(** The bridge was announced before [init]. *)
Definition legacy_discovered : Legacy.ModuleInstance :=
  Legacy.set_discoveredBridges {[ "10.0.0.5" := "0455a1b2" ]} legacy_fresh.

Definition legacy_signing (leap : Completion unit) : Legacy.Env :=
  {| Legacy.pairing := pressed_then [(200, signing_result "200 OK")];
     Legacy.session := {| Legacy.leap_connect := leap;
                          Legacy.getDeviceInfo := Resolved [lamp; hub] |} |}.

(** ** Running the methods *)

Ltac run_async :=
  unfold saveConfig, startDiscovery, updateActions, updateFeedbacks,
    updateVariableDefinitions, updateStatus, log;
  unfold mbind, mret, Async_bind, Async_ret, try, throw, emit, modify, get_this, await.

(** Membership of an event in an explicit list of calls. *)
Ltac absent :=
  repeat match goal with
  | Hin : _ ∈ [] |- _ => by apply elem_of_nil in Hin
  | Hin : _ ∈ _ :: _ |- _ =>
      apply elem_of_cons in Hin; destruct Hin as [Hin|Hin]; [discriminate Hin|]
  end.

Ltac present :=
  repeat first [apply list_elem_of_here | apply list_elem_of_further].

Ltac run_pairing :=
  unfold pairWithBridge, await_button_press, await_csr_response; run_async.

Ltac run_connect := unfold connectToBridge; run_async.

Ltac env_fields env :=
  let pc := fresh "connect_answer" in
  let bm := fresh "heard" in
  let gk := fresh "keygen_answer" in
  let cm := fresh "answered" in
  destruct env as [pc bm gk cm]; unfold button_pressed in *; simpl in *.

Section PairingRuns.
Context `{Libraries}.
Local Arguments String.append : simpl never.

Lemma late_or_irrelevant ms emitted (P : PairingMessage → Prop) response :
  (∀ t m, (t, m) ∈ emitted → P m → ms ≤ t) →
  once_before ms emitted = Some response → ¬ P response.
Proof.
  destruct emitted as [|[t r] rest]; simpl; [discriminate|].
  intros Hlate Hfirst HP. destruct (t <? ms) eqn:Ht; [|discriminate].
  injection Hfirst as ->.
  apply Z.ltb_lt in Ht. specialize (Hlate t response (list_elem_of_here _ _) HP). lia.
Qed.

Lemma nothing_in_time ms emitted :
  (∀ t m, (t, m) ∈ emitted → ms ≤ t) → once_before ms emitted = None.
Proof.
  destruct emitted as [|[t r] rest]; simpl; [done|].
  intros Hlate. specialize (Hlate t r (list_elem_of_here _ _)).
  destruct (t <? ms) eqn:Ht; [|done]. apply Z.ltb_lt in Ht. lia.
Qed.

Lemma pairWithBridge_connect_rejected env this e :
  pairing_connect env = Rejected e →
  pairWithBridge env this =
    MkRun (Resolved ()) this
      [EvLog "debug" "Pairing client connecting";
       EvPairingConnect (host (config this)) PAIRING_PORT;
       EvUpdateStatus ConnectionFailure (Some ("Failed to initialize pairing: " +:+ e));
       EvLog "error" ("Failed to initialize pairing: " +:+ e)].
Proof. intros Hc. run_pairing. rewrite Hc. reflexivity. Qed.

Lemma pairWithBridge_not_confirmed env this :
  pairing_connect env = Resolved () →
  (∀ response, ¬ button_pressed env response) →
  ∃ unexpected,
    Forall is_log unexpected ∧
    pairWithBridge env this =
      MkRun (Resolved ()) this
        ([EvLog "debug" "Pairing client connecting";
          EvPairingConnect (host (config this)) PAIRING_PORT;
          EvLog "info" "Waiting for button press on bridge..."]
         ++ unexpected ++
         [EvLog "error" "waiting for button push failed. Error: timed out";
          EvUpdateStatus ConnectionFailure (Some "Pairing timed out: timed out")]).
Proof.
  intros Hc Hno. env_fields env. subst.
  destruct (once_before 30000 heard) as [response|] eqn:Hfirst.
  - exists [EvLog "debug" ("got message " +:+ JSON_stringify response);
            EvLog "debug" ("unexpected pairing result " +:+ JSON_stringify response)].
    split; [repeat constructor|].
    run_pairing. cbn. rewrite Hfirst. rewrite bool_decide_eq_false_2; [reflexivity|].
    intros Hin. exact (Hno response (conj eq_refl Hin)).
  - exists []. split; [constructor|].
    run_pairing. cbn. rewrite Hfirst. reflexivity.
Qed.

Lemma pairWithBridge_keygen_failed env this response err_message :
  pairing_connect env = Resolved () →
  button_pressed env response →
  generateKeyPair env = inl err_message →
  pairWithBridge env this =
    MkRun (Rejected err_message) this
      (confirmed_log this response
       ++ [EvLog "error" ("key generation error: " +:+ err_message)]).
Proof.
  intros Hc [Hfirst Hin] Hk. env_fields env. subst.
  run_pairing. cbn. rewrite Hfirst. rewrite bool_decide_eq_true_2 by done. reflexivity.
Qed.

Lemma pairWithBridge_csr_timeout env this response keys :
  pairing_connect env = Resolved () →
  button_pressed env response →
  generateKeyPair env = inr keys →
  once_before 5000 (csr_messages env) = None →
  pairWithBridge env this =
    MkRun (Resolved ()) this
      (confirmed_log this response
       ++ [EvLog "debug" "Sending CSR to bridge for signing";
           EvRequestPair (csr_of keys);
           EvLog "error" "CSR failed: CSR response timed out";
           EvUpdateStatus ConnectionFailure (Some "CSR failed: CSR response timed out")]).
Proof.
  intros Hc [Hfirst Hin] Hk Hcsr. env_fields env. subst.
  run_pairing. cbn. rewrite Hfirst. rewrite bool_decide_eq_true_2 by done.
  cbn. rewrite Hcsr. reflexivity.
Qed.

Lemma pairWithBridge_csr_rejected env this response keys certResult :
  pairing_connect env = Resolved () →
  button_pressed env response →
  generateKeyPair env = inr keys →
  once_before 5000 (csr_messages env) = Some certResult →
  StatusCode certResult ≠ "200 OK" →
  pairWithBridge env this =
    MkRun (Resolved ()) this
      (confirmed_log this response
       ++ [EvLog "debug" "Sending CSR to bridge for signing";
           EvRequestPair (csr_of keys);
           EvLog "error"
             ("CSR failed: " +:+ ("bad CSR response: " +:+ JSON_stringify certResult));
           EvUpdateStatus ConnectionFailure
             (Some ("CSR failed: " +:+ ("bad CSR response: "
                                        +:+ JSON_stringify certResult)))]).
Proof.
  intros Hc [Hfirst Hin] Hk Hcsr Hcode. env_fields env. subst.
  run_pairing. cbn. rewrite Hfirst. rewrite bool_decide_eq_true_2 by done.
  cbn. rewrite Hcsr. rewrite bool_decide_eq_true_2 by done. reflexivity.
Qed.

(** The run after an answer in time with status ['200 OK']: the bridge ID
    is assigned, and then the bundle is stored, or the read of the missing
    signing result throws. *)
Lemma pairWithBridge_answered env this response keys certResult :
  pairing_connect env = Resolved () →
  button_pressed env response →
  generateKeyPair env = inr keys →
  once_before 5000 (csr_messages env) = Some certResult →
  StatusCode certResult = "200 OK" →
  pairWithBridge env this =
    MkRun
      (match Body_SigningResult certResult with
       | Some _ => Resolved ()
       | None => Rejected (cannot_read_property "RootCertificate")
       end)
      (match Body_SigningResult certResult with
       | Some signingResult =>
           set_bridgeCerts (Some (bundle_of keys signingResult))
             (set_bridgeID (Some (resolved_at_pairing this)) this)
       | None => set_bridgeID (Some (resolved_at_pairing this)) this
       end)
      (confirmed_log this response
       ++ [EvLog "debug" "Sending CSR to bridge for signing";
           EvRequestPair (csr_of keys);
           EvLog "debug" ("using bridge id: " +:+ resolved_at_pairing this);
           EvLog "debug" "Storing bridge certificates"]).
Proof.
  intros Hc [Hfirst Hin] Hk Hcsr Hcode. env_fields env. subst.
  run_pairing. cbn. rewrite Hfirst. rewrite bool_decide_eq_true_2 by done.
  cbn. rewrite Hcsr. rewrite bool_decide_eq_false_2 by (intros ?; done).
  unfold resolved_at_pairing.
  destruct (discoveredBridges this !! host (config this));
    destruct (Body_SigningResult certResult); reflexivity.
Qed.

Lemma pairWithBridge_paired env this response keys certResult signingResult :
  pairing_connect env = Resolved () →
  button_pressed env response →
  generateKeyPair env = inr keys →
  once_before 5000 (csr_messages env) = Some certResult →
  StatusCode certResult = "200 OK" →
  Body_SigningResult certResult = Some signingResult →
  pairWithBridge env this =
    MkRun (Resolved ())
      (set_bridgeCerts (Some (bundle_of keys signingResult))
         (set_bridgeID (Some (resolved_at_pairing this)) this))
      (confirmed_log this response
       ++ [EvLog "debug" "Sending CSR to bridge for signing";
           EvRequestPair (csr_of keys);
           EvLog "debug" ("using bridge id: " +:+ resolved_at_pairing this);
           EvLog "debug" "Storing bridge certificates"]).
Proof.
  intros Hc Hp Hk Hcsr Hcode Hsigned.
  by rewrite (pairWithBridge_answered _ _ _ _ _ Hc Hp Hk Hcsr Hcode), Hsigned.
Qed.

Lemma pairWithBridge_unsigned env this response keys certResult :
  pairing_connect env = Resolved () →
  button_pressed env response →
  generateKeyPair env = inr keys →
  once_before 5000 (csr_messages env) = Some certResult →
  StatusCode certResult = "200 OK" →
  Body_SigningResult certResult = None →
  pairWithBridge env this =
    MkRun (Rejected (cannot_read_property "RootCertificate"))
      (set_bridgeID (Some (resolved_at_pairing this)) this)
      (confirmed_log this response
       ++ [EvLog "debug" "Sending CSR to bridge for signing";
           EvRequestPair (csr_of keys);
           EvLog "debug" ("using bridge id: " +:+ resolved_at_pairing this);
           EvLog "debug" "Storing bridge certificates"]).
Proof.
  intros Hc Hp Hk Hcsr Hcode Hsigned.
  by rewrite (pairWithBridge_answered _ _ _ _ _ Hc Hp Hk Hcsr Hcode), Hsigned.
Qed.

(** Every environment is on exactly one of the paths above. *)
Lemma pairing_outcomes env :
  pairing_failure env ∨ ∃ keys certResult, pairing_success env keys certResult.
Proof.
  destruct (pairing_connect env) as [[]|e] eqn:Hc;
    [|left; eapply transport_connect_failure; eauto].
  destruct (once_before 30000 (button_messages env)) as [response|] eqn:Hfirst.
  2:{ left. apply confirmation_timeout; [done|]. intros r [Hr _]. congruence. }
  destruct (decide ("PhysicalAccess" ∈ Permissions response)) as [Hin|Hout].
  2:{ left. apply confirmation_timeout; [done|]. intros r [Hr Hp].
      rewrite Hfirst in Hr. injection Hr as <-. done. }
  assert (button_pressed env response) as Hpressed by done.
  destruct (generateKeyPair env) as [err|keys] eqn:Hk;
    [left; eapply key_generation_failure; eauto|].
  destruct (once_before 5000 (csr_messages env)) as [certResult|] eqn:Hcsr;
    [|left; eapply csr_timeout; eauto].
  destruct (decide (StatusCode certResult = "200 OK")) as [Hok|Hbad];
    [|left; eapply csr_rejection; eauto].
  right. exists keys, certResult. unfold pairing_success. eauto 10.
Qed.

Lemma pairing_failure_leaves_instance env this :
  pairing_failure env → final (pairWithBridge env this) = this.
Proof.
  intros [e Hc|Hc Hno|r e Hc Hp Hk|r k Hc Hp Hk Ht|r k c Hc Hp Hk Hcsr Hcode].
  - by rewrite (pairWithBridge_connect_rejected _ _ _ Hc).
  - destruct (pairWithBridge_not_confirmed _ this Hc Hno) as (u & _ & ->). done.
  - by rewrite (pairWithBridge_keygen_failed _ _ _ _ Hc Hp Hk).
  - by rewrite (pairWithBridge_csr_timeout _ _ _ _ Hc Hp Hk Ht).
  - by rewrite (pairWithBridge_csr_rejected _ _ _ _ _ Hc Hp Hk Hcsr Hcode).
Qed.

End PairingRuns.

Section ConnectionRuns.
Context `{Libraries}.
Local Arguments String.append : simpl never.

Lemma forEach_cons {A} (callback : A → Async unit) x l this :
  forEach callback (x :: l) this =
    match callback x this with
    | MkRun (Resolved _) this' evs =>
        match forEach callback l this' with
        | MkRun c this'' evs' => MkRun c this'' (evs ++ evs')
        end
    | MkRun (Rejected e) this' evs => MkRun (Rejected e) this' evs
    end.
Proof. reflexivity. Qed.

Lemma forEach_app {A} (callback : A → Async unit) l1 l2 this this1 evs1 :
  forEach callback l1 this = MkRun (Resolved ()) this1 evs1 →
  forEach callback (l1 ++ l2) this =
    match forEach callback l2 this1 with
    | MkRun c this2 evs2 => MkRun c this2 (evs1 ++ evs2)
    end.
Proof.
  revert this evs1. induction l1 as [|x l1 IH]; intros this evs1.
  - simpl. intros [= <- <-]. by destruct (forEach callback l2 this).
  - rewrite <- app_comm_cons, !forEach_cons.
    destruct (callback x this) as [[[]|e] this' evs]; [|discriminate].
    destruct (forEach callback l1 this') as [c this'' evs'] eqn:Hl1.
    intros [= -> -> <-]. rewrite (IH _ _ Hl1).
    destruct (forEach callback l2 this1). by rewrite app_assoc.
Qed.

Lemma set_devicesOnBridge_same this :
  set_devicesOnBridge (devicesOnBridge this ++ []) this = this.
Proof. destruct this. unfold set_devicesOnBridge. simpl. by rewrite app_nil_r. Qed.

(** An item that does not resolve the identity changes the device list
    only. *)
Lemma load_device_plain item this :
  (∀ d, item = inr d → bridgeID (config this) = Some UNKNOWN_BRIDGE_ID →
        DeviceType d ≠ "SmartBridge") →
  load_device item this =
    MkRun (Resolved ())
      (set_devicesOnBridge (devicesOnBridge this ++ with_area [item]) this)
      (device_log [item]).
Proof.
  intros Hplain. destruct item as [message|d]; simpl.
  - rewrite set_devicesOnBridge_same. reflexivity.
  - unfold load_device. run_async.
    assert (bool_decide (bridgeID (config this) = Some UNKNOWN_BRIDGE_ID)
            && bool_decide (DeviceType d = "SmartBridge") = false) as ->.
    { apply andb_false_iff. destruct (decide (bridgeID (config this) = Some UNKNOWN_BRIDGE_ID)).
      - right. apply bool_decide_eq_false_2. by apply Hplain.
      - left. by apply bool_decide_eq_false_2. }
    destruct (AssociatedArea d); cbn; [reflexivity|].
    by rewrite set_devicesOnBridge_same.
Qed.

Lemma with_area_cons item items :
  with_area (item :: items) = with_area [item] ++ with_area items.
Proof. destruct item as [|d]; simpl; [done|]. by destruct (AssociatedArea d). Qed.

Lemma device_log_cons item items :
  device_log (item :: items) = device_log [item] ++ device_log items.
Proof. destruct item as [|d]; simpl; [done|]. by destruct (AssociatedArea d). Qed.


Lemma with_area_reported d items : d ∈ with_area items → inr d ∈ items.
Proof.
  induction items as [|[m|d'] items IH]; simpl.
  - by intros ?%elem_of_nil.
  - intros. right. auto.
  - destruct (AssociatedArea d').
    + intros [->|?]%elem_of_cons; [left|right; auto].
    + intros. right. auto.
Qed.

Lemma with_area_has_area d items : d ∈ with_area items → is_Some (AssociatedArea d).
Proof.
  induction items as [|[m|d'] items IH]; simpl.
  - by intros ?%elem_of_nil.
  - auto.
  - destruct (AssociatedArea d') eqn:Harea; [|auto].
    intros [->|?]%elem_of_cons; [rewrite Harea; eauto|auto].
Qed.

Lemma load_devices_plain items this :
  (∀ d, inr d ∈ items → bridgeID (config this) = Some UNKNOWN_BRIDGE_ID →
        DeviceType d ≠ "SmartBridge") →
  forEach load_device items this =
    MkRun (Resolved ())
      (set_devicesOnBridge (devicesOnBridge this ++ with_area items) this)
      (device_log items).
Proof.
  revert this. induction items as [|item items IH]; intros this Hplain.
  - simpl. by rewrite set_devicesOnBridge_same.
  - rewrite forEach_cons, load_device_plain.
    2:{ intros d -> ?. apply Hplain; [left|done]. }
    rewrite IH.
    2:{ intros d Hd ?. apply Hplain; [by right|done]. }
    rewrite (with_area_cons item items), (device_log_cons item items).
    unfold set_devicesOnBridge. simpl. by rewrite app_assoc.
Qed.

(** The control unit, met while the identity is the sentinel, gives its
    serial number to the configuration, which is saved at once. *)
Lemma load_device_control_unit d this :
  bridgeID (config this) = Some UNKNOWN_BRIDGE_ID →
  DeviceType d = "SmartBridge" →
  load_device (inr d) this =
    MkRun (Resolved ()) (set_bridgeID (Some (SerialNumber d)) this)
      [EvSaveConfig (config (set_bridgeID (Some (SerialNumber d)) this)) (secrets this)].
Proof.
  intros Hid Htype. unfold load_device. run_async.
  rewrite !bool_decide_eq_true_2 by done. reflexivity.
Qed.


Lemma load_device_uses_only address item this :
  ∃ this' evs,
    load_device item this = MkRun (Resolved ()) this' evs
    ∧ secrets this' = secrets this
    ∧ host (config this') = host (config this)
    ∧ Forall (uses_only address (secrets this)) evs.
Proof.
  destruct item as [message|d]; unfold load_device; run_async.
  - eexists _, _. split; [reflexivity|]. repeat split. by repeat constructor.
  - destruct (bool_decide _ && bool_decide _).
    + eexists _, _. split; [reflexivity|]. repeat split. by repeat constructor.
    + destruct (AssociatedArea d); eexists _, _; (split; [reflexivity|]);
        repeat split; by repeat constructor.
Qed.

Lemma load_devices_uses_only address items this :
  ∃ this' evs,
    forEach load_device items this = MkRun (Resolved ()) this' evs
    ∧ secrets this' = secrets this
    ∧ host (config this') = host (config this)
    ∧ Forall (uses_only address (secrets this)) evs.
Proof.
  revert this. induction items as [|item items IH]; intros this.
  - exists this, []. by repeat split.
  - destruct (load_device_uses_only address item this) as (this1 & evs1 & Hrun & Hs & Hh & Hevs).
    destruct (IH this1) as (this2 & evs2 & Hrun2 & Hs2 & Hh2 & Hevs2).
    exists this2, (evs1 ++ evs2). rewrite forEach_cons, Hrun, Hrun2.
    split; [done|]. repeat split; [congruence|congruence|].
    apply Forall_app. split; [done|]. by rewrite <- Hs.
Qed.

Lemma connectToBridge_connected env this id certs items :
  bridgeID (config this) = Some id → id ≠ "" →
  bridgeCerts (secrets this) = Some certs →
  connection_succeeds env items →
  connectToBridge env this =
    match forEach load_device items (set_bridge (Some id) this) with
    | MkRun (Resolved _) this' evs =>
        MkRun (Resolved ()) this'
          ([EvLog "debug" ("Connecting to bridge with id: " +:+ id);
            EvUpdateStatus Connecting (Some "Connecting to Bridge");
            EvLeapConnect (host (config this)) LEAP_PORT
              (ca certs) (privateKey certs) (certificate certs);
            EvGetDeviceInfo]
           ++ evs ++ [EvLog "debug" "Loaded"; EvUpdateStatus Ok None])
    | MkRun (Rejected e) this' evs =>
        MkRun (Rejected e) this'
          ([EvLog "debug" ("Connecting to bridge with id: " +:+ id);
            EvUpdateStatus Connecting (Some "Connecting to Bridge");
            EvLeapConnect (host (config this)) LEAP_PORT
              (ca certs) (privateKey certs) (certificate certs);
            EvGetDeviceInfo]
           ++ evs)
    end.
Proof.
  intros Hid Hne Hcerts [Hconnect Hitems]. run_connect.
  rewrite Hid, Hcerts, Hconnect, Hitems. simpl.
  destruct (String.eqb_spec id ""); [done|]. cbn.
  destruct (forEach load_device items (set_bridge (Some id) this)) as [[[]|e] this' evs];
    reflexivity.
Qed.

(** A connection keeps the secrets and the host, saves only those secrets
    and offers only them, to the configured host. *)
Lemma connectToBridge_uses_only env this :
  secrets (final (connectToBridge env this)) = secrets this
  ∧ host (config (final (connectToBridge env this))) = host (config this)
  ∧ Forall (uses_only (host (config this)) (secrets this))
           (events (connectToBridge env this)).
Proof.
  run_connect.
  destruct (bridgeID (config this)) as [id|] eqn:Hid;
    [|by repeat split; repeat constructor].
  destruct (bridgeCerts (secrets this)) as [certs|] eqn:Hcerts;
    [|by repeat split; repeat constructor].
  simpl. destruct (String.eqb id ""); simpl; [by repeat split; repeat constructor|].
  destruct (leap_connect env) as [[]|e]; cbn.
  2:{ repeat split. repeat constructor. rewrite Hcerts. by destruct certs. }
  destruct (getDeviceInfo env) as [items|e]; cbn.
  2:{ repeat split. repeat constructor. rewrite Hcerts. by destruct certs. }
  destruct (load_devices_uses_only (host (config this)) items (set_bridge (Some id) this))
    as (this' & evs & -> & Hs & Hh & Hevs).
  cbn. repeat split; [done|done|].
  repeat (constructor; [by first [exact I | (repeat split; rewrite ?Hcerts; by destruct certs)]|]).
  apply Forall_app. split; [done|]. by repeat constructor.
Qed.

(** With an identity and a bundle, the bundle is offered to the configured
    host, whatever the session endpoint answers. *)
Lemma connectToBridge_offers env this id certs :
  bridgeID (config this) = Some id → id ≠ "" →
  bridgeCerts (secrets this) = Some certs →
  EvLeapConnect (host (config this)) LEAP_PORT
    (ca certs) (privateKey certs) (certificate certs)
  ∈ events (connectToBridge env this).
Proof.
  intros Hid Hne Hcerts. run_connect. rewrite Hid, Hcerts. simpl.
  destruct (String.eqb_spec id ""); [done|]. simpl.
  destruct (leap_connect env) as [[]|e]; cbn; [|present].
  destruct (getDeviceInfo env) as [items|e]; cbn; [|present].
  destruct (forEach load_device items (set_bridge (Some id) this)) as [[[]|e] this' evs];
    cbn; present.
Qed.

End ConnectionRuns.

Section ReconciliationRuns.
Context `{Libraries}.
Local Arguments String.append : simpl never.

Lemma init_run config_ first secrets_ env this :
  init config_ first secrets_ env this =
    let this1 := set_secrets secrets_ (set_config config_ this) in
    match bridgeCerts secrets_ with
    | Some _ =>
        match connectToBridge env this1 with
        | MkRun (Resolved _) this2 evs =>
            MkRun (Resolved ()) this2 (init_opening ++ evs ++ init_closing)
        | MkRun (Rejected e) this2 evs =>
            MkRun (Rejected e) this2 (init_opening ++ evs)
        end
    | None => MkRun (Resolved ()) this1 (init_opening ++ init_closing)
    end.
Proof.
  unfold init. run_async. cbn.
  destruct (bridgeCerts secrets_); [|reflexivity].
  destruct (connectToBridge env _) as [[[]|e] this2 evs]; reflexivity.
Qed.

Lemma configUpdated_host_changed config_ secrets_ env this :
  host config_ ≠ host (config this) →
  configUpdated config_ secrets_ env this =
    match pairWithBridge (pairing env) (set_secrets secrets_ (set_config config_ this)) with
    | MkRun (Resolved _) this1 evs =>
        match init (config this1) false (secrets this1) (session env) this1 with
        | MkRun c this2 evs' =>
            MkRun c this2
              (repairing_opening ++ evs
               ++ [EvSaveConfig (config this1) (secrets this1);
                   EvLog "debug" "re-initializing module"]
               ++ evs')
        end
    | MkRun (Rejected e) this1 evs => MkRun (Rejected e) this1 (repairing_opening ++ evs)
    end.
Proof.
  intros Hhost. unfold configUpdated. run_async.
  rewrite !bool_decide_eq_true_2 by done. cbn.
  destruct (pairWithBridge _ _) as [[[]|e] this1 evs]; [|reflexivity].
  destruct (init _ _ _ _ _) as [c this2 evs']. reflexivity.
Qed.

Lemma configUpdated_host_unchanged config_ secrets_ env this :
  host config_ = host (config this) →
  configUpdated config_ secrets_ env this =
    match init config_ false secrets_ (session env)
               (set_secrets secrets_ (set_config config_ this)) with
    | MkRun c this2 evs' =>
        MkRun c this2
          ([EvLog "debug" "host unchanged";
            EvSaveConfig config_ secrets_;
            EvLog "debug" "re-initializing module"] ++ evs')
    end.
Proof.
  intros Hhost. unfold configUpdated. run_async.
  rewrite !bool_decide_eq_false_2 by (intros ?; done). cbn.
  destruct (init _ _ _ _ _) as [c this2 evs']. reflexivity.
Qed.

End ReconciliationRuns.

Section Registry.
Context `{Libraries}.
Local Arguments String.append : simpl never.

Lemma registry_after_cons info found this :
  registry_after (info :: found) this =
    registry_after found
      (set_discoveredBridges (<[ipAddr info := bridgeid info]> (discoveredBridges this)) this).
Proof.
  unfold registry_after. rewrite forEach_cons. unfold discovered at 1. run_async. cbn.
  by destruct (forEach discovered found _).
Qed.

Lemma registry_after_lookup found this address :
  registry_after found this !! address =
    match last (about address found) with
    | Some info => Some (bridgeid info)
    | None => discoveredBridges this !! address
    end.
Proof.
  revert this. induction found as [|info found IH]; intros this; [done|].
  rewrite registry_after_cons, IH. unfold about. simpl.
  rewrite filter_cons. case_decide as Haddr.
  - rewrite last_cons.
    destruct (last (filter _ found)); [done|].
    rewrite <- Haddr. by rewrite lookup_insert_eq.
  - destruct (last (filter _ found)); [done|]. by rewrite lookup_insert_ne.
Qed.

(** C9: after any finite sequence of discovery events the registry maps
    each address to the bridge id of the last event for that address (and
    to what it held before when there is none); two sequences that are
    permutations of each other and agree, address by address, on the order
    of their events give the same registry. *)
Theorem registry_last_event_wins (found found' : list BridgeNetInfo) this :
  (∀ address,
     registry_after found this !! address =
       match last (about address found) with
       | Some info => Some (bridgeid info)
       | None => discoveredBridges this !! address
       end)
  ∧ (found ≡ₚ found' →
     (∀ address, about address found = about address found') →
     registry_after found this = registry_after found' this).
Proof.
  split; [intros; apply registry_after_lookup|].
  intros _ Hsame. apply map_eq. intros address.
  by rewrite !registry_after_lookup, Hsame.
Qed.

End Registry.

Section Pairing.
Context `{Libraries}.
Local Arguments String.append : simpl never.

(** C7: when pairing succeeds, the configured bridge ID becomes the id the
    registry records for the configured host if the host is a key of the
    registry, and the sentinel otherwise.  The bridge ID is assigned before
    the certificates are read from the answer, so this holds of every
    attempt that was answered in time with status ['200 OK']. *)
Theorem identity_assigned_at_pairing env this keys certResult :
  pairing_success env keys certResult →
  bridgeID (config (final (pairWithBridge env this))) =
    match discoveredBridges this !! host (config this) with
    | Some id => Some id
    | None => Some UNKNOWN_BRIDGE_ID
    end.
Proof.
  intros (Hc & [response Hp] & Hk & Hcsr & Hcode).
  rewrite (pairWithBridge_answered _ _ _ _ _ Hc Hp Hk Hcsr Hcode).
  unfold resolved_at_pairing.
  by destruct (Body_SigningResult certResult),
       (discoveredBridges this !! host (config this)).
Qed.

Lemma among_logs e (before unexpected after : list Event) :
  Forall is_log unexpected →
  e ∈ before ++ unexpected ++ after → e ∈ before ∨ is_log e ∨ e ∈ after.
Proof.
  intros Hall Hin. rewrite Forall_forall in Hall. rewrite !elem_of_app in Hin.
  destruct Hin as [?|[?|?]]; auto.
Qed.

Lemma last_two_more {A} (l1 l2 : list A) x y : last (l1 ++ l2 ++ [x; y]) = Some y.
Proof.
  change [x; y] with ([x] ++ [y]). by rewrite !app_assoc, last_snoc.
Qed.

(** C5: if the pairing client connected and every message that carries
    the physical-access permission arrives 30000 ms or more after the wait
    began, [pairWithBridge] returns after reporting the pairing timeout as
    its last call; it has requested no key pair, saved nothing, and left the
    instance (configuration and secrets included) as it was. *)
Theorem confirmation_timeout_fails env this :
  pairing_connect env = Resolved () →
  (∀ t m, (t, m) ∈ button_messages env → "PhysicalAccess" ∈ Permissions m → 30000 ≤ t) →
  let r := pairWithBridge env this in
  completion r = Resolved ()
  ∧ last (events r)
    = Some (EvUpdateStatus ConnectionFailure (Some "Pairing timed out: timed out"))
  ∧ (∀ bits, EvGenerateKeyPair bits ∉ events r)
  ∧ (∀ c s, EvSaveConfig c s ∉ events r)
  ∧ final r = this.
Proof.
  intros Hc Hlate r.
  assert (∀ response, ¬ button_pressed env response) as Hno.
  { intros response [Hfirst Hin].
    by apply (late_or_irrelevant _ _ (λ m, "PhysicalAccess" ∈ Permissions m) _ Hlate Hfirst). }
  destruct (pairWithBridge_not_confirmed env this Hc Hno) as (unexpected & Hlogs & Hrun).
  subst r. rewrite Hrun. cbn [completion final events]. repeat split.
  - apply last_two_more.
  - intros bits Hin. destruct (among_logs _ _ _ _ Hlogs Hin) as [?|[[]|?]]; absent.
  - intros c s Hin. destruct (among_logs _ _ _ _ Hlogs Hin) as [?|[[]|?]]; absent.
Qed.

(** The two failure exits of the second wait.  After the confirmation and
    the key generation, (a) if every message arrives 5000 ms or more after
    the request was sent, [pairWithBridge] returns after reporting the CSR
    timeout, and (b) if the message that arrives in time has a status code
    other than ['200 OK'], it returns after reporting the rejection
    together with the serialised message; in both cases nothing is saved
    and the instance is left as it was: neither the keys nor any
    certificate is stored. *)
Lemma csr_wait_failures_discard env this response keys :
  pairing_connect env = Resolved () →
  button_pressed env response →
  generateKeyPair env = inr keys →
  let r := pairWithBridge env this in
  ((∀ t m, (t, m) ∈ csr_messages env → 5000 ≤ t) →
   completion r = Resolved ()
   ∧ last (events r)
     = Some (EvUpdateStatus ConnectionFailure (Some "CSR failed: CSR response timed out"))
   ∧ (∀ c s, EvSaveConfig c s ∉ events r)
   ∧ final r = this)
  ∧ (∀ certResult,
       once_before 5000 (csr_messages env) = Some certResult →
       StatusCode certResult ≠ "200 OK" →
       completion r = Resolved ()
       ∧ last (events r)
         = Some (EvUpdateStatus ConnectionFailure
                   (Some ("CSR failed: " +:+ ("bad CSR response: "
                                              +:+ JSON_stringify certResult))))
       ∧ (∀ c s, EvSaveConfig c s ∉ events r)
       ∧ final r = this).
Proof.
  intros Hc Hp Hk r. subst r. split.
  - intros Hlate. apply nothing_in_time in Hlate.
    rewrite (pairWithBridge_csr_timeout _ _ _ _ Hc Hp Hk Hlate). simpl.
    repeat split. intros c s Hin. absent.
  - intros certResult Hcsr Hcode.
    rewrite (pairWithBridge_csr_rejected _ _ _ _ _ Hc Hp Hk Hcsr Hcode). simpl.
    repeat split. intros c s Hin. absent.
Qed.

(** C6 (what the code does): the listener of the second wait resolves
    with the first message that arrives, whatever it is.  When, after the
    confirmation and the key generation, the first message within the
    5000 ms has status ['200 OK'] and no signing result (a status message),
    the attempt does not end in the CSR timeout, whether or not a signing
    response follows: it assigns the bridge ID and is then rejected with
    the [TypeError] of the read of the missing signing result, having
    reported no status at all; the secrets are left as they were and
    nothing is saved. *)
Theorem status_message_is_taken_for_the_csr_response
    env this response keys t answer later :
  pairing_connect env = Resolved () →
  button_pressed env response →
  generateKeyPair env = inr keys →
  csr_messages env = (t, answer) :: later →
  t < 5000 →
  StatusCode answer = "200 OK" →
  Body_SigningResult answer = None →
  let r := pairWithBridge env this in
  completion r = Rejected (cannot_read_property "RootCertificate")
  ∧ status_updates (events r) = []
  ∧ (EvUpdateStatus ConnectionFailure (Some "CSR failed: CSR response timed out")
     ∉ events r)
  ∧ last (events r) = Some (EvLog "debug" "Storing bridge certificates")
  ∧ bridgeID (config (final r)) = Some (resolved_at_pairing this)
  ∧ secrets (final r) = secrets this
  ∧ (∀ c s, EvSaveConfig c s ∉ events r).
Proof.
  intros Hc Hp Hk Hanswers Ht Hcode Hunsigned r. subst r.
  assert (once_before 5000 (csr_messages env) = Some answer) as Hcsr.
  { rewrite Hanswers. simpl. by rewrite (proj2 (Z.ltb_lt t 5000) Ht). }
  rewrite (pairWithBridge_unsigned _ _ _ _ _ Hc Hp Hk Hcsr Hcode Hunsigned).
  unfold confirmed_log. cbn.
  split; [done|]. split; [done|]. split; [intros Hin; absent|].
  split; [done|]. split; [done|]. split; [done|]. intros c s Hin. absent.
Qed.

End Pairing.

Section Reconciliation.
Context `{Libraries}.
Local Arguments String.append : simpl never.

Lemma Forall_logs_pairing_call unexpected :
  Forall is_log unexpected → Forall pairing_call unexpected.
Proof. intros Hall. eapply Forall_impl; [exact Hall|]. by intros []. Qed.

(** A pairing attempt saves nothing and opens no session. *)
Lemma pairWithBridge_calls env this :
  Forall pairing_call (events (pairWithBridge env this)).
Proof.
  destruct (pairing_outcomes env)
    as [[e Hc|Hc Hno|r e Hc Hp Hk|r k Hc Hp Hk Ht|r k c Hc Hp Hk Hcsr Hcode]
       |(k & c & Hc & [r Hp] & Hk & Hcsr & Hcode)].
  - rewrite (pairWithBridge_connect_rejected _ _ _ Hc). by repeat constructor.
  - destruct (pairWithBridge_not_confirmed _ this Hc Hno) as (u & Hu & ->).
    cbn [events]. rewrite !Forall_app. split; [by repeat constructor|].
    split; [by apply Forall_logs_pairing_call|by repeat constructor].
  - rewrite (pairWithBridge_keygen_failed _ _ _ _ Hc Hp Hk). by repeat constructor.
  - rewrite (pairWithBridge_csr_timeout _ _ _ _ Hc Hp Hk Ht). by repeat constructor.
  - rewrite (pairWithBridge_csr_rejected _ _ _ _ _ Hc Hp Hk Hcsr Hcode).
    by repeat constructor.
  - rewrite (pairWithBridge_answered _ _ _ _ _ Hc Hp Hk Hcsr Hcode). by repeat constructor.
Qed.

(** A pairing attempt leaves the secrets as they were, or stores the
    bundle built from the signing result of the ['200 OK'] answer and the
    key pair of the attempt. *)
Lemma pairWithBridge_secrets env this :
  secrets (final (pairWithBridge env this)) = secrets this
  ∨ ∃ keys certResult signingResult,
      pairing_success env keys certResult
      ∧ Body_SigningResult certResult = Some signingResult
      ∧ secrets (final (pairWithBridge env this))
        = {| bridgeCerts := Some (bundle_of keys signingResult) |}.
Proof.
  destruct (pairing_outcomes env) as [Hfail|(k & c & Hok)].
  - left. by rewrite pairing_failure_leaves_instance.
  - pose proof Hok as (Hc & [r Hp] & Hk & Hcsr & Hcode).
    rewrite (pairWithBridge_answered _ _ _ _ _ Hc Hp Hk Hcsr Hcode).
    destruct (Body_SigningResult c) as [signingResult|] eqn:Hsigned; [|by left].
    right. by exists k, c, signingResult.
Qed.

Lemma pairWithBridge_host env this :
  host (config (final (pairWithBridge env this))) = host (config this).
Proof.
  destruct (pairing_outcomes env) as [Hfail|(k & c & Hc & [r Hp] & Hk & Hcsr & Hcode)].
  - by rewrite pairing_failure_leaves_instance.
  - rewrite (pairWithBridge_answered _ _ _ _ _ Hc Hp Hk Hcsr Hcode).
    by destruct (Body_SigningResult c).
Qed.

Lemma pairWithBridge_starts env this :
  EvPairingConnect (host (config this)) PAIRING_PORT ∈ events (pairWithBridge env this).
Proof.
  destruct (pairing_outcomes env)
    as [[e Hc|Hc Hno|r e Hc Hp Hk|r k Hc Hp Hk Ht|r k c Hc Hp Hk Hcsr Hcode]
       |(k & c & Hc & [r Hp] & Hk & Hcsr & Hcode)].
  - rewrite (pairWithBridge_connect_rejected _ _ _ Hc). cbn. present.
  - destruct (pairWithBridge_not_confirmed _ this Hc Hno) as (u & Hu & ->). cbn. present.
  - rewrite (pairWithBridge_keygen_failed _ _ _ _ Hc Hp Hk). cbn. present.
  - rewrite (pairWithBridge_csr_timeout _ _ _ _ Hc Hp Hk Ht). cbn. present.
  - rewrite (pairWithBridge_csr_rejected _ _ _ _ _ Hc Hp Hk Hcsr Hcode). cbn. present.
  - rewrite (pairWithBridge_answered _ _ _ _ _ Hc Hp Hk Hcsr Hcode). cbn. present.
Qed.

Lemma init_uses_only config_ first secrets_ env this :
  secrets (final (init config_ first secrets_ env this)) = secrets_
  ∧ Forall (uses_only (host config_) secrets_)
           (events (init config_ first secrets_ env this)).
Proof.
  rewrite init_run. cbn zeta.
  destruct (bridgeCerts secrets_) eqn:Hcerts; [|split; [done|by repeat constructor]].
  destruct (connectToBridge_uses_only env (set_secrets secrets_ (set_config config_ this)))
    as (Hs & _ & Hevs).
  simpl in Hs, Hevs.
  destruct (connectToBridge env _) as [[[]|e] this2 evs]; simpl in *.
  - split; [done|]. repeat (constructor; [exact I|]).
    apply Forall_app. split; [done|by repeat constructor].
  - split; [done|]. by repeat (constructor; [exact I|]).
Qed.

Lemma saved_secrets address s c s' evs :
  Forall (uses_only address s) evs → EvSaveConfig c s' ∈ evs → s' = s.
Proof. intros Hall Hin. rewrite Forall_forall in Hall. exact (Hall _ Hin). Qed.

Lemma pairing_call_not_saved c s evs :
  Forall pairing_call evs → EvSaveConfig c s ∉ evs.
Proof. intros Hall Hin. rewrite Forall_forall in Hall. exact (Hall _ Hin). Qed.

Lemma pairing_call_not_session e evs :
  Forall pairing_call evs → e ∈ evs → ¬ opens_session e.
Proof.
  intros Hall Hin. rewrite Forall_forall in Hall. specialize (Hall _ Hin).
  destruct e; simpl in *; tauto.
Qed.

(** The calls of [configUpdated] when the host differs: the announcement,
    the whole pairing attempt, and then what re-initialisation does with the
    secrets the attempt left. *)
Lemma configUpdated_host_changed_calls config_ secrets_ env this :
  host config_ ≠ host (config this) →
  let attempt :=
    pairWithBridge (pairing env) (set_secrets secrets_ (set_config config_ this)) in
  ∃ post,
    events (configUpdated config_ secrets_ env this)
      = repairing_opening ++ events attempt ++ post
    ∧ Forall (uses_only (host config_) (secrets (final attempt))) post
    ∧ secrets (final (configUpdated config_ secrets_ env this)) = secrets (final attempt)
    ∧ (completion attempt = Resolved () →
       post = [EvSaveConfig (config (final attempt)) (secrets (final attempt));
               EvLog "debug" "re-initializing module"]
              ++ events (init (config (final attempt)) false (secrets (final attempt))
                              (session env) (final attempt))).
Proof.
  intros Hhost attempt. rewrite (configUpdated_host_changed _ _ _ _ Hhost).
  pose proof (pairWithBridge_host (pairing env)
                (set_secrets secrets_ (set_config config_ this))) as Hsame.
  fold attempt in Hsame |- *. simpl in Hsame.
  destruct attempt as [[[]|e] this1 evs]; simpl in *.
  - destruct (init_uses_only (config this1) false (secrets this1) (session env) this1)
      as [Hs Hevs].
    destruct (init _ _ _ _ _) as [c this2 evs']. simpl in *.
    exists ([EvSaveConfig (config this1) (secrets this1);
             EvLog "debug" "re-initializing module"] ++ evs').
    repeat split; [|done].
    repeat (constructor; [done|]). by rewrite <- Hsame.
  - exists []. rewrite app_nil_r. repeat split; [constructor|done].
Qed.

(** C2 (what the code does): the status code is all that is checked of
    the answer to the signing request.  When the ['200 OK'] answer carries a
    signing result that lacks one of the two certificates, the attempt
    stores a bundle that holds the private key without holding all three
    fields, and the configuration update that forced the attempt saves it:
    these secrets are saved, they are the secrets of every save of the
    update, and the update ends with them. *)
Theorem partial_bundle_is_persisted
    config_ secrets_ env this keys certResult signingResult :
  host config_ ≠ host (config this) →
  pairing_success (pairing env) keys certResult →
  Body_SigningResult certResult = Some signingResult →
  RootCertificate signingResult = None ∨ Certificate signingResult = None →
  let attempt :=
    pairWithBridge (pairing env) (set_secrets secrets_ (set_config config_ this)) in
  let r := configUpdated config_ secrets_ env this in
  let stored := {| bridgeCerts := Some (bundle_of keys signingResult) |} in
  ¬ all_or_nothing stored
  ∧ completion attempt = Resolved ()
  ∧ secrets (final attempt) = stored
  ∧ (∃ c, EvSaveConfig c stored ∈ events r)
  ∧ (∀ c s, EvSaveConfig c s ∈ events r → s = stored)
  ∧ secrets (final r) = stored.
Proof.
  intros Hchanged (Hc & [response Hp] & Hk & Hcsr & Hcode) Hsigned Hlacks
         attempt r stored.
  split.
  { unfold all_or_nothing, complete, stored, bundle_of. simpl.
    intros [[? Hroot] [? Hcert]]. destruct Hlacks; congruence. }
  destruct (configUpdated_host_changed_calls _ secrets_ env _ Hchanged)
    as (post & Hevents & Hpost & Hend & Hreinit).
  pose proof (pairWithBridge_calls (pairing env)
                (set_secrets secrets_ (set_config config_ this))) as Hcalls.
  fold attempt in Hevents, Hpost, Hend, Hreinit, Hcalls. fold r in Hevents, Hend.
  assert (completion attempt = Resolved () ∧ secrets (final attempt) = stored)
    as [Hdone Hstored].
  { unfold attempt.
    by rewrite (pairWithBridge_paired _ _ _ _ _ _ Hc Hp Hk Hcsr Hcode Hsigned). }
  rewrite Hstored in *. specialize (Hreinit Hdone).
  split; [done|]. split; [done|]. split; [|split; [|done]].
  - exists (config (final attempt)). rewrite Hevents, Hreinit, !elem_of_app.
    right. right. left. apply list_elem_of_here.
  - intros c s Hin. rewrite Hevents, !elem_of_app in Hin. destruct Hin as [Hin|[Hin|Hin]].
    + unfold repairing_opening in Hin. absent.
    + by apply pairing_call_not_saved in Hin.
    + by rewrite (saved_secrets _ _ _ _ _ Hpost Hin).
Qed.

(** C8: when the host of the new configuration differs from the previous
    one, the calls of [configUpdated] are an announcement, then all the
    calls of one pairing attempt against the new host, from its connection
    to the pairing port to its end, and only then the rest; no session is
    opened in the announcement or during the attempt. *)
Theorem repairing_precedes_reconnection config_ secrets_ env this :
  host config_ ≠ host (config this) →
  let attempt :=
    pairWithBridge (pairing env) (set_secrets secrets_ (set_config config_ this)) in
  ∃ pre post,
    events (configUpdated config_ secrets_ env this) = pre ++ events attempt ++ post
    ∧ EvPairingConnect (host config_) PAIRING_PORT ∈ events attempt
    ∧ ∀ e, e ∈ pre ++ events attempt → ¬ opens_session e.
Proof.
  intros Hchanged attempt.
  destruct (configUpdated_host_changed_calls _ secrets_ env _ Hchanged)
    as (post & Hevents & _).
  exists repairing_opening, post. split; [done|]. split.
  - apply (pairWithBridge_starts (pairing env)
             (set_secrets secrets_ (set_config config_ this))).
  - intros e [Hin|Hin]%elem_of_app.
    + unfold repairing_opening in Hin.
      repeat (apply elem_of_cons in Hin as [->|Hin]; [simpl; tauto|]).
      by apply elem_of_nil in Hin.
    + eapply pairing_call_not_session; [apply pairWithBridge_calls|done].
Qed.

End Reconciliation.

Section FailedPairing.
Context `{Libraries}.
Local Arguments String.append : simpl never.

Lemma truthy_Some o : truthy o = true → ∃ id, o = Some id ∧ id ≠ "".
Proof.
  destruct o as [id|]; simpl; [|done]. intros Hne. exists id. split; [done|].
  intros ->. done.
Qed.

Lemma offered_bundle address s certs a p c k ce evs :
  bridgeCerts s = Some certs →
  Forall (uses_only address s) evs →
  EvLeapConnect a p c k ce ∈ evs →
  a = address ∧ p = LEAP_PORT ∧ c = ca certs ∧ k = privateKey certs
  ∧ ce = certificate certs.
Proof.
  intros Hcerts Hall Hin. rewrite Forall_forall in Hall.
  destruct (Hall _ Hin) as (-> & -> & Hs). rewrite Hcerts in Hs.
  injection Hs as ->. done.
Qed.

(** C10: on each of the five failure exits of [pairWithBridge] the secrets
    and the configured bridge ID are what they were before the call.  When
    [configUpdated] is given a new host together with the stored bundle and
    the forced attempt fails, the bundle is still the stored one at the end,
    it is the bundle of every save, and every session the update opens is
    opened against the new host with that bundle; such a session is opened
    whenever the failed attempt returned (all exits but the key-generation
    one, which is thrown through [configUpdated]) and the configured bridge
    ID is set. *)
Theorem failed_pairing_keeps_old_bundle config_ secrets_ env this certs :
  pairing_failure (pairing env) →
  (secrets (final (pairWithBridge (pairing env) this)) = secrets this
   ∧ bridgeID (config (final (pairWithBridge (pairing env) this)))
     = bridgeID (config this))
  ∧ (host config_ ≠ host (config this) →
     bridgeCerts secrets_ = Some certs →
     let r := configUpdated config_ secrets_ env this in
     bridgeCerts (secrets (final r)) = Some certs
     ∧ (∀ c s, EvSaveConfig c s ∈ events r → bridgeCerts s = Some certs)
     ∧ (∀ a p c k ce, EvLeapConnect a p c k ce ∈ events r →
          a = host config_ ∧ p = LEAP_PORT ∧ c = ca certs ∧ k = privateKey certs
          ∧ ce = certificate certs)
     ∧ (completion (pairWithBridge (pairing env)
                      (set_secrets secrets_ (set_config config_ this))) = Resolved () →
        truthy (bridgeID config_) = true →
        EvLeapConnect (host config_) LEAP_PORT
          (ca certs) (privateKey certs) (certificate certs) ∈ events r)).
Proof.
  intros Hfail. split.
  { by rewrite pairing_failure_leaves_instance. }
  intros Hchanged Hcerts r. subst r.
  destruct (configUpdated_host_changed_calls _ secrets_ env _ Hchanged)
    as (post & -> & Hpost & -> & Hreinit).
  pose proof (pairWithBridge_calls (pairing env)
                (set_secrets secrets_ (set_config config_ this))) as Hcalls.
  rewrite pairing_failure_leaves_instance in * by done.
  simpl in Hpost, Hreinit. simpl secrets at 1.
  split; [done|]. split; [|split].
  - intros c s Hin. rewrite !elem_of_app in Hin. destruct Hin as [Hin|[Hin|Hin]].
    + unfold repairing_opening in Hin. absent.
    + by apply pairing_call_not_saved in Hin.
    + by rewrite (saved_secrets _ _ _ _ _ Hpost Hin).
  - intros a p c k ce Hin. rewrite !elem_of_app in Hin. destruct Hin as [Hin|[Hin|Hin]].
    + unfold repairing_opening in Hin. absent.
    + by destruct (pairing_call_not_session _ _ Hcalls Hin).
    + exact (offered_bundle _ _ _ _ _ _ _ _ _ Hcerts Hpost Hin).
  - intros Hreturned Hid. rewrite (Hreinit Hreturned).
    destruct (truthy_Some _ Hid) as (id & Hsome & Hne).
    rewrite !elem_of_app. right. right. right.
    rewrite init_run. cbn zeta. rewrite Hcerts.
    pose proof (connectToBridge_offers (session env)
                  (set_secrets secrets_
                     (set_config config_ (set_secrets secrets_ (set_config config_ this))))
                  id certs Hsome Hne Hcerts) as Hoffer.
    simpl in Hoffer.
    destruct (connectToBridge _ _) as [[[]|e] this2 evs]; cbn [events] in *.
    all: rewrite elem_of_cons, !elem_of_app; right; right; auto.
Qed.

End FailedPairing.

Section Connection.
Context `{Libraries}.
Local Arguments String.append : simpl never.

Lemma device_log_logs items : Forall is_log (device_log items).
Proof.
  induction items as [|[m|d] items IH]; simpl; [constructor|by constructor|].
  destruct (AssociatedArea d); [by constructor|done].
Qed.


(** The devices a connection adds when no item resolves the identity: all
    the devices of the enumeration that have an area, after the devices the
    list already held. *)
Lemma connectToBridge_appends env this id certs items :
  bridgeID (config this) = Some id → id ≠ "" → id ≠ UNKNOWN_BRIDGE_ID →
  bridgeCerts (secrets this) = Some certs →
  connection_succeeds env items →
  devicesOnBridge (final (connectToBridge env this))
  = devicesOnBridge this ++ with_area items.
Proof.
  intros Hid Hne Hknown Hcerts Hok.
  rewrite (connectToBridge_connected _ _ _ _ _ Hid Hne Hcerts Hok).
  rewrite load_devices_plain; [done|].
  intros d _. simpl. rewrite Hid. intros [= ?]. done.
Qed.


(** C3 (what the code does): a connection with a resolved identity appends
    to the device list; the list is emptied by the constructor only.  After
    [init] and one configuration update against a bridge that reports one
    lamp, the list holds the lamp twice. *)
Theorem reconnection_duplicates_devices :
  let started :=
    final (init paired_config true paired_secrets one_lamp
             (constructor paired_config paired_secrets)) in
  let updated :=
    final (configUpdated (H := sample_libraries) paired_config paired_secrets
             {| pairing := silent_bridge; session := one_lamp |} started) in
  getDeviceInfo one_lamp = Resolved [inr lamp]
  ∧ devicesOnBridge started = [lamp]
  ∧ devicesOnBridge updated = [lamp; lamp].
Proof. by vm_compute. Qed.

(** C1 (what the code does): the listener of the first wait is registered
    with [once].  When the first message arrives within the 30000 ms and
    lacks the physical-access permission, it is logged, and the wait then
    ends in the timeout whatever arrives afterwards: no key pair is
    requested and the instance is left as it was. *)
Theorem later_confirmation_is_not_heard env this t response later :
  pairing_connect env = Resolved () →
  button_messages env = (t, response) :: later →
  t < 30000 →
  "PhysicalAccess" ∉ Permissions response →
  let r := pairWithBridge env this in
  EvLog "debug" ("unexpected pairing result " +:+ JSON_stringify response) ∈ events r
  ∧ last (events r)
    = Some (EvUpdateStatus ConnectionFailure (Some "Pairing timed out: timed out"))
  ∧ (∀ bits, EvGenerateKeyPair bits ∉ events r)
  ∧ final r = this.
Proof.
  intros Hc Hheard Ht Hirrelevant r. subst r.
  unfold pairWithBridge, await_button_press. run_async.
  rewrite Hc, Hheard. cbn.
  rewrite (proj2 (Z.ltb_lt t 30000) Ht).
  rewrite bool_decide_eq_false_2 by done. cbn.
  repeat split; [present|]. intros bits Hin. absent.
Qed.

End Connection.

(** ** The statements at sample inputs *)

Section Samples.
Existing Instance sample_libraries.

(** A pairing that succeeds against an undiscovered host: the calls it
    makes and what it stores. *)
Example pairing_stores_bundle :
  pairWithBridge (pressed_then [(200, signing_result "200 OK")]) fresh_instance
  = MkRun (Resolved ())
      {| config := unresolved_config;
         secrets := {| bridgeCerts := Some {| ca := Some "root certificate";
                                              certificate := Some "client certificate";
                                              privateKey := "PEM private key" |} |};
         discoveredBridges := ∅; bridge := None; devicesOnBridge := [] |}
      [EvLog "debug" "Pairing client connecting";
       EvPairingConnect "10.0.0.5" 8083;
       EvLog "info" "Waiting for button press on bridge...";
       EvLog "debug" "got message {200 OK}";
       EvLog "debug" "Physical access confirmed";
       EvLog "debug" "Generating keys for CSR";
       EvGenerateKeyPair 2048;
       EvLog "debug" "Sending CSR to bridge for signing";
       EvRequestPair "CSR public key companion-module-lutron-caseta";
       EvLog "debug" "using bridge id: unknown-bridge-id";
       EvLog "debug" "Storing bridge certificates"].
Proof. reflexivity. Qed.

(** The first connection after that pairing: the control unit resolves the
    identity, the lamp is listed. *)
Example first_connection_resolves :
  let r := init unresolved_config true paired_secrets hub_and_lamp fresh_instance in
  bridgeID (config (final r)) = Some "0455a1b2"
  ∧ devicesOnBridge (final r) = [lamp]
  ∧ bridge (final r) = Some UNKNOWN_BRIDGE_ID
  ∧ last (events r) = Some EvUpdateVariableDefinitions.
Proof. by vm_compute. Qed.

(** A key-generation failure is thrown through [configUpdated]: nothing is
    saved and [init] is not reached. *)
Example key_generation_failure_is_thrown :
  let env :=
    {| pairing := {| pairing_connect := Resolved ();
                     button_messages := [(2000, status_message ["PhysicalAccess"])];
                     generateKeyPair := inl "no entropy";
                     csr_messages := [] |};
       session := one_lamp |} in
  let r := configUpdated moved_config paired_secrets env
             (set_config paired_config (set_secrets paired_secrets fresh_instance)) in
  completion r = Rejected "no entropy"
  ∧ last (events r) = Some (EvLog "error" "key generation error: no entropy").
Proof. by vm_compute. Qed.

(** A status message taken for the signing response is thrown through
    [configUpdated] as well: the bridge ID of the instance is overwritten,
    the bundle is the old one, nothing is saved and [init] is not
    reached. *)
Example unsigned_answer_is_thrown :
  let env := {| pairing := pressed_then [(1000, status_message ["PhysicalAccess"])];
                session := one_lamp |} in
  let r := configUpdated moved_config paired_secrets env
             (set_config paired_config (set_secrets paired_secrets fresh_instance)) in
  completion r
  = Rejected "Cannot read properties of undefined (reading 'RootCertificate')"
  ∧ bridgeID (config (final r)) = Some UNKNOWN_BRIDGE_ID
  ∧ secrets (final r) = paired_secrets
  ∧ saves (events r) = []
  ∧ last (events r) = Some (EvLog "debug" "Storing bridge certificates").
Proof. by vm_compute. Qed.

Lemma pressed_then_pressed answers :
  button_pressed (pressed_then answers) (status_message ["PhysicalAccess"]).
Proof. split; [reflexivity|apply list_elem_of_here]. Defined.

Lemma pressed_then_signed :
  pairing_success (pressed_then [(200, signing_result "200 OK")]) sample_keys
                  (signing_result "200 OK").
Proof.
  split; [reflexivity|]. split; [eexists; apply pressed_then_pressed|].
  repeat split; reflexivity.
Defined.

Lemma registry_last_event_wins_witness :
  let first := {| ipAddr := "10.0.0.5"; bridgeid := "0455a1b2"; systype := "SmartBridge" |} in
  let second := {| ipAddr := "10.0.0.9"; bridgeid := "07c3d4e5"; systype := "SmartBridge" |} in
  [first; second] ≡ₚ [second; first]
  ∧ (∀ address, about address [first; second] = about address [second; first])
  ∧ registry_after [first; second] fresh_instance
    = registry_after [second; first] fresh_instance
  ∧ registry_after [first; second] fresh_instance !! "10.0.0.9" = Some "07c3d4e5".
Proof.
  intros first second.
  assert (∀ address, about address [first; second] = about address [second; first])
    as Horder.
  { intros address. unfold about. rewrite !filter_cons, !filter_nil. simpl.
    repeat case_decide; try reflexivity. subst address. discriminate. }
  split; [apply perm_swap|]. split; [exact Horder|]. split.
  - exact (proj2 (registry_last_event_wins [first; second] [second; first] fresh_instance)
                 (perm_swap _ _ _) Horder).
  - exact (proj1 (registry_last_event_wins [first; second] [second; first] fresh_instance)
                 "10.0.0.9").
Defined.

Lemma identity_assigned_at_pairing_witness :
  let found :=
    final (discovered {| ipAddr := "10.0.0.5"; bridgeid := "0455a1b2";
                         systype := "SmartBridge" |} fresh_instance) in
  let env := pressed_then [(200, signing_result "200 OK")] in
  pairing_success env sample_keys (signing_result "200 OK")
  ∧ bridgeID (config (final (pairWithBridge env found))) = Some "0455a1b2"
  ∧ bridgeID (config (final (pairWithBridge env fresh_instance)))
    = Some UNKNOWN_BRIDGE_ID.
Proof.
  intros found env. split; [exact pressed_then_signed|]. split.
  - exact (identity_assigned_at_pairing env found _ _ pressed_then_signed).
  - exact (identity_assigned_at_pairing env fresh_instance _ _ pressed_then_signed).
Defined.

Lemma pressed_too_late_is_late :
  ∀ t m, (t, m) ∈ button_messages pressed_too_late →
         "PhysicalAccess" ∈ Permissions m → 30000 ≤ t.
Proof.
  intros t m Hin _. simpl in Hin. apply list_elem_of_singleton in Hin.
  injection Hin as -> _. lia.
Defined.

Lemma confirmation_timeout_fails_witness :
  pairing_connect pressed_too_late = Resolved ()
  ∧ (∀ t m, (t, m) ∈ button_messages pressed_too_late →
            "PhysicalAccess" ∈ Permissions m → 30000 ≤ t)
  ∧ last (events (pairWithBridge pressed_too_late fresh_instance))
    = Some (EvUpdateStatus ConnectionFailure (Some "Pairing timed out: timed out"))
  ∧ final (pairWithBridge pressed_too_late fresh_instance) = fresh_instance.
Proof.
  split; [reflexivity|]. split; [exact pressed_too_late_is_late|].
  pose proof (confirmation_timeout_fails pressed_too_late fresh_instance eq_refl
                pressed_too_late_is_late) as (_ & Hlast & _ & _ & Hsame).
  split; [exact Hlast|exact Hsame].
Defined.

Lemma status_message_is_taken_for_the_csr_response_witness :
  let env := pressed_then [(1000, status_message ["PhysicalAccess"])] in
  let r := pairWithBridge env fresh_instance in
  pairing_connect env = Resolved ()
  ∧ button_pressed env (status_message ["PhysicalAccess"])
  ∧ generateKeyPair env = inr sample_keys
  ∧ (∀ t m, (t, m) ∈ csr_messages env → is_Some (Body_SigningResult m) → 5000 ≤ t)
  ∧ csr_messages env = [(1000, status_message ["PhysicalAccess"])]
  ∧ 1000 < 5000
  ∧ completion r
    = Rejected "Cannot read properties of undefined (reading 'RootCertificate')"
  ∧ status_updates (events r) = []
  ∧ (EvUpdateStatus ConnectionFailure (Some "CSR failed: CSR response timed out")
     ∉ events r)
  ∧ bridgeID (config (final r)) = Some UNKNOWN_BRIDGE_ID.
Proof.
  intros env r.
  assert (∀ t m, (t, m) ∈ csr_messages env → is_Some (Body_SigningResult m) → 5000 ≤ t)
    as Hnone.
  { intros t m Hin. simpl in Hin. apply list_elem_of_singleton in Hin.
    injection Hin as -> ->. by intros [? ?]. }
  destruct (status_message_is_taken_for_the_csr_response env fresh_instance _ sample_keys
              1000 (status_message ["PhysicalAccess"]) []
              eq_refl (pressed_then_pressed _) eq_refl eq_refl eq_refl eq_refl eq_refl)
    as (Hrejected & Hstatus & Hnotimeout & _ & Hid & _).
  split; [reflexivity|]. split; [exact (pressed_then_pressed _)|].
  split; [reflexivity|]. split; [exact Hnone|]. split; [reflexivity|].
  split; [reflexivity|]. split; [exact Hrejected|]. split; [exact Hstatus|].
  split; [exact Hnotimeout|exact Hid].
Defined.

Lemma pressed_then_rootless :
  pairing_success (pressed_then [(200, rootless_result)]) sample_keys rootless_result.
Proof.
  split; [reflexivity|]. split; [eexists; apply pressed_then_pressed|].
  repeat split; reflexivity.
Defined.

Lemma partial_bundle_is_persisted_witness :
  let env := {| pairing := pressed_then [(200, rootless_result)];
                session := one_lamp |} in
  let started := set_config paired_config (set_secrets paired_secrets fresh_instance) in
  let r := configUpdated moved_config paired_secrets env started in
  let stored :=
    {| bridgeCerts := Some {| ca := None; certificate := Some "client certificate";
                              privateKey := "PEM private key" |} |} in
  host moved_config ≠ host (config started)
  ∧ pairing_success (pairing env) sample_keys rootless_result
  ∧ Body_SigningResult rootless_result = Some rootless
  ∧ RootCertificate rootless = None
  ∧ all_or_nothing paired_secrets
  ∧ ¬ all_or_nothing stored
  ∧ (∃ c, EvSaveConfig c stored ∈ events r)
  ∧ secrets (final r) = stored.
Proof.
  intros env started r stored.
  assert (host moved_config ≠ host (config started)) as Hmoved by discriminate.
  destruct (partial_bundle_is_persisted moved_config paired_secrets env started
              sample_keys rootless_result rootless Hmoved pressed_then_rootless
              eq_refl (or_introl eq_refl))
    as (Hpartial & _ & _ & Hsaved & _ & Hend).
  split; [exact Hmoved|]. split; [exact pressed_then_rootless|].
  split; [reflexivity|]. split; [reflexivity|].
  split; [split; by eexists|]. split; [exact Hpartial|].
  split; [exact Hsaved|exact Hend].
Defined.

Lemma repairing_precedes_reconnection_witness :
  let env := {| pairing := pressed_too_late; session := one_lamp |} in
  let started := set_config paired_config (set_secrets paired_secrets fresh_instance) in
  let attempt :=
    pairWithBridge pressed_too_late
      (set_secrets paired_secrets (set_config moved_config started)) in
  host moved_config ≠ host (config started)
  ∧ ∃ pre post,
      events (configUpdated moved_config paired_secrets env started)
        = pre ++ events attempt ++ post
      ∧ EvPairingConnect "10.0.0.9" PAIRING_PORT ∈ events attempt
      ∧ ∀ e, e ∈ pre ++ events attempt → ¬ opens_session e.
Proof.
  intros env started attempt.
  assert (host moved_config ≠ host (config started)) as Hmoved by discriminate.
  split; [exact Hmoved|].
  exact (repairing_precedes_reconnection moved_config paired_secrets env started Hmoved).
Defined.

Lemma pressed_too_late_fails : pairing_failure pressed_too_late.
Proof.
  apply confirmation_timeout; [reflexivity|].
  intros response [Hfirst _]. discriminate Hfirst.
Defined.

Lemma failed_pairing_keeps_old_bundle_witness :
  let env := {| pairing := pressed_too_late; session := one_lamp |} in
  let started := set_config paired_config (set_secrets paired_secrets fresh_instance) in
  let r := configUpdated moved_config paired_secrets env started in
  pairing_failure (pairing env)
  ∧ host moved_config ≠ host (config started)
  ∧ bridgeCerts paired_secrets = Some sample_certs
  ∧ completion (pairWithBridge (pairing env)
                  (set_secrets paired_secrets (set_config moved_config started)))
    = Resolved ()
  ∧ truthy (bridgeID moved_config) = true
  ∧ bridgeCerts (secrets (final r)) = Some sample_certs
  ∧ EvLeapConnect "10.0.0.9" LEAP_PORT (Some "old root") "old key" (Some "old certificate")
    ∈ events r.
Proof.
  intros env started r.
  assert (host moved_config ≠ host (config started)) as Hmoved by discriminate.
  destruct (proj2 (failed_pairing_keeps_old_bundle moved_config paired_secrets env started
                     sample_certs pressed_too_late_fails) Hmoved eq_refl)
    as (Hkept & _ & _ & Hoffered).
  split; [exact pressed_too_late_fails|]. split; [exact Hmoved|].
  split; [reflexivity|]. split; [reflexivity|]. split; [reflexivity|].
  split; [exact Hkept|]. exact (Hoffered eq_refl eq_refl).
Defined.


Lemma later_confirmation_is_not_heard_witness :
  let r := pairWithBridge irrelevant_then_pressed fresh_instance in
  pairing_connect irrelevant_then_pressed = Resolved ()
  ∧ button_messages irrelevant_then_pressed
    = [(1000, status_message ["Public"]);
       (2000, status_message ["Public"; "PhysicalAccess"])]
  ∧ 1000 < 30000
  ∧ 2000 < 30000
  ∧ "PhysicalAccess" ∈ Permissions (status_message ["Public"; "PhysicalAccess"])
  ∧ ("PhysicalAccess" ∉ Permissions (status_message ["Public"]))
  ∧ last (events r)
    = Some (EvUpdateStatus ConnectionFailure (Some "Pairing timed out: timed out"))
  ∧ (∀ bits, EvGenerateKeyPair bits ∉ events r).
Proof.
  intros r.
  assert ("PhysicalAccess" ∉ Permissions (status_message ["Public"])) as Hirrelevant.
  { simpl. intros Hin. apply list_elem_of_singleton in Hin. discriminate Hin. }
  destruct (later_confirmation_is_not_heard irrelevant_then_pressed fresh_instance
              1000 (status_message ["Public"])
              [(2000, status_message ["Public"; "PhysicalAccess"])]
              eq_refl eq_refl eq_refl Hirrelevant)
    as (_ & Hlast & Hnokeys & _).
  split; [reflexivity|]. split; [reflexivity|]. split; [reflexivity|].
  split; [reflexivity|]. split; [simpl; apply list_elem_of_further, list_elem_of_here|].
  split; [exact Hirrelevant|]. split; [exact Hlast|exact Hnokeys].
Defined.

End Samples.

(** * Further properties of the methods *)

Section ConnectionGuards.
Context `{Libraries}.
Local Arguments String.append : simpl never.

Lemma status_updates_app evs evs' :
  status_updates (evs ++ evs') = status_updates evs ++ status_updates evs'.
Proof. unfold status_updates. apply omap_app. Qed.

Lemma status_updates_logs evs : Forall is_log evs → status_updates evs = [].
Proof.
  induction 1 as [|e evs He _ IH]; [done|].
  by destruct e.
Qed.

Lemma with_area_listed d items :
  d ∈ with_area items ↔ inr d ∈ items ∧ is_Some (AssociatedArea d).
Proof.
  split.
  - intros Hin. split; [by apply with_area_reported|by eapply with_area_has_area].
  - intros [Hin [area Harea]]. induction items as [|[m|d'] items IH]; simpl.
    + by apply elem_of_nil in Hin.
    + apply elem_of_cons in Hin as [?|Hin]; [done|auto].
    + apply elem_of_cons in Hin as [[= <-]|Hin].
      * rewrite Harea. left.
      * destruct (AssociatedArea d'); [right|]; auto.
Qed.

Lemma device_log_errors message items :
  inl message ∈ items →
  EvLog "error" ("Error retrieving device: " +:+ message) ∈ device_log items.
Proof.
  induction items as [|[m|d] items IH]; simpl.
  - by intros ?%elem_of_nil.
  - intros [[= <-]|Hin]%elem_of_cons; [left|right; auto].
  - intros [?|Hin]%elem_of_cons; [done|].
    destruct (AssociatedArea d); [right|]; auto.
Qed.

Lemma configured_inv this :
  configured this →
  ∃ id certs, bridgeID (config this) = Some id ∧ id ≠ ""
              ∧ bridgeCerts (secrets this) = Some certs.
Proof.
  intros [Hid [certs Hcerts]]. destruct (truthy_Some _ Hid) as (id & ? & ?).
  by exists id, certs.
Qed.

Lemma connectToBridge_unconfigured env this :
  ¬ configured this →
  connectToBridge env this =
    MkRun (Resolved ()) this
      [EvLog "warn" "No bridge ID or certificates found in config/secrets";
       EvUpdateStatus BadConfig (Some "No valid configuration or pairing found")].
Proof.
  intros Hno. unfold configured in Hno. run_connect.
  destruct (bridgeID (config this)) as [id|]; [|reflexivity].
  destruct (bridgeCerts (secrets this)) as [certs|]; [|reflexivity].
  simpl in *. destruct (String.eqb id ""); [reflexivity|].
  destruct Hno. split; [done|by eexists].
Qed.

(** X1: [connectToBridge] reaches the session endpoint exactly when a
    bridge ID (defined and not empty) and a bundle are stored.  Without
    them it warns, reports the bad configuration and returns, having made
    no call on the session endpoint and changed nothing; with them it offers
    the stored bundle to the configured host on the session port. *)
Theorem session_needs_configuration env this :
  let r := connectToBridge env this in
  (¬ configured this →
   completion r = Resolved ()
   ∧ final r = this
   ∧ status_updates (events r)
     = [(BadConfig, Some "No valid configuration or pairing found")]
   ∧ ∀ e, e ∈ events r → ¬ reaches_session e)
  ∧ (configured this →
     ∃ certs, bridgeCerts (secrets this) = Some certs
              ∧ EvLeapConnect (host (config this)) LEAP_PORT
                  (ca certs) (privateKey certs) (certificate certs) ∈ events r).
Proof.
  intros r. subst r. split.
  - intros Hno. rewrite (connectToBridge_unconfigured _ _ Hno). simpl.
    repeat split. intros e Hin.
    repeat (apply elem_of_cons in Hin as [->|Hin]; [simpl; tauto|]).
    by apply elem_of_nil in Hin.
  - intros (id & certs & Hid & Hne & Hcerts)%configured_inv.
    exists certs. split; [done|]. by eapply connectToBridge_offers.
Qed.

(** X2: when the session endpoint refuses the connection, [init] reports
    the failure with the message of the error and carries on: nothing is
    enumerated, no bridge object is created, the device list is untouched,
    nothing is saved, and the actions, feedbacks and variables are still
    exported; the last status is the connection failure. *)
Theorem refused_session_does_not_abort_init config_ first secrets_ env this id certs message :
  bridgeID config_ = Some id → id ≠ "" →
  bridgeCerts secrets_ = Some certs →
  leap_connect env = Rejected message →
  let r := init config_ first secrets_ env this in
  completion r = Resolved ()
  ∧ final r = set_secrets secrets_ (set_config config_ this)
  ∧ status_updates (events r)
    = [(Connecting, Some "Initializing");
       (Connecting, Some "Connecting to Bridge");
       (ConnectionFailure, Some ("Bridge connection failed: " +:+ message))]
  ∧ (EvGetDeviceInfo ∉ events r)
  ∧ (∀ c s, EvSaveConfig c s ∉ events r)
  ∧ ∃ before, events r = before ++ init_closing.
Proof.
  intros Hid Hne Hcerts Hrefused r. subst r.
  rewrite init_run. cbn zeta. rewrite Hcerts.
  run_connect. cbn [config secrets set_secrets set_config].
  rewrite Hid, Hcerts, Hrefused. simpl.
  destruct (String.eqb_spec id ""); [done|].
  unfold init_opening, init_closing. cbn.
  split; [done|]. split; [done|]. split; [done|].
  split; [intros Hin; absent|]. split; [intros c s Hin; absent|].
  eexists [_; _; _; _; _; _; _; _]. reflexivity.
Qed.

(** X3: with a resolved bridge ID (neither empty nor the sentinel), a
    connection that succeeds ends with status Ok; the device list is then
    the list as it was, followed by the devices of the enumeration that
    have an area, in the order of the enumeration and as often as they
    occur in it: items that are errors are logged one by one and left out,
    devices without an area are left out, and nothing the list held is
    removed; the configuration is not changed and nothing is saved. *)
Theorem enumeration_lists_devices_with_area env this id certs items :
  bridgeID (config this) = Some id → id ≠ "" → id ≠ UNKNOWN_BRIDGE_ID →
  bridgeCerts (secrets this) = Some certs →
  connection_succeeds env items →
  let r := connectToBridge env this in
  completion r = Resolved ()
  ∧ last (events r) = Some (EvUpdateStatus Ok None)
  ∧ devicesOnBridge (final r) = devicesOnBridge this ++ with_area items
  ∧ (∀ d, d ∈ with_area items ↔ inr d ∈ items ∧ is_Some (AssociatedArea d))
  ∧ (∀ message, inl message ∈ items →
       EvLog "error" ("Error retrieving device: " +:+ message) ∈ events r)
  ∧ config (final r) = config this
  ∧ bridge (final r) = Some id
  ∧ (∀ c s, EvSaveConfig c s ∉ events r).
Proof.
  intros Hid Hne Hknown Hcerts Hok r. subst r.
  rewrite (connectToBridge_connected _ _ _ _ _ Hid Hne Hcerts Hok).
  rewrite load_devices_plain.
  2:{ intros d _. simpl. rewrite Hid. intros [= ?]. done. }
  cbn [completion final events]. split; [done|]. split; [apply last_two_more|].
  split; [done|]. split; [intros d; apply with_area_listed|].
  split; [|split; [done|split; [done|]]].
  - intros message Hin. rewrite !elem_of_app. right. left.
    by apply device_log_errors.
  - intros c s Hin.
    destruct (among_logs _ _ _ _ (device_log_logs items) Hin) as [?|[[]|?]]; absent.
Qed.

(** X4: when the enumeration is rejected after the session was opened,
    the rejection goes through [connectToBridge] and [init]: no status
    follows the one of the connection attempt (Ok is not reported), the
    device list is untouched, and the actions, feedbacks and variables are
    not exported. *)
Theorem rejected_enumeration_aborts_init config_ first secrets_ env this id certs message :
  bridgeID config_ = Some id → id ≠ "" →
  bridgeCerts secrets_ = Some certs →
  leap_connect env = Resolved () →
  getDeviceInfo env = Rejected message →
  let r := init config_ first secrets_ env this in
  completion r = Rejected message
  ∧ last (events r) = Some EvGetDeviceInfo
  ∧ status_updates (events r)
    = [(Connecting, Some "Initializing"); (Connecting, Some "Connecting to Bridge")]
  ∧ bridge (final r) = Some id
  ∧ devicesOnBridge (final r) = devicesOnBridge this
  ∧ (EvUpdateActions ∉ events r)
  ∧ (EvUpdateFeedbacks ∉ events r)
  ∧ (EvUpdateVariableDefinitions ∉ events r).
Proof.
  intros Hid Hne Hcerts Hopen Hrejected r. subst r.
  rewrite init_run. cbn zeta. rewrite Hcerts.
  run_connect. cbn [config secrets set_secrets set_config].
  rewrite Hid, Hcerts, Hopen, Hrejected. simpl.
  destruct (String.eqb_spec id ""); [done|].
  unfold init_opening. cbn.
  split; [done|]. split; [done|]. split; [done|]. split; [done|]. split; [done|].
  repeat split; intros Hin; absent.
Qed.

End ConnectionGuards.

Section Lifecycle.
Context `{Libraries}.
Local Arguments String.append : simpl never.

Lemma uses_only_no_pairing address s evs e :
  Forall (uses_only address s) evs → e ∈ evs → ¬ starts_pairing e.
Proof.
  intros Hall Hin. rewrite Forall_forall in Hall. specialize (Hall _ Hin).
  destruct e; simpl in *; tauto.
Qed.

(** X5: [init] never starts a pairing attempt, whatever the configuration
    and the secrets; without a stored bundle it only sets the two records,
    starts discovery and exports actions, feedbacks and variables: it makes
    no call on the session endpoint and the status stays at Connecting,
    'Initializing'. *)
Theorem init_starts_no_pairing config_ first secrets_ env this :
  let r := init config_ first secrets_ env this in
  (∀ e, e ∈ events r → ¬ starts_pairing e)
  ∧ (bridgeCerts secrets_ = None →
     completion r = Resolved ()
     ∧ final r = set_secrets secrets_ (set_config config_ this)
     ∧ events r = init_opening ++ init_closing
     ∧ status_updates (events r) = [(Connecting, Some "Initializing")]
     ∧ ∀ e, e ∈ events r → ¬ reaches_session e).
Proof.
  intros r. subst r. split.
  - intros e. eapply uses_only_no_pairing. apply init_uses_only.
  - intros Hnone. rewrite init_run. cbn zeta. rewrite Hnone.
    cbn [completion final events]. repeat split. intros e Hin.
    unfold init_opening, init_closing in Hin. simpl in Hin.
    repeat (apply elem_of_cons in Hin as [->|Hin]; [simpl; tauto|]).
    by apply elem_of_nil in Hin.
Qed.

(** X6: a configuration update that keeps the host starts no pairing
    attempt: it saves the configuration and the secrets exactly as they
    were given, then re-initialises with them, and ends as that
    initialisation ends. *)
Theorem unchanged_host_skips_pairing config_ secrets_ env this :
  host config_ = host (config this) →
  let r := configUpdated config_ secrets_ env this in
  let reinit := init config_ false secrets_ (session env)
                     (set_secrets secrets_ (set_config config_ this)) in
  (∀ e, e ∈ events r → ¬ starts_pairing e)
  ∧ events r = [EvLog "debug" "host unchanged";
                EvSaveConfig config_ secrets_;
                EvLog "debug" "re-initializing module"] ++ events reinit
  ∧ completion r = completion reinit
  ∧ final r = final reinit.
Proof.
  intros Hsame r reinit. subst r.
  rewrite (configUpdated_host_unchanged _ _ _ _ Hsame). fold reinit.
  assert (∀ e, e ∈ events reinit → ¬ starts_pairing e) as Hreinit.
  { intros e. eapply uses_only_no_pairing. apply init_uses_only. }
  destruct reinit as [c this2 evs']. cbn [completion final events] in *.
  split; [|done]. intros e Hin.
  repeat (apply elem_of_cons in Hin as [->|Hin]; [simpl; tauto|]). auto.
Qed.

Lemma connectToBridge_opening env this id certs :
  bridgeID (config this) = Some id → id ≠ "" →
  bridgeCerts (secrets this) = Some certs →
  ∃ rest,
    events (connectToBridge env this)
    = [EvLog "debug" ("Connecting to bridge with id: " +:+ id);
       EvUpdateStatus Connecting (Some "Connecting to Bridge");
       EvLeapConnect (host (config this)) LEAP_PORT
         (ca certs) (privateKey certs) (certificate certs)] ++ rest.
Proof.
  intros Hid Hne Hcerts. run_connect. rewrite Hid, Hcerts. simpl.
  destruct (String.eqb_spec id ""); [done|]. simpl.
  destruct (leap_connect env) as [[]|e]; cbn; [|by eexists].
  destruct (getDeviceInfo env) as [items|e]; cbn; [|by eexists].
  destruct (forEach load_device items (set_bridge (Some id) this)) as [[[]|e] this' evs];
    cbn; by eexists.
Qed.

(** X7: a configuration update with a new host whose pairing attempt is
    answered in time with status ['200 OK'] and a signing result saves the
    new configuration (with the bridge ID the registry gives for the new
    host, or the sentinel) together with the bundle built from that signing
    result, and afterwards offers that bundle to the new host on the
    session port, provided the bridge ID is not the empty string; no call
    reaches the session endpoint before the save. *)
Theorem repairing_connects_with_new_bundle
    config_ secrets_ env this keys certResult signingResult :
  host config_ ≠ host (config this) →
  pairing_success (pairing env) keys certResult →
  Body_SigningResult certResult = Some signingResult →
  let id := default UNKNOWN_BRIDGE_ID (discoveredBridges this !! host config_) in
  let paired := {| host := host config_; port := port config_; bridgeID := Some id |} in
  let stored := {| bridgeCerts := Some (bundle_of keys signingResult) |} in
  id ≠ "" →
  ∃ before between after,
    events (configUpdated config_ secrets_ env this)
    = before ++ EvSaveConfig paired stored
        :: between
        ++ EvLeapConnect (host config_) LEAP_PORT (RootCertificate signingResult)
             (privateKeyToPem (keyPrivateKey keys)) (Certificate signingResult)
        :: after
    ∧ (∀ e, e ∈ before ++ between → ¬ reaches_session e).
Proof.
  intros Hchanged (Hc & [response Hp] & Hk & Hcsr & Hcode) Hsigned id paired stored Hne.
  set (this0 := set_secrets secrets_ (set_config config_ this)).
  set (attempt :=
         confirmed_log this0 response
         ++ [EvLog "debug" "Sending CSR to bridge for signing";
             EvRequestPair (csr_of keys);
             EvLog "debug" ("using bridge id: " +:+ id);
             EvLog "debug" "Storing bridge certificates"]).
  rewrite (configUpdated_host_changed _ _ _ _ Hchanged).
  rewrite (pairWithBridge_paired _ _ _ _ _ _ Hc Hp Hk Hcsr Hcode Hsigned).
  change (resolved_at_pairing (set_secrets secrets_ (set_config config_ this))) with id.
  fold this0. fold attempt.
  set (this1 := set_bridgeCerts (Some (bundle_of keys signingResult))
                  (set_bridgeID (Some id) this0)).
  change (config this1) with paired. change (secrets this1) with stored.
  rewrite init_run. cbn zeta. cbn [bridgeCerts stored].
  set (this2 := set_secrets stored (set_config paired this1)).
  destruct (connectToBridge_opening (session env) this2 id (bundle_of keys signingResult)
              eq_refl Hne eq_refl) as (rest & Hopening).
  assert (∀ e, e ∈ (repairing_opening ++ attempt)
                   ++ ([EvLog "debug" "re-initializing module"] ++ init_opening
                       ++ [EvLog "debug" ("Connecting to bridge with id: " +:+ id);
                           EvUpdateStatus Connecting (Some "Connecting to Bridge")])
               → ¬ reaches_session e) as Hquiet.
  { intros e Hin. unfold repairing_opening, attempt, confirmed_log, init_opening in Hin.
    cbn [app] in Hin.
    repeat (apply elem_of_cons in Hin as [->|Hin]; [simpl; tauto|]).
    by apply elem_of_nil in Hin. }
  destruct (connectToBridge (session env) this2) as [[[]|err] this3 evs];
    cbn [events] in Hopening; subst evs.
  - exists (repairing_opening ++ attempt),
           ([EvLog "debug" "re-initializing module"] ++ init_opening
            ++ [EvLog "debug" ("Connecting to bridge with id: " +:+ id);
                EvUpdateStatus Connecting (Some "Connecting to Bridge")]),
           (rest ++ init_closing).
    split; [|exact Hquiet].
    cbn [events]. rewrite <- !app_assoc. cbn [app]. reflexivity.
  - exists (repairing_opening ++ attempt),
           ([EvLog "debug" "re-initializing module"] ++ init_opening
            ++ [EvLog "debug" ("Connecting to bridge with id: " +:+ id);
                EvUpdateStatus Connecting (Some "Connecting to Bridge")]),
           rest.
    split; [|exact Hquiet].
    cbn [events]. rewrite <- !app_assoc. cbn [app]. reflexivity.
Qed.

End Lifecycle.

Section PairingSteps.
Context `{Libraries}.
Local Arguments String.append : simpl never.

(** The run of a pairing attempt, by the exit it takes; on the last one
    the attempt stores the bundle or is rejected by the read of the missing
    signing result. *)
Lemma pairWithBridge_runs env this :
  (∃ e, pairing_connect env = Rejected e
        ∧ pairWithBridge env this
          = MkRun (Resolved ()) this
              [EvLog "debug" "Pairing client connecting";
               EvPairingConnect (host (config this)) PAIRING_PORT;
               EvUpdateStatus ConnectionFailure
                 (Some ("Failed to initialize pairing: " +:+ e));
               EvLog "error" ("Failed to initialize pairing: " +:+ e)])
  ∨ (pairing_connect env = Resolved ()
     ∧ (∀ response, ¬ button_pressed env response)
     ∧ ∃ unexpected,
         Forall is_log unexpected
         ∧ pairWithBridge env this
           = MkRun (Resolved ()) this
               ([EvLog "debug" "Pairing client connecting";
                 EvPairingConnect (host (config this)) PAIRING_PORT;
                 EvLog "info" "Waiting for button press on bridge..."]
                ++ unexpected ++
                [EvLog "error" "waiting for button push failed. Error: timed out";
                 EvUpdateStatus ConnectionFailure (Some "Pairing timed out: timed out")]))
  ∨ (∃ response,
       pairing_connect env = Resolved () ∧ button_pressed env response
       ∧ ((∃ e, generateKeyPair env = inl e
                ∧ pairWithBridge env this
                  = MkRun (Rejected e) this
                      (confirmed_log this response
                       ++ [EvLog "error" ("key generation error: " +:+ e)]))
          ∨ ∃ keys,
              generateKeyPair env = inr keys
              ∧ ((once_before 5000 (csr_messages env) = None
                  ∧ pairWithBridge env this
                    = MkRun (Resolved ()) this
                        (confirmed_log this response
                         ++ [EvLog "debug" "Sending CSR to bridge for signing";
                             EvRequestPair (csr_of keys);
                             EvLog "error" "CSR failed: CSR response timed out";
                             EvUpdateStatus ConnectionFailure
                               (Some "CSR failed: CSR response timed out")]))
                 ∨ ∃ certResult,
                     once_before 5000 (csr_messages env) = Some certResult
                     ∧ ((StatusCode certResult ≠ "200 OK"
                         ∧ pairWithBridge env this
                           = MkRun (Resolved ()) this
                               (confirmed_log this response
                                ++ [EvLog "debug" "Sending CSR to bridge for signing";
                                    EvRequestPair (csr_of keys);
                                    EvLog "error"
                                      ("CSR failed: "
                                       +:+ ("bad CSR response: "
                                            +:+ JSON_stringify certResult));
                                    EvUpdateStatus ConnectionFailure
                                      (Some ("CSR failed: "
                                             +:+ ("bad CSR response: "
                                                  +:+ JSON_stringify certResult)))]))
                        ∨ (StatusCode certResult = "200 OK"
                           ∧ pairWithBridge env this
                             = MkRun
                                 (match Body_SigningResult certResult with
                                  | Some _ => Resolved ()
                                  | None =>
                                      Rejected (cannot_read_property "RootCertificate")
                                  end)
                                 (match Body_SigningResult certResult with
                                  | Some signingResult =>
                                      set_bridgeCerts
                                        (Some (bundle_of keys signingResult))
                                        (set_bridgeID
                                           (Some (resolved_at_pairing this)) this)
                                  | None =>
                                      set_bridgeID (Some (resolved_at_pairing this)) this
                                  end)
                                 (confirmed_log this response
                                  ++ [EvLog "debug" "Sending CSR to bridge for signing";
                                      EvRequestPair (csr_of keys);
                                      EvLog "debug"
                                        ("using bridge id: " +:+ resolved_at_pairing this);
                                      EvLog "debug" "Storing bridge certificates"])))))).
Proof.
  destruct (pairing_outcomes env)
    as [[e Hc|Hc Hno|r e Hc Hp Hk|r k Hc Hp Hk Ht|r k c Hc Hp Hk Hcsr Hcode]
       |(k & c & Hc & [r Hp] & Hk & Hcsr & Hcode)].
  - left. exists e. split; [done|]. by apply pairWithBridge_connect_rejected.
  - right. left. split; [done|]. split; [done|]. by apply pairWithBridge_not_confirmed.
  - right. right. exists r. split; [done|]. split; [done|]. left. exists e.
    split; [done|]. by apply pairWithBridge_keygen_failed.
  - right. right. exists r. split; [done|]. split; [done|]. right. exists k.
    split; [done|]. left. split; [done|]. by apply pairWithBridge_csr_timeout.
  - right. right. exists r. split; [done|]. split; [done|]. right. exists k.
    split; [done|]. right. exists c. split; [done|]. left. split; [done|].
    by apply pairWithBridge_csr_rejected.
  - right. right. exists r. split; [done|]. split; [done|]. right. exists k.
    split; [done|]. right. exists c. split; [done|]. right. split; [done|].
    by apply pairWithBridge_answered.
Qed.

(** X8: in every pairing attempt a key pair is requested only after the
    pairing client connected and the button press was confirmed, and
    always with 2048 bits; a signing request is sent only when the key
    generation gave a key pair, and it is the request built from that key
    pair for the common name 'companion-module-lutron-caseta'. *)
Theorem keys_follow_confirmation env this :
  let r := pairWithBridge env this in
  (∀ bits, EvGenerateKeyPair bits ∈ events r →
     bits = 2048 ∧ pairing_connect env = Resolved ()
     ∧ ∃ response, button_pressed env response)
  ∧ (∀ csrText, EvRequestPair csrText ∈ events r →
       ∃ keys, generateKeyPair env = inr keys
               ∧ csrText = certificationRequestToPem (publicKey keys)
                             "companion-module-lutron-caseta" (keyPrivateKey keys)).
Proof.
  intros r. subst r.
  destruct (pairWithBridge_runs env this)
    as [(e & Hc & ->)|[(Hc & Hno & u & Hu & ->)
       |(r & Hc & Hp & [(e & Hk & ->)|(k & Hk & [(Ht & ->)
          |(c & Hcsr & [(Hcode & ->)|(Hcode & ->)])])])]];
    unfold confirmed_log; cbn [events app].
  - split; [intros bits Hin|intros csrText Hin]; absent.
  - split; [intros bits Hin|intros csrText Hin];
      destruct (among_logs _ [_; _; _] _ _ Hu Hin) as [?|[[]|?]]; absent.
  - split; [intros bits Hin|intros csrText Hin].
    + do 6 (apply elem_of_cons in Hin as [?|Hin]; [done|]).
      apply elem_of_cons in Hin as [[= ->]|Hin]; [eauto|absent].
    + absent.
  - split; [intros bits Hin|intros csrText Hin].
    + do 6 (apply elem_of_cons in Hin as [?|Hin]; [done|]).
      apply elem_of_cons in Hin as [[= ->]|Hin]; [eauto|absent].
    + do 8 (apply elem_of_cons in Hin as [?|Hin]; [done|]).
      apply elem_of_cons in Hin as [[= ->]|Hin]; [by exists k|absent].
  - split; [intros bits Hin|intros csrText Hin].
    + do 6 (apply elem_of_cons in Hin as [?|Hin]; [done|]).
      apply elem_of_cons in Hin as [[= ->]|Hin]; [eauto|absent].
    + do 8 (apply elem_of_cons in Hin as [?|Hin]; [done|]).
      apply elem_of_cons in Hin as [[= ->]|Hin]; [by exists k|absent].
  - split; [intros bits Hin|intros csrText Hin].
    + do 6 (apply elem_of_cons in Hin as [?|Hin]; [done|]).
      apply elem_of_cons in Hin as [[= ->]|Hin]; [eauto|absent].
    + do 8 (apply elem_of_cons in Hin as [?|Hin]; [done|]).
      apply elem_of_cons in Hin as [[= ->]|Hin]; [by exists k|absent].
Qed.

(** X9: when the pairing endpoint cannot be reached, the attempt reports
    'Failed to initialize pairing' with the message of the error as its
    only status, makes no other pairing call than the connection (no wait,
    no key pair, no signing request), leaves the instance as it was and
    returns. *)
Theorem unreachable_pairing_endpoint env this message :
  pairing_connect env = Rejected message →
  let r := pairWithBridge env this in
  completion r = Resolved ()
  ∧ final r = this
  ∧ status_updates (events r)
    = [(ConnectionFailure, Some ("Failed to initialize pairing: " +:+ message))]
  ∧ (∀ e, e ∈ events r → starts_pairing e →
          e = EvPairingConnect (host (config this)) PAIRING_PORT)
  ∧ (EvLog "info" "Waiting for button press on bridge..." ∉ events r).
Proof.
  intros Hc r. subst r. rewrite (pairWithBridge_connect_rejected _ _ _ Hc).
  cbn. split; [done|]. split; [done|]. split; [done|]. split.
  - intros e Hin Hp.
    repeat (apply elem_of_cons in Hin as [->|Hin]; [by first [destruct Hp|done]|]).
    by apply elem_of_nil in Hin.
  - intros Hin. absent.
Qed.

(** X10: when the key generation fails, [pairWithBridge] logs the error
    and is rejected with its message without reporting any status; no
    signing request is sent and the instance is left as it was.  Through
    [configUpdated] the rejection skips the save and the
    re-initialisation, so the status stays at Connecting, 'Pairing with
    Bridge'. *)
Theorem key_generation_failure_is_not_reported config_ secrets_ env this response message :
  pairing_connect (pairing env) = Resolved () →
  button_pressed (pairing env) response →
  generateKeyPair (pairing env) = inl message →
  let attempt := pairWithBridge (pairing env) this in
  (completion attempt = Rejected message
   ∧ final attempt = this
   ∧ status_updates (events attempt) = []
   ∧ last (events attempt) = Some (EvLog "error" ("key generation error: " +:+ message))
   ∧ ∀ csrText, EvRequestPair csrText ∉ events attempt)
  ∧ (host config_ ≠ host (config this) →
     let r := configUpdated config_ secrets_ env this in
     completion r = Rejected message
     ∧ final r = set_secrets secrets_ (set_config config_ this)
     ∧ status_updates (events r) = [(Connecting, Some "Pairing with Bridge")]
     ∧ saves (events r) = []
     ∧ (EvBeginSearching ∉ events r)).
Proof.
  intros Hc Hp Hk attempt. subst attempt. split.
  - rewrite (pairWithBridge_keygen_failed _ _ _ _ Hc Hp Hk).
    unfold confirmed_log. cbn. repeat split. intros csrText Hin. absent.
  - intros Hchanged r. subst r.
    rewrite (configUpdated_host_changed _ _ _ _ Hchanged).
    rewrite (pairWithBridge_keygen_failed _ _ _ _ Hc Hp Hk).
    unfold repairing_opening, confirmed_log. cbn. repeat split. intros Hin. absent.
Qed.

End PairingSteps.

Section Frames.
Context `{Libraries}.
Local Arguments String.append : simpl never.

Lemma forEach_load_device_bridge items this :
  bridge (final (forEach load_device items this)) = bridge this.
Proof.
  revert this. induction items as [|item items IH]; intros this; [done|].
  rewrite forEach_cons.
  destruct (load_device_uses_only "" item this) as (this1 & evs & Hrun & _).
  assert (bridge this1 = bridge this) as <-.
  { revert Hrun. destruct item as [m|d]; unfold load_device; run_async.
    - by intros [= <- _].
    - destruct (bool_decide _ && bool_decide _); [by intros [= <- _]|].
      destruct (AssociatedArea d); by intros [= <- _]. }
  rewrite Hrun. specialize (IH this1).
  by destruct (forEach load_device items this1).
Qed.

Lemma bridge_after_connect env this :
  ((configured this ∧ leap_connect env = Resolved ())
   ∧ bridge (final (connectToBridge env this)) = bridgeID (config this))
  ∨ (¬ (configured this ∧ leap_connect env = Resolved ())
     ∧ bridge (final (connectToBridge env this)) = bridge this).
Proof.
  destruct (bridgeID (config this)) as [id|] eqn:Hid.
  2:{ right. assert (¬ configured this) as Hno.
      { intros [Ht _]. rewrite Hid in Ht. done. }
      split; [tauto|]. by rewrite (connectToBridge_unconfigured _ _ Hno). }
  destruct (bridgeCerts (secrets this)) as [certs|] eqn:Hcerts.
  2:{ right. assert (¬ configured this) as Hno.
      { intros [_ [? Hs]]. rewrite Hcerts in Hs. done. }
      split; [tauto|]. by rewrite (connectToBridge_unconfigured _ _ Hno). }
  destruct (String.eqb_spec id "") as [->|Hne].
  { right. assert (¬ configured this) as Hno.
    { intros [Ht _]. rewrite Hid in Ht. done. }
    split; [tauto|]. by rewrite (connectToBridge_unconfigured _ _ Hno). }
  assert (configured this) as Hconf.
  { split; [|by eexists]. rewrite Hid. simpl.
    destruct (String.eqb_spec id ""); done. }
  run_connect. rewrite Hid, Hcerts. simpl.
  destruct (String.eqb_spec id ""); [done|]. cbn.
  destruct (leap_connect env) as [[]|e]; cbn.
  - left. split; [done|].
    destruct (getDeviceInfo env) as [items|e]; cbn; [|done].
    pose proof (forEach_load_device_bridge items (set_bridge (Some id) this)) as Hkept.
    by destruct (forEach load_device items _) as [[[]|e] this' evs].
  - right. split; [|done]. by intros [_ ?].
Qed.

(** X11: [destroy] closes the bridge exactly when one was created and
    changes nothing else.  A bridge is created by [connectToBridge] when
    the instance is configured and the session endpoint accepts the
    connection (whatever the enumeration does), so after a connection
    attempt [destroy] closes the bridge if and only if there already was one
    or that attempt got its session. *)
Theorem destroy_closes_created_bridge env this :
  (final (destroy this) = this
   ∧ completion (destroy this) = Resolved ()
   ∧ (EvBridgeClose ∈ events (destroy this) ↔ is_Some (bridge this)))
  ∧ (EvBridgeClose ∈ events (destroy (final (connectToBridge env this)))
     ↔ is_Some (bridge this) ∨ (configured this ∧ leap_connect env = Resolved ())).
Proof.
  assert (∀ this0, EvBridgeClose ∈ events (destroy this0) ↔ is_Some (bridge this0))
    as Hclose.
  { intros this0. unfold destroy. run_async. destruct (bridge this0); cbn.
    - split; [eauto|intros _; present].
    - split; [intros Hin; absent|by intros [? ?]]. }
  split.
  - split; [|split; [|apply Hclose]];
      unfold destroy; run_async; by destruct (bridge this).
  - rewrite Hclose.
    destruct (bridge_after_connect env this) as [[[Hconf Hopen] ->]|[Hcase ->]].
    + destruct (configured_inv _ Hconf) as (id & certs & -> & _). split; [auto|eauto].
    + split; [auto|]. intros [?|?]; [done|contradiction].
Qed.


End Frames.

Section Enumeration.
Context `{Libraries}.
Local Arguments String.append : simpl never.

Lemma saves_app evs evs' : saves (evs ++ evs') = saves evs ++ saves evs'.
Proof. unfold saves. apply omap_app. Qed.

Lemma saves_logs evs : Forall is_log evs → saves evs = [].
Proof. induction 1 as [|e evs He _ IH]; [done|]. by destruct e. Qed.

(** X13: while the identity is the sentinel, the first item of type
    'SmartBridge' decides it: its serial number (if it is not the sentinel
    string itself) becomes the bridge ID and the configuration is saved
    once, then; that item is not listed.  Every other item is treated as a
    device, items of type 'SmartBridge' that come later included: each is
    listed if and only if it has an area. *)
Theorem first_control_unit_decides env this certs pre control_unit post :
  bridgeCerts (secrets this) = Some certs →
  bridgeID (config this) = Some UNKNOWN_BRIDGE_ID →
  connection_succeeds env (pre ++ inr control_unit :: post) →
  DeviceType control_unit = "SmartBridge" →
  SerialNumber control_unit ≠ UNKNOWN_BRIDGE_ID →
  (∀ d, inr d ∈ pre → DeviceType d ≠ "SmartBridge") →
  let r := connectToBridge env this in
  let resolved := {| host := host (config this); port := port (config this);
                     bridgeID := Some (SerialNumber control_unit) |} in
  completion r = Resolved ()
  ∧ config (final r) = resolved
  ∧ saves (events r) = [(resolved, secrets this)]
  ∧ devicesOnBridge (final r)
    = devicesOnBridge this ++ with_area pre ++ with_area post
  ∧ (∀ d, inr d ∈ post → DeviceType d = "SmartBridge" →
          (d ∈ with_area post ↔ is_Some (AssociatedArea d))).
Proof.
  intros Hcerts Hid Hok Htype Hserial Hpre r resolved. subst r.
  rewrite (connectToBridge_connected _ _ UNKNOWN_BRIDGE_ID _ _ Hid ltac:(done) Hcerts Hok).
  erewrite forEach_app.
  2:{ apply load_devices_plain. intros d Hd _. by apply Hpre. }
  rewrite forEach_cons, load_device_control_unit by done.
  rewrite load_devices_plain.
  2:{ intros d _. simpl. intros [= ?]. done. }
  cbn [completion final events]. split; [done|]. split; [done|]. split; [|split].
  - rewrite !saves_app.
    rewrite !(saves_logs (device_log _)) by apply device_log_logs. reflexivity.
  - simpl. by rewrite <- app_assoc.
  - intros d Hin _. rewrite with_area_listed. tauto.
Qed.

Lemma load_devices_frame items this :
  ∃ this' evs added,
    forEach load_device items this = MkRun (Resolved ()) this' evs
    ∧ port (config this') = port (config this)
    ∧ discoveredBridges this' = discoveredBridges this
    ∧ devicesOnBridge this' = devicesOnBridge this ++ added
    ∧ ∀ d, d ∈ added → inr d ∈ items ∧ is_Some (AssociatedArea d).
Proof.
  revert this. induction items as [|item items IH]; intros this.
  - exists this, [], []. rewrite app_nil_r.
    repeat (split; [done|]). by intros d ?%elem_of_nil.
  - rewrite forEach_cons.
    assert (∃ this1 evs1 added1,
              load_device item this = MkRun (Resolved ()) this1 evs1
              ∧ port (config this1) = port (config this)
              ∧ discoveredBridges this1 = discoveredBridges this
              ∧ devicesOnBridge this1 = devicesOnBridge this ++ added1
              ∧ ∀ d, d ∈ added1 → inr d = item ∧ is_Some (AssociatedArea d))
      as (this1 & evs1 & added1 & -> & Hport & Hreg & Hdev & Hadded).
    { destruct item as [m|d]; unfold load_device; run_async.
      - eexists _, _, []. rewrite app_nil_r.
        repeat (split; [done|]). by intros d ?%elem_of_nil.
      - destruct (bool_decide _ && bool_decide _).
        + eexists _, _, []. cbn. rewrite app_nil_r.
          repeat (split; [done|]). by intros d' ?%elem_of_nil.
        + destruct (AssociatedArea d) eqn:Harea.
          * eexists _, _, [d]. cbn. repeat (split; [done|]).
            intros d' ->%list_elem_of_singleton. by rewrite Harea.
          * eexists _, _, []. cbn. rewrite app_nil_r.
            repeat (split; [done|]). by intros d' ?%elem_of_nil. }
    destruct (IH this1) as (this2 & evs2 & added2 & -> & Hport2 & Hreg2 & Hdev2 & Hadded2).
    exists this2, (evs1 ++ evs2), (added1 ++ added2).
    split; [done|]. split; [congruence|]. split; [congruence|].
    split; [by rewrite Hdev2, Hdev, app_assoc|].
    intros d [Hin|Hin]%elem_of_app.
    + destruct (Hadded _ Hin) as [<- ?]. split; [left|done].
    + destruct (Hadded2 _ Hin). split; [by right|done].
Qed.

(** X14: whatever the session endpoint answers, [connectToBridge] leaves
    the secrets, the host, the port and the registry as they are, and
    removes nothing from the device list: the list afterwards is the list
    before followed by devices of the enumeration that have an area. *)
Theorem connectToBridge_keeps env this :
  let r := connectToBridge env this in
  secrets (final r) = secrets this
  ∧ host (config (final r)) = host (config this)
  ∧ port (config (final r)) = port (config this)
  ∧ discoveredBridges (final r) = discoveredBridges this
  ∧ ∃ added,
      devicesOnBridge (final r) = devicesOnBridge this ++ added
      ∧ ∀ d, d ∈ added →
             is_Some (AssociatedArea d)
             ∧ ∃ items, getDeviceInfo env = Resolved items ∧ inr d ∈ items.
Proof.
  intros r. subst r.
  destruct (connectToBridge_uses_only env this) as (Hsecrets & Hhost & _).
  split; [done|]. split; [done|].
  set (P := λ after : ModuleInstance,
         port (config after) = port (config this)
         ∧ discoveredBridges after = discoveredBridges this
         ∧ ∃ added, devicesOnBridge after = devicesOnBridge this ++ added
                    ∧ ∀ d, d ∈ added →
                           is_Some (AssociatedArea d)
                           ∧ ∃ items, getDeviceInfo env = Resolved items
                                      ∧ inr d ∈ items).
  assert (∀ b, P (set_bridge b this)) as Hset.
  { intros b. split; [done|]. split; [done|]. exists []. rewrite app_nil_r.
    split; [done|]. by intros d ?%elem_of_nil. }
  assert (P this) as Hthis by (destruct this; exact (Hset _)).
  change (P (final (connectToBridge env this))).
  run_connect.
  destruct (bridgeID (config this)) as [id|]; [|done].
  destruct (bridgeCerts (secrets this)) as [certs|]; [|done].
  simpl. destruct (String.eqb id ""); [done|]. simpl.
  destruct (leap_connect env) as [[]|e]; cbn; [|done].
  destruct (getDeviceInfo env) as [items|e] eqn:Hitems; cbn; [|apply Hset].
  destruct (load_devices_frame items (set_bridge (Some id) this))
    as (this' & evs & added & -> & Hport & Hreg & Hdev & Hadded).
  cbn. split; [done|]. split; [done|]. exists added. split; [done|].
  intros d Hin. destruct (Hadded _ Hin). split; [done|]. by exists items.
Qed.

(** X15: whatever the pairing endpoint answers, [pairWithBridge] leaves
    the host, the port, the registry, the bridge object and the device
    list as they are.  It ends in one of three ways: with the instance as
    it was; rejected by the read of a missing signing result, with the
    bridge ID assigned and the secrets as they were; or resolved, with the
    bridge ID assigned and the bundle built from the signing result
    stored.  The secrets change on the last one only. *)
Theorem pairWithBridge_keeps env this :
  let r := pairWithBridge env this in
  host (config (final r)) = host (config this)
  ∧ port (config (final r)) = port (config this)
  ∧ discoveredBridges (final r) = discoveredBridges this
  ∧ bridge (final r) = bridge this
  ∧ devicesOnBridge (final r) = devicesOnBridge this
  ∧ (final r = this
     ∨ (∃ keys certResult,
          pairing_success env keys certResult
          ∧ Body_SigningResult certResult = None
          ∧ completion r = Rejected (cannot_read_property "RootCertificate")
          ∧ bridgeID (config (final r)) = Some (resolved_at_pairing this)
          ∧ secrets (final r) = secrets this)
     ∨ (∃ keys certResult signingResult,
          pairing_success env keys certResult
          ∧ Body_SigningResult certResult = Some signingResult
          ∧ completion r = Resolved ()
          ∧ bridgeID (config (final r)) = Some (resolved_at_pairing this)
          ∧ bridgeCerts (secrets (final r)) = Some (bundle_of keys signingResult))).
Proof.
  intros r. subst r.
  destruct (pairing_outcomes env) as [Hfail|(k & c & Hok)].
  - rewrite pairing_failure_leaves_instance by done. repeat split. by left.
  - pose proof Hok as (Hc & [response Hp] & Hk & Hcsr & Hcode).
    rewrite (pairWithBridge_answered _ _ _ _ _ Hc Hp Hk Hcsr Hcode).
    destruct (Body_SigningResult c) as [signingResult|] eqn:Hsigned; cbn.
    + repeat split. right. right. by exists k, c, signingResult.
    + repeat split. right. left. by exists k, c.
Qed.

End Enumeration.

Section HostDropdown.
Context `{Libraries}.
Variable Regex_IP : string.
Local Arguments String.append : simpl never.

Lemma append_cancel_l (a b b' : string) : a +:+ b = a +:+ b' → b = b'.
Proof.
  induction a as [|c a IH]; [done|]. cbn [String.append]. intros [= ?]. auto.
Qed.

Lemma append_cancel_r (b b' c : string) : b +:+ c = b' +:+ c → b = b'.
Proof.
  intros Heq.
  assert (∀ s s' : string,
            String.length (s +:+ s') = (String.length s + String.length s')%nat)
    as Hlength.
  { intros s s'. induction s as [|x s IH]; [done|].
    change (S (String.length (s +:+ s')) = S (String.length s + String.length s')).
    by f_equal. }
  assert (String.length b = String.length b') as Hlen.
  { apply (f_equal String.length) in Heq. rewrite !Hlength in Heq. lia. }
  clear Hlength. revert b' Heq Hlen. induction b as [|x b IH]; intros [|x' b']; try done.
  cbn [String.append String.length]. intros [= -> Heq] [= Hlen]. f_equal. auto.
Qed.

Lemma label_id a b b' :
  a +:+ " (" +:+ b +:+ ")" = a +:+ " (" +:+ b' +:+ ")" → b = b'.
Proof. by intros ?%append_cancel_l%append_cancel_l%append_cancel_r. Qed.

Lemma entry_is_offered (registry : gmap string string) address id :
  registry !! address = Some id →
  {| choice_id := address; choice_label := address +:+ " (" +:+ id +:+ ")" |}
  ∈ (λ '(ipAddr, bridgeID),
       {| choice_id := ipAddr;
          choice_label := ipAddr +:+ " (" +:+ bridgeID +:+ ")" |})
    <$> Object_entries registry.
Proof.
  intros Hin. apply list_elem_of_fmap. exists (address, id).
  split; [done|]. by apply elem_of_map_to_list.
Qed.

(** X16: the configuration form has two fields, the pairing instructions
    and the dropdown 'host', which accepts custom values, is empty by
    default and is checked against the IP pattern.  The dropdown offers one
    choice per entry of the registry and no other: the choice for an address
    has the address as id and 'address (bridge id)' as label; no id is
    offered twice. *)
Theorem host_dropdown_lists_registry (registry : gmap string string) :
  ∃ instructions choices,
    GetConfigFields Regex_IP registry
    = [instructions;
       dropdown "host" "Host"
         "Enter the IP address of the bridge or select one from the dropdown."
         8 choices "" Regex_IP true]
    ∧ (∀ address id,
         {| choice_id := address; choice_label := address +:+ " (" +:+ id +:+ ")" |}
         ∈ choices
         ↔ registry !! address = Some id)
    ∧ (∀ choice, choice ∈ choices → is_Some (registry !! choice_id choice))
    ∧ NoDup (choice_id <$> choices)
    ∧ length choices = size registry.
Proof.
  eexists _, _. split; [reflexivity|]. split; [|split; [|split]].
  - intros address id. split; [|apply entry_is_offered].
    unfold Object_entries. rewrite list_elem_of_fmap.
    intros ([a b] & [= -> Hlabel] & Hin). apply label_id in Hlabel as ->.
    by apply elem_of_map_to_list.
  - unfold Object_entries. intros choice ([a b] & -> & Hin)%list_elem_of_fmap. simpl.
    apply elem_of_map_to_list in Hin. eauto.
  - unfold Object_entries. rewrite <- list_fmap_compose.
    erewrite list_fmap_ext; [apply (NoDup_fst_map_to_list registry)|].
    by intros i [a b] _.
  - unfold Object_entries. by rewrite length_fmap, length_map_to_list.
Qed.

(** X17: the form of a new instance offers no choice; after discovery
    events have been delivered, the form offers, for every address that was
    announced, the choice labelled with the bridge id of the last
    announcement for that address. *)
Theorem dropdown_follows_discovery found this unset_config unset_secrets :
  (∃ instructions,
     getConfigFields Regex_IP (constructor unset_config unset_secrets)
     = [instructions;
        dropdown "host" "Host"
          "Enter the IP address of the bridge or select one from the dropdown."
          8 [] "" Regex_IP true])
  ∧ ∃ instructions choices,
      getConfigFields Regex_IP (final (forEach discovered found this))
      = [instructions;
         dropdown "host" "Host"
           "Enter the IP address of the bridge or select one from the dropdown."
           8 choices "" Regex_IP true]
      ∧ ∀ info, info ∈ found →
          ∃ latest, last (about (ipAddr info) found) = Some latest
                    ∧ {| choice_id := ipAddr info;
                         choice_label := ipAddr info +:+ " (" +:+ bridgeid latest +:+ ")" |}
                      ∈ choices.
Proof.
  split.
  - eexists. unfold getConfigFields, GetConfigFields, Object_entries. simpl.
    by rewrite map_to_list_empty.
  - eexists _, _. split; [reflexivity|].
    intros info Hin.
    destruct (last (about (ipAddr info) found)) as [latest|] eqn:Hlast.
    + exists latest. split; [done|]. apply entry_is_offered.
      fold (registry_after found this). by rewrite registry_after_lookup, Hlast.
    + apply last_None in Hlast.
      assert (info ∈ about (ipAddr info) found) as Hfiltered
        by (unfold about; by apply list_elem_of_filter).
      rewrite Hlast in Hfiltered. by apply elem_of_nil in Hfiltered.
Qed.

End HostDropdown.

(** * The module with the certificates in the configuration *)

Module LegacyFacts.
Import Legacy.
Local Arguments String.append : simpl never.

Ltac run_legacy :=
  unfold saveConfig, startDiscovery, updateActions, updateFeedbacks,
    updateVariableDefinitions, updateStatus, log;
  unfold mbind, mret, Async_bind, Async_ret, try, throw, emit, modify, get_this, await.

Section Facts.
Context `{Libraries}.

Lemma legacy_forEach_found_device devices this :
  forEach found_device devices this = MkRun (Resolved ()) this (found_log devices).
Proof.
  induction devices as [|device devices IH]; [done|].
  change (forEach found_device (device :: devices) this)
    with (match forEach found_device devices this with
          | MkRun c this' evs => MkRun c this' (found_log [device] ++ evs)
          end).
  by rewrite IH.
Qed.

(** The run after an answer in time with status ['200 OK']: the three
    fields are assigned and the configuration saved, or the read of the
    missing signing result throws before anything is assigned. *)
Lemma legacy_pairWithBridge_answered env this response keys certResult :
  pairing_connect env = Resolved () →
  button_pressed env response →
  generateKeyPair env = inr keys →
  once_before 5000 (csr_messages env) = Some certResult →
  StatusCode certResult = "200 OK" →
  let attempt :=
    [EvPairingConnect (host (config this)) PAIRING_PORT;
     EvLog "debug" "Pairing client connected";
     EvLog "debug" ("got message " +:+ JSON_stringify response);
     EvLog "debug" "Physical access confirmed";
     EvGenerateKeyPair 2048;
     EvRequestPair (csr_of keys)] in
  pairWithBridge env this =
    match Body_SigningResult certResult with
    | Some signingResult =>
        let stored :=
          set_privateKey (Some (privateKeyToPem (keyPrivateKey keys)))
            (set_certificate (Certificate signingResult)
               (set_ca (RootCertificate signingResult) this)) in
        MkRun (Resolved ()) stored (attempt ++ [EvSaveConfig (config stored)])
    | None => MkRun (Rejected (cannot_read_property "RootCertificate")) this attempt
    end.
Proof.
  intros Hc [Hfirst Hin] Hk Hcsr Hcode. env_fields env. subst.
  unfold pairWithBridge, await_button_press, await_csr_response. run_legacy. cbn.
  rewrite Hfirst. rewrite bool_decide_eq_true_2 by done.
  cbn. rewrite Hcsr. rewrite bool_decide_eq_false_2 by (intros ?; done).
  by destruct (Body_SigningResult certResult).
Qed.

Lemma legacy_pairWithBridge_paired env this response keys certResult signingResult :
  pairing_connect env = Resolved () →
  button_pressed env response →
  generateKeyPair env = inr keys →
  once_before 5000 (csr_messages env) = Some certResult →
  StatusCode certResult = "200 OK" →
  Body_SigningResult certResult = Some signingResult →
  let stored :=
    set_privateKey (Some (privateKeyToPem (keyPrivateKey keys)))
      (set_certificate (Certificate signingResult)
         (set_ca (RootCertificate signingResult) this)) in
  pairWithBridge env this =
    MkRun (Resolved ()) stored
      [EvPairingConnect (host (config this)) PAIRING_PORT;
       EvLog "debug" "Pairing client connected";
       EvLog "debug" ("got message " +:+ JSON_stringify response);
       EvLog "debug" "Physical access confirmed";
       EvGenerateKeyPair 2048;
       EvRequestPair (csr_of keys);
       EvSaveConfig (config stored)].
Proof.
  intros Hc Hp Hk Hcsr Hcode Hsigned.
  by rewrite (legacy_pairWithBridge_answered _ _ _ _ _ Hc Hp Hk Hcsr Hcode), Hsigned.
Qed.

Lemma legacy_pairWithBridge_failed env this :
  pairing_failure env →
  ∃ c evs,
    pairWithBridge env this = MkRun c this evs
    ∧ saves evs = []
    ∧ (c = Resolved () ∨ ∃ e, generateKeyPair env = inl e ∧ c = Rejected e)
    ∧ ∃ rest, evs = EvPairingConnect (host (config this)) PAIRING_PORT :: rest.
Proof.
  intros [e Hc|Hc Hno|r e Hc [Hfirst Hin] Hk|r k Hc [Hfirst Hin] Hk Ht
         |r k c Hc [Hfirst Hin] Hk Hcsr Hcode];
    env_fields env; subst;
    unfold pairWithBridge, await_button_press, await_csr_response; run_legacy; cbn.
  - eexists _, _. split; [reflexivity|]. split; [done|]. split; [by left|by eexists].
  - destruct (once_before 30000 heard) as [response|] eqn:Hfirst; cbn.
    + rewrite bool_decide_eq_false_2 by (intros Hin; exact (Hno response (conj eq_refl Hin))).
      eexists _, _. split; [reflexivity|]. split; [done|]. split; [by left|by eexists].
    + eexists _, _. split; [reflexivity|]. split; [done|]. split; [by left|by eexists].
  - rewrite Hfirst. rewrite bool_decide_eq_true_2 by done. cbn.
    eexists _, _. split; [reflexivity|]. split; [done|]. split; [right; eauto|by eexists].
  - rewrite Hfirst. rewrite bool_decide_eq_true_2 by done. cbn. rewrite Ht.
    eexists _, _. split; [reflexivity|]. split; [done|]. split; [by left|by eexists].
  - rewrite Hfirst. rewrite bool_decide_eq_true_2 by done. cbn. rewrite Hcsr.
    rewrite bool_decide_eq_true_2 by done.
    eexists _, _. split; [reflexivity|]. split; [done|]. split; [by left|by eexists].
Qed.

(** X18: in the module that keeps the certificates in its configuration,
    a pairing attempt saves the configuration at most once.  On the five
    failure exits, and when the ['200 OK'] answer has no signing result
    (the attempt is then rejected by the read of it), the configuration is
    left as it was and nothing is saved.  Otherwise the root certificate
    and the client certificate are set to what the signing result carries,
    each of them or nothing, the private key is set to the one of that
    attempt, and the configuration is saved once, with these three; the
    host, the port and the bridge ID are never changed. *)
Theorem legacy_pairing_saves_once env this :
  let r := pairWithBridge env this in
  (pairing_failure env ∧ final r = this ∧ saves (events r) = [])
  ∨ (∃ keys certResult,
       pairing_success env keys certResult
       ∧ Body_SigningResult certResult = None
       ∧ completion r = Rejected (cannot_read_property "RootCertificate")
       ∧ final r = this
       ∧ saves (events r) = [])
  ∨ (∃ keys certResult signingResult,
       pairing_success env keys certResult
       ∧ Body_SigningResult certResult = Some signingResult
       ∧ completion r = Resolved ()
       ∧ config (final r)
         = {| host := host (config this); port := port (config this);
              ca := RootCertificate signingResult;
              certificate := Certificate signingResult;
              privateKey := Some (privateKeyToPem (keyPrivateKey keys));
              bridgeID := bridgeID (config this) |}
       ∧ saves (events r) = [config (final r)]).
Proof.
  intros r. subst r.
  destruct (pairing_outcomes env) as [Hfail|(k & c & Hok)].
  - left. destruct (legacy_pairWithBridge_failed env this Hfail) as (c & evs & -> & Hsaves & _).
    done.
  - right. pose proof Hok as (Hc & [response Hp] & Hk & Hcsr & Hcode).
    rewrite (legacy_pairWithBridge_answered _ _ _ _ _ Hc Hp Hk Hcsr Hcode).
    destruct (Body_SigningResult c) as [signingResult|] eqn:Hsigned; cbn.
    + right. by exists k, c, signingResult.
    + left. by exists k, c.
Qed.

Lemma legacy_truthy_true s : s ≠ "" → truthy (Some s) = true.
Proof. intros Hne. simpl. by destruct (String.eqb_spec s ""). Qed.

Lemma legacy_eqb_false (s : string) : s ≠ "" → String.eqb s "" = false.
Proof. intros Hne. by destruct (String.eqb_spec s ""). Qed.

Lemma legacy_status_updates_app evs evs' :
  status_updates (evs ++ evs') = status_updates evs ++ status_updates evs'.
Proof. unfold status_updates. apply omap_app. Qed.

Lemma legacy_saves_app evs evs' : saves (evs ++ evs') = saves evs ++ saves evs'.
Proof. unfold saves. apply omap_app. Qed.

Lemma legacy_found_log_logs devices : Forall is_log (found_log devices).
Proof. unfold found_log. apply Forall_fmap. by apply Forall_true. Qed.

Lemma legacy_status_updates_logs evs : Forall is_log evs → status_updates evs = [].
Proof. induction 1 as [|e evs He _ IH]; [done|]. by destruct e. Qed.

Lemma legacy_saves_logs evs : Forall is_log evs → saves evs = [].
Proof. induction 1 as [|e evs He _ IH]; [done|]. by destruct e. Qed.

(** X19: in that module a refused session does not by itself end [init]:
    with a bridge ID and certificates in the configuration, the refusal is
    reported and logged, and [init] still builds the bridge and asks for
    the devices; it starts neither discovery nor pairing and saves
    nothing.  When the enumeration answers, [init] logs the devices,
    reports Ok and exports actions, feedbacks and variables.  When the
    enumeration is rejected as well, [init] is rejected with that error
    right after the request: Ok is not reported and nothing is exported. *)
Theorem legacy_refused_session_goes_on config_ env this id root cert key message :
  host config_ ≠ "" →
  bridgeID config_ = Some id → id ≠ "" →
  ca config_ = Some root → root ≠ "" →
  certificate config_ = Some cert → cert ≠ "" →
  privateKey config_ = Some key → key ≠ "" →
  leap_connect (session env) = Rejected message →
  let r := init config_ env this in
  let refused :=
    [EvUpdateStatus Connecting (Some "Connecting to Bridge");
     EvLeapConnect (host config_) LEAP_PORT root key cert;
     EvUpdateStatus ConnectionFailure (Some ("Bridge connection failed: " +:+ message));
     EvLog "error" ("Bridge connection failed: " +:+ message);
     EvGetDeviceInfo] in
  final r = set_bridge (Some id) (set_config config_ this)
  ∧ saves (events r) = []
  ∧ (∀ devices,
       getDeviceInfo (session env) = Resolved devices →
       completion r = Resolved ()
       ∧ events r
         = refused ++ found_log devices
           ++ [EvUpdateStatus Ok None;
               EvUpdateActions; EvUpdateFeedbacks; EvUpdateVariableDefinitions]
       ∧ status_updates (events r)
         = [(Connecting, Some "Connecting to Bridge");
            (ConnectionFailure, Some ("Bridge connection failed: " +:+ message));
            (Ok, None)])
  ∧ (∀ e,
       getDeviceInfo (session env) = Rejected e →
       completion r = Rejected e
       ∧ events r = refused
       ∧ status_updates (events r)
         = [(Connecting, Some "Connecting to Bridge");
            (ConnectionFailure, Some ("Bridge connection failed: " +:+ message))]).
Proof.
  intros Hhost Hid Hne Hca Hroot Hcert Hcertne Hkey Hkeyne Hrefused r refused.
  subst r refused.
  destruct (getDeviceInfo (session env)) as [devices|e] eqn:Hdevices.
  - assert (init config_ env this
            = MkRun (Resolved ()) (set_bridge (Some id) (set_config config_ this))
                ([EvUpdateStatus Connecting (Some "Connecting to Bridge");
                  EvLeapConnect (host config_) LEAP_PORT root key cert;
                  EvUpdateStatus ConnectionFailure
                    (Some ("Bridge connection failed: " +:+ message));
                  EvLog "error" ("Bridge connection failed: " +:+ message);
                  EvGetDeviceInfo]
                 ++ found_log devices
                 ++ [EvUpdateStatus Ok None;
                     EvUpdateActions; EvUpdateFeedbacks; EvUpdateVariableDefinitions]))
      as ->.
    { unfold init. run_legacy. cbn.
      repeat (progress (rewrite ?(legacy_eqb_false _ Hhost), ?Hid, ?Hca, ?Hcert, ?Hkey,
                          ?Hrefused, ?Hdevices, ?legacy_forEach_found_device,
                          ?legacy_truthy_true by done; cbn)).
      reflexivity. }
    cbn [completion final events]. split; [done|].
    rewrite !legacy_status_updates_app, !legacy_saves_app.
    rewrite (legacy_status_updates_logs (found_log devices)),
      (legacy_saves_logs (found_log devices)) by apply legacy_found_log_logs.
    split; [done|]. split; [|by intros e [=]].
    intros devices' [= <-]. done.
  - assert (init config_ env this
            = MkRun (Rejected e) (set_bridge (Some id) (set_config config_ this))
                [EvUpdateStatus Connecting (Some "Connecting to Bridge");
                 EvLeapConnect (host config_) LEAP_PORT root key cert;
                 EvUpdateStatus ConnectionFailure
                   (Some ("Bridge connection failed: " +:+ message));
                 EvLog "error" ("Bridge connection failed: " +:+ message);
                 EvGetDeviceInfo])
      as ->.
    { unfold init. run_legacy. cbn.
      repeat (progress (rewrite ?(legacy_eqb_false _ Hhost), ?Hid, ?Hca, ?Hcert, ?Hkey,
                          ?Hrefused, ?Hdevices, ?legacy_truthy_true by done; cbn)).
      reflexivity. }
    cbn [completion final events]. split; [done|]. split; [done|].
    split; [by intros devices [=]|]. intros e' [= <-]. done.
Qed.

(** X20: in that module a pairing is undone at once when the bridge ID
    cannot be told: if no bridge ID is configured and the registry has
    none for the host, then after a pairing whose signing result carries
    both certificates [init] offers the new certificates to the host and
    then, whatever the session endpoint answers, removes the three
    certificate fields, saves the configuration a second time without them,
    reports Disconnected and returns without exporting actions, feedbacks
    or variables. *)
Theorem legacy_unknown_bridge_resets_certificates
    config_ env this keys certResult signingResult root cert :
  host config_ ≠ "" →
  truthy (bridgeID config_) = false →
  truthy (discoveredBridges this !! host config_) = false →
  pairing_success (pairing env) keys certResult →
  Body_SigningResult certResult = Some signingResult →
  RootCertificate signingResult = Some root → root ≠ "" →
  Certificate signingResult = Some cert → cert ≠ "" →
  privateKeyToPem (keyPrivateKey keys) ≠ "" →
  let r := init config_ env this in
  let paired :=
    {| host := host config_; port := port config_;
       ca := Some root;
       certificate := Some cert;
       privateKey := Some (privateKeyToPem (keyPrivateKey keys));
       bridgeID := bridgeID config_ |} in
  let reset :=
    {| host := host config_; port := port config_;
       ca := None; certificate := None; privateKey := None;
       bridgeID := bridgeID config_ |} in
  completion r = Resolved ()
  ∧ config (final r) = reset
  ∧ bridge (final r) = bridge this
  ∧ saves (events r) = [paired; reset]
  ∧ last (events r)
    = Some (EvUpdateStatus Disconnected (Some "No Bridge ID for Paired Host"))
  ∧ EvLeapConnect (host config_) LEAP_PORT root
      (privateKeyToPem (keyPrivateKey keys)) cert ∈ events r
  ∧ ∀ e, e ∈ events r → ¬ exports e.
Proof.
  intros Hhost Hid Hunknown (Hc & [response Hp] & Hk & Hcsr & Hcode) Hsigned
         Hrootv Hroot Hcertv Hcert Hkey r paired reset.
  destruct signingResult as [root' cert']. simpl in Hrootv, Hcertv. subst root' cert'.
  subst r. unfold init. run_legacy. cbn.
  rewrite (legacy_eqb_false _ Hhost). cbn. rewrite Hid. cbn.
  rewrite (legacy_pairWithBridge_paired _ _ _ _ _ _ Hc Hp Hk Hcsr Hcode Hsigned). cbn.
  rewrite !legacy_eqb_false by done. cbn.
  destruct (leap_connect (session env)) as [[]|message]; cbn;
    rewrite Hid, Hunknown; cbn.
  all: repeat (split; [done|]); split; [present|].
  all: intros e Hin;
    repeat (apply elem_of_cons in Hin as [->|Hin]; [simpl; tauto|]);
    by apply elem_of_nil in Hin.
Qed.

(** X21: in that module the bridge ID is taken from the registry at the
    first connection: if no bridge ID is configured and the registry has a
    (non-empty) id for the host, then after a pairing whose signing result
    carries both certificates and an enumeration that answers, [init] ends
    with that id as bridge ID; it has saved the configuration twice, first
    with the new certificates and then with the certificates and the id,
    and its last status is Ok. *)
Theorem legacy_first_connection_saves_discovered_id
    config_ env this keys certResult signingResult root cert id devices :
  host config_ ≠ "" →
  truthy (bridgeID config_) = false →
  discoveredBridges this !! host config_ = Some id → id ≠ "" →
  pairing_success (pairing env) keys certResult →
  Body_SigningResult certResult = Some signingResult →
  RootCertificate signingResult = Some root → root ≠ "" →
  Certificate signingResult = Some cert → cert ≠ "" →
  privateKeyToPem (keyPrivateKey keys) ≠ "" →
  getDeviceInfo (session env) = Resolved devices →
  let r := init config_ env this in
  let paired :=
    {| host := host config_; port := port config_;
       ca := Some root;
       certificate := Some cert;
       privateKey := Some (privateKeyToPem (keyPrivateKey keys));
       bridgeID := bridgeID config_ |} in
  let resolved :=
    {| host := host config_; port := port config_;
       ca := Some root;
       certificate := Some cert;
       privateKey := Some (privateKeyToPem (keyPrivateKey keys));
       bridgeID := Some id |} in
  completion r = Resolved ()
  ∧ config (final r) = resolved
  ∧ bridge (final r) = Some id
  ∧ saves (events r) = [paired; resolved]
  ∧ last (status_updates (events r)) = Some (Ok, None)
  ∧ ∀ device, device ∈ devices →
      EvLog "info" ("Found device: " +:+ Name device +:+ " (model: "
                    +:+ ModelNumber device +:+ ", Type: " +:+ DeviceType device +:+ ")")
      ∈ events r.
Proof.
  intros Hhost Hid Hfound Hne (Hc & [response Hp] & Hk & Hcsr & Hcode) Hsigned
         Hrootv Hroot Hcertv Hcert Hkey Hdevices r paired resolved.
  destruct signingResult as [root' cert']. simpl in Hrootv, Hcertv. subst root' cert'.
  subst r. unfold init. run_legacy. cbn.
  rewrite (legacy_eqb_false _ Hhost). cbn. rewrite Hid. cbn.
  rewrite (legacy_pairWithBridge_paired _ _ _ _ _ _ Hc Hp Hk Hcsr Hcode Hsigned). cbn.
  rewrite !legacy_eqb_false by done. cbn.
  assert (∀ device, device ∈ devices →
            EvLog "info" ("Found device: " +:+ Name device +:+ " (model: "
                          +:+ ModelNumber device +:+ ", Type: " +:+ DeviceType device
                          +:+ ")") ∈ found_log devices) as Hlogged.
  { intros device Hin. unfold found_log. apply list_elem_of_fmap.
    by exists device. }
  pose proof (legacy_status_updates_logs _ (legacy_found_log_logs devices)) as Hquiet.
  pose proof (legacy_saves_logs _ (legacy_found_log_logs devices)) as Hunsaved.
  destruct (leap_connect (session env)) as [[]|message];
    repeat (progress (rewrite ?Hid, ?Hfound, ?Hdevices, ?legacy_forEach_found_device,
                        ?legacy_eqb_false by done; cbn)).
  all: unfold status_updates in Hquiet; unfold saves in Hunsaved.
  all: rewrite !omap_app, Hquiet, Hunsaved.
  all: repeat (split; [done|]).
  all: intros device Hin; apply Hlogged in Hin.
  all: repeat apply list_elem_of_further; apply elem_of_app; by left.
Qed.

Lemma legacy_pairWithBridge_starts env this :
  ∃ c this1 rest,
    pairWithBridge env this
    = MkRun c this1 (EvPairingConnect (host (config this)) PAIRING_PORT :: rest).
Proof.
  destruct (pairing_outcomes env) as [Hfail|(k & c & Hc & [r Hp] & Hk & Hcsr & Hcode)].
  - destruct (legacy_pairWithBridge_failed env this Hfail) as (c & evs & -> & _ & _ & rest & ->).
    by eexists _, _, _.
  - rewrite (legacy_pairWithBridge_answered _ _ _ _ _ Hc Hp Hk Hcsr Hcode).
    destruct (Body_SigningResult c); by eexists _, _, _.
Qed.

Lemma legacy_not_in_found_log e devices : e ∈ found_log devices → is_log e.
Proof.
  intros Hin. pose proof (legacy_found_log_logs devices) as Hall.
  rewrite Forall_forall in Hall. auto.
Qed.

(** X22: in that module [init] does nothing without a host but report
    'No Host/IP'.  With a host, it starts discovery and a pairing attempt
    exactly when no bridge ID is configured, whether or not certificates
    are already in the configuration. *)
Theorem legacy_init_pairs_without_bridge_id config_ env this :
  let r := init config_ env this in
  (host config_ = "" →
   completion r = Resolved ()
   ∧ final r = set_config config_ this
   ∧ events r = [EvUpdateStatus BadConfig (Some "No Host/IP")])
  ∧ (EvBeginSearching ∈ events r
     ↔ host config_ ≠ "" ∧ truthy (bridgeID config_) = false)
  ∧ (EvPairingConnect (host config_) PAIRING_PORT ∈ events r
     ↔ host config_ ≠ "" ∧ truthy (bridgeID config_) = false).
Proof.
  intros r. subst r. unfold init. run_legacy. cbn.
  destruct (String.eqb_spec (host config_) "") as [Hempty|Hhost]; cbn.
  { split; [done|]. split; (split; [intros Hin; absent|by intros [? _]]). }
  split; [done|].
  destruct (truthy (bridgeID config_)) eqn:Hid; cbn.
  - destruct (truthy (ca config_) && truthy (certificate config_)
              && truthy (privateKey config_)); cbn.
    2:{ split; (split; [intros Hin; absent|by intros [_ ?]]). }
    destruct (leap_connect (session env)) as [[]|message]; cbn;
      rewrite ?Hid; cbn; rewrite ?Hid; cbn;
      (destruct (getDeviceInfo (session env)) as [devices|message']; cbn;
       [rewrite legacy_forEach_found_device; cbn|]);
      split; (split; [intros Hin|by intros [_ ?]]);
      repeat (apply elem_of_cons in Hin as [Hin|Hin]; [discriminate Hin|]);
      try (by apply elem_of_nil in Hin);
      (apply elem_of_app in Hin as [Hin|Hin]; [by apply legacy_not_in_found_log in Hin|absent]).
  - destruct (legacy_pairWithBridge_starts (pairing env) (set_config config_ this))
      as (c & this1 & rest & ->).
    destruct c as [[]|message]; cbn.
    + repeat (first
        [ progress cbn
        | match goal with
          | |- context [forEach found_device ?l ?t] => rewrite (legacy_forEach_found_device l t)
          | |- context [match leap_connect ?e with _ => _ end] =>
              destruct (leap_connect e) as [[]|?]
          | |- context [match getDeviceInfo ?e with _ => _ end] =>
              destruct (getDeviceInfo e)
          | |- context [truthy ?x] => destruct (truthy x)
          end ]).
      all: split; (split; [done|intros _; present]).
    + split; (split; [done|intros _; present]).
Qed.

End Facts.
End LegacyFacts.

(** ** The further statements at sample inputs *)

Section FurtherSamples.
Existing Instance sample_libraries.

Lemma refused_session_does_not_abort_init_witness :
  let r := init paired_config true paired_secrets refusing_session fresh_instance in
  bridgeID paired_config = Some "0455a1b2"
  ∧ "0455a1b2" ≠ ""
  ∧ bridgeCerts paired_secrets = Some sample_certs
  ∧ leap_connect refusing_session = Rejected "ECONNREFUSED"
  ∧ completion r = Resolved ()
  ∧ status_updates (events r)
    = [(Connecting, Some "Initializing");
       (Connecting, Some "Connecting to Bridge");
       (ConnectionFailure, Some "Bridge connection failed: ECONNREFUSED")]
  ∧ (EvGetDeviceInfo ∉ events r).
Proof.
  intros r. assert ("0455a1b2" ≠ "") as Hne by discriminate.
  destruct (refused_session_does_not_abort_init paired_config true paired_secrets
              refusing_session fresh_instance "0455a1b2" sample_certs "ECONNREFUSED"
              eq_refl Hne eq_refl eq_refl)
    as (Hdone & _ & Hstatus & Hnone & _).
  repeat (split; [done|]). exact Hnone.
Defined.

Lemma enumeration_lists_devices_with_area_witness :
  let r := connectToBridge mixed_enumeration listing_instance in
  bridgeID (config listing_instance) = Some "0455a1b2"
  ∧ "0455a1b2" ≠ "" ∧ "0455a1b2" ≠ UNKNOWN_BRIDGE_ID
  ∧ bridgeCerts (secrets listing_instance) = Some sample_certs
  ∧ connection_succeeds mixed_enumeration [inl "bad response"; inr lamp; inr unplaced]
  ∧ devicesOnBridge listing_instance = [lamp]
  ∧ last (events r) = Some (EvUpdateStatus Ok None)
  ∧ devicesOnBridge (final r) = [lamp; lamp]
  ∧ EvLog "error" "Error retrieving device: bad response" ∈ events r.
Proof.
  intros r.
  assert ("0455a1b2" ≠ "") as Hne by discriminate.
  assert ("0455a1b2" ≠ UNKNOWN_BRIDGE_ID) as Hknown by discriminate.
  assert (connection_succeeds mixed_enumeration
            [inl "bad response"; inr lamp; inr unplaced]) as Hok by (split; reflexivity).
  destruct (enumeration_lists_devices_with_area mixed_enumeration listing_instance
              "0455a1b2" sample_certs _ eq_refl Hne Hknown eq_refl Hok)
    as (_ & Hlast & Hlisted & _ & Herrors & _).
  do 6 (split; [done|]). split; [exact Hlast|]. split; [exact Hlisted|].
  apply (Herrors "bad response"). apply list_elem_of_here.
Defined.

Lemma rejected_enumeration_aborts_init_witness :
  let r := init paired_config true paired_secrets rejected_enumeration fresh_instance in
  bridgeID paired_config = Some "0455a1b2"
  ∧ "0455a1b2" ≠ ""
  ∧ bridgeCerts paired_secrets = Some sample_certs
  ∧ leap_connect rejected_enumeration = Resolved ()
  ∧ getDeviceInfo rejected_enumeration = Rejected "got bad response"
  ∧ completion r = Rejected "got bad response"
  ∧ (EvUpdateActions ∉ events r).
Proof.
  intros r. assert ("0455a1b2" ≠ "") as Hne by discriminate.
  destruct (rejected_enumeration_aborts_init paired_config true paired_secrets
              rejected_enumeration fresh_instance "0455a1b2" sample_certs
              "got bad response" eq_refl Hne eq_refl eq_refl eq_refl)
    as (Hrejected & _ & _ & _ & _ & Hnone & _).
  repeat (split; [done|]). exact Hnone.
Defined.

Lemma unchanged_host_skips_pairing_witness :
  let env := {| pairing := irrelevant_then_pressed; session := one_lamp |} in
  let r := configUpdated paired_config paired_secrets env paired_instance in
  host paired_config = host (config paired_instance)
  ∧ (∀ e, e ∈ events r → ¬ starts_pairing e)
  ∧ saves (events r) = [(paired_config, paired_secrets)].
Proof.
  intros env r.
  destruct (unchanged_host_skips_pairing paired_config paired_secrets env paired_instance
              eq_refl) as (Hquiet & _).
  split; [reflexivity|]. split; [exact Hquiet|]. reflexivity.
Defined.

Lemma repairing_connects_with_new_bundle_witness :
  let env := {| pairing := pressed_then [(200, signing_result "200 OK")];
                session := hub_and_lamp |} in
  host moved_config ≠ host (config paired_instance)
  ∧ pairing_success (pairing env) sample_keys (signing_result "200 OK")
  ∧ Body_SigningResult (signing_result "200 OK") = Some signed
  ∧ default UNKNOWN_BRIDGE_ID (discoveredBridges paired_instance !! host moved_config) ≠ ""
  ∧ ∃ before between after,
      events (configUpdated moved_config paired_secrets env paired_instance)
      = before
        ++ EvSaveConfig
             {| host := "10.0.0.9"; port := 0; bridgeID := Some UNKNOWN_BRIDGE_ID |}
             {| bridgeCerts := Some {| ca := Some "root certificate";
                                       certificate := Some "client certificate";
                                       privateKey := "PEM private key" |} |}
        :: between
        ++ EvLeapConnect "10.0.0.9" LEAP_PORT (Some "root certificate") "PEM private key"
             (Some "client certificate")
        :: after
      ∧ (∀ e, e ∈ before ++ between → ¬ reaches_session e).
Proof.
  intros env.
  assert (host moved_config ≠ host (config paired_instance)) as Hmoved by discriminate.
  assert (default UNKNOWN_BRIDGE_ID
            (discoveredBridges paired_instance !! host moved_config) ≠ "") as Hid
    by discriminate.
  split; [exact Hmoved|]. split; [exact pressed_then_signed|]. split; [reflexivity|].
  split; [exact Hid|].
  exact (repairing_connects_with_new_bundle moved_config paired_secrets env
           paired_instance sample_keys (signing_result "200 OK") signed Hmoved
           pressed_then_signed eq_refl Hid).
Defined.

Lemma unreachable_pairing_endpoint_witness :
  let r := pairWithBridge unreachable_bridge paired_instance in
  pairing_connect unreachable_bridge = Rejected "EHOSTUNREACH"
  ∧ final r = paired_instance
  ∧ status_updates (events r)
    = [(ConnectionFailure, Some "Failed to initialize pairing: EHOSTUNREACH")].
Proof.
  intros r.
  destruct (unreachable_pairing_endpoint unreachable_bridge paired_instance
              "EHOSTUNREACH" eq_refl) as (_ & Hsame & Hstatus & _).
  split; [reflexivity|]. split; [exact Hsame|exact Hstatus].
Defined.

Lemma key_generation_failure_is_not_reported_witness :
  let env := {| pairing := no_entropy; session := one_lamp |} in
  let r := configUpdated moved_config paired_secrets env paired_instance in
  pairing_connect (pairing env) = Resolved ()
  ∧ button_pressed (pairing env) (status_message ["PhysicalAccess"])
  ∧ generateKeyPair (pairing env) = inl "no entropy"
  ∧ host moved_config ≠ host (config paired_instance)
  ∧ completion r = Rejected "no entropy"
  ∧ status_updates (events r) = [(Connecting, Some "Pairing with Bridge")]
  ∧ saves (events r) = [].
Proof.
  intros env r.
  assert (button_pressed (pairing env) (status_message ["PhysicalAccess"])) as Hpressed
    by (split; [reflexivity|apply list_elem_of_here]).
  assert (host moved_config ≠ host (config paired_instance)) as Hmoved by discriminate.
  destruct (proj2 (key_generation_failure_is_not_reported moved_config paired_secrets env
                     paired_instance _ "no entropy" eq_refl Hpressed eq_refl) Hmoved)
    as (Hrejected & _ & Hstatus & Hsaves & _).
  repeat (split; [done|]). exact Hsaves.
Defined.

Lemma first_control_unit_decides_witness :
  let stored := set_config unresolved_config (set_secrets paired_secrets fresh_instance) in
  let r := connectToBridge two_hubs stored in
  bridgeCerts (secrets stored) = Some sample_certs
  ∧ bridgeID (config stored) = Some UNKNOWN_BRIDGE_ID
  ∧ connection_succeeds two_hubs ([inr lamp] ++ inr hub :: [inr spare_hub])
  ∧ DeviceType hub = "SmartBridge"
  ∧ SerialNumber hub ≠ UNKNOWN_BRIDGE_ID
  ∧ (∀ d, inr d ∈ ([inr lamp] : list (string + DeviceDefinition)) →
          DeviceType d ≠ "SmartBridge")
  ∧ bridgeID (config (final r)) = Some "0455a1b2"
  ∧ devicesOnBridge (final r) = [lamp; spare_hub].
Proof.
  intros stored r.
  assert (SerialNumber hub ≠ UNKNOWN_BRIDGE_ID) as Hserial by discriminate.
  assert (∀ d, inr d ∈ ([inr lamp] : list (string + DeviceDefinition)) →
               DeviceType d ≠ "SmartBridge") as Hpre.
  { intros d Hin. apply list_elem_of_singleton in Hin. injection Hin as ->. discriminate. }
  assert (connection_succeeds two_hubs ([inr lamp] ++ inr hub :: [inr spare_hub])) as Hok
    by (split; reflexivity).
  destruct (first_control_unit_decides two_hubs stored sample_certs [inr lamp] hub
              [inr spare_hub] eq_refl eq_refl Hok eq_refl Hserial Hpre)
    as (_ & Hconfig & _ & Hdevices & _).
  do 6 (split; [done|]). split; [unfold r; by rewrite Hconfig|exact Hdevices].
Defined.

End FurtherSamples.

Section LegacySamples.
Existing Instance sample_libraries.

Lemma legacy_refused_session_goes_on_witness :
  let env := legacy_signing (Rejected "ECONNREFUSED") in
  let unanswered :=
    {| Legacy.pairing := Legacy.pairing env;
       Legacy.session := {| Legacy.leap_connect := Rejected "ECONNREFUSED";
                            Legacy.getDeviceInfo := Rejected "not connected" |} |} in
  let r := Legacy.init legacy_paired env legacy_fresh in
  let r' := Legacy.init legacy_paired unanswered legacy_fresh in
  Legacy.host legacy_paired ≠ ""
  ∧ Legacy.leap_connect (Legacy.session env) = Rejected "ECONNREFUSED"
  ∧ Legacy.getDeviceInfo (Legacy.session env) = Resolved [lamp; hub]
  ∧ Legacy.completion r = Resolved ()
  ∧ Legacy.status_updates (Legacy.events r)
    = [(Legacy.Connecting, Some "Connecting to Bridge");
       (Legacy.ConnectionFailure, Some "Bridge connection failed: ECONNREFUSED");
       (Legacy.Ok, None)]
  ∧ Legacy.saves (Legacy.events r) = []
  ∧ Legacy.completion r' = Rejected "not connected"
  ∧ last (Legacy.events r') = Some Legacy.EvGetDeviceInfo.
Proof.
  intros env unanswered r r'.
  assert (Legacy.host legacy_paired ≠ "") as Hhost by discriminate.
  assert ("0455a1b2" ≠ "") as Hid by discriminate.
  assert ("old root" ≠ "") as Hroot by discriminate.
  assert ("old certificate" ≠ "") as Hcert by discriminate.
  assert ("old key" ≠ "") as Hkey by discriminate.
  destruct (LegacyFacts.legacy_refused_session_goes_on legacy_paired env legacy_fresh
              "0455a1b2" "old root" "old certificate" "old key" "ECONNREFUSED"
              Hhost eq_refl Hid eq_refl Hroot eq_refl Hcert eq_refl Hkey eq_refl)
    as (_ & Hsaves & Hanswered & _).
  destruct (Hanswered [lamp; hub] eq_refl) as (Hdone & _ & Hstatus).
  destruct (LegacyFacts.legacy_refused_session_goes_on legacy_paired unanswered
              legacy_fresh "0455a1b2" "old root" "old certificate" "old key"
              "ECONNREFUSED"
              Hhost eq_refl Hid eq_refl Hroot eq_refl Hcert eq_refl Hkey eq_refl)
    as (_ & _ & _ & Hrejected).
  destruct (Hrejected "not connected" eq_refl) as (Hthrown & Hevents & _).
  split; [exact Hhost|]. split; [reflexivity|]. split; [reflexivity|].
  split; [exact Hdone|]. split; [exact Hstatus|]. split; [exact Hsaves|].
  split; [exact Hthrown|]. unfold r'. by rewrite Hevents.
Defined.

Lemma legacy_unknown_bridge_resets_certificates_witness :
  let env := legacy_signing (Resolved ()) in
  let r := Legacy.init legacy_unpaired env legacy_fresh in
  Legacy.host legacy_unpaired ≠ ""
  ∧ truthy (Legacy.bridgeID legacy_unpaired) = false
  ∧ truthy (Legacy.discoveredBridges legacy_fresh !! Legacy.host legacy_unpaired) = false
  ∧ pairing_success (Legacy.pairing env) sample_keys (signing_result "200 OK")
  ∧ Body_SigningResult (signing_result "200 OK") = Some signed
  ∧ RootCertificate signed = Some "root certificate"
  ∧ Certificate signed = Some "client certificate"
  ∧ privateKeyToPem (keyPrivateKey sample_keys) ≠ ""
  ∧ Legacy.config (Legacy.final r) = legacy_unpaired
  ∧ length (Legacy.saves (Legacy.events r)) = 2%nat.
Proof.
  intros env r.
  assert (Legacy.host legacy_unpaired ≠ "") as Hhost by discriminate.
  assert ("root certificate" ≠ "") as Hroot by discriminate.
  assert ("client certificate" ≠ "") as Hcert by discriminate.
  assert (privateKeyToPem (keyPrivateKey sample_keys) ≠ "") as Hkey by discriminate.
  destruct (LegacyFacts.legacy_unknown_bridge_resets_certificates legacy_unpaired env
              legacy_fresh sample_keys (signing_result "200 OK") signed
              "root certificate" "client certificate" Hhost eq_refl eq_refl
              pressed_then_signed eq_refl eq_refl Hroot eq_refl Hcert Hkey)
    as (_ & Hreset & _ & Hsaves & _).
  split; [exact Hhost|]. split; [reflexivity|]. split; [reflexivity|].
  split; [exact pressed_then_signed|]. split; [reflexivity|]. split; [reflexivity|].
  split; [reflexivity|]. split; [exact Hkey|]. split; [exact Hreset|].
  unfold r. by rewrite Hsaves.
Defined.

Lemma legacy_first_connection_saves_discovered_id_witness :
  let env := legacy_signing (Resolved ()) in
  let r := Legacy.init legacy_unpaired env legacy_discovered in
  Legacy.host legacy_unpaired ≠ ""
  ∧ truthy (Legacy.bridgeID legacy_unpaired) = false
  ∧ Legacy.discoveredBridges legacy_discovered !! Legacy.host legacy_unpaired
    = Some "0455a1b2"
  ∧ pairing_success (Legacy.pairing env) sample_keys (signing_result "200 OK")
  ∧ Body_SigningResult (signing_result "200 OK") = Some signed
  ∧ Legacy.getDeviceInfo (Legacy.session env) = Resolved [lamp; hub]
  ∧ Legacy.bridgeID (Legacy.config (Legacy.final r)) = Some "0455a1b2"
  ∧ Legacy.bridge (Legacy.final r) = Some "0455a1b2"
  ∧ last (Legacy.status_updates (Legacy.events r)) = Some (Legacy.Ok, None).
Proof.
  intros env r.
  assert (Legacy.host legacy_unpaired ≠ "") as Hhost by discriminate.
  assert ("0455a1b2" ≠ "") as Hid by discriminate.
  assert ("root certificate" ≠ "") as Hroot by discriminate.
  assert ("client certificate" ≠ "") as Hcert by discriminate.
  assert (privateKeyToPem (keyPrivateKey sample_keys) ≠ "") as Hkey by discriminate.
  assert (Legacy.discoveredBridges legacy_discovered !! Legacy.host legacy_unpaired
          = Some "0455a1b2") as Hfound by reflexivity.
  destruct (LegacyFacts.legacy_first_connection_saves_discovered_id legacy_unpaired env
              legacy_discovered sample_keys (signing_result "200 OK") signed
              "root certificate" "client certificate" "0455a1b2"
              [lamp; hub] Hhost eq_refl Hfound Hid pressed_then_signed eq_refl
              eq_refl Hroot eq_refl Hcert Hkey eq_refl)
    as (_ & Hconfig & Hbridge & _ & Hstatus & _).
  split; [exact Hhost|]. split; [reflexivity|]. split; [exact Hfound|].
  split; [exact pressed_then_signed|]. split; [reflexivity|]. split; [reflexivity|].
  split; [unfold r; by rewrite Hconfig|]. split; [exact Hbridge|exact Hstatus].
Defined.

End LegacySamples.
